(** * LakeHouseAccelerator: provisioning orchestration layer

    A shallow embedding of the provisioning core of the repository
    ([databricks_api.py], [handlers.py], [logger_utils.py] and the row
    dispatcher and onboarding route of [app.py]) together with the properties
    stated about it.

    Lay-out: Python strings and values; the outside world (configuration,
    requests, collaborators, the state a run threads through); the program,
    function by function under the names of the source; a reference
    workspace and a scripted transport to run the program on; the vocabulary
    of the properties; the properties with their proofs.

    Conventions of the embedding:
    - Python [str] values are [string]s of ASCII text; [strip], [lower] and
      [upper] act on the ASCII range.
    - Python values that travel through JSON (request payloads, response
      bodies, handler results, audit fields) are terms of [value]; numbers
      are integers.
    - An input row maps field names to strings or [None].
    - Functions that can raise return [res]; functions that talk to the
      outside world run in the state-and-exception monad [M] over [World].
    - [requests] fails with a [RequestException] only; the token provider
      returns a token or raises (a [RequestException] of its exchange, or the
      [KeyError] / [TypeError] of reading a malformed answer); [json.dumps],
      [json.loads], [repr] and the clock are collaborators of the [Platform].
    - Every call of [requests.request] / [requests.post] is logged in
      [calls], every [time.sleep] in [sleeps]; [print] is not modelled. *)

From Stdlib Require Import String Ascii List ZArith Bool Lia.
Import ListNotations.
Open Scope string_scope.

(* ================================================================== *)
(** ** Python strings *)
(* ================================================================== *)

Module PyStr.

(** [str.isspace] on one ASCII character: TAB..CR, FS..US and space. *)
Definition is_space (c : ascii) : bool :=
  let n := nat_of_ascii c in
  (((9 <=? n) && (n <=? 13)) || ((28 <=? n) && (n <=? 31)) || (n =? 32))%nat.

Fixpoint lstrip (s : string) : string :=
  match s with
  | EmptyString => EmptyString
  | String c s' => if is_space c then lstrip s' else s
  end.

Fixpoint rstrip (s : string) : string :=
  match s with
  | EmptyString => EmptyString
  | String c s' =>
      match rstrip s' with
      | EmptyString => if is_space c then EmptyString else String c EmptyString
      | r => String c r
      end
  end.

(** [s.strip()] *)
Definition strip (s : string) : string := lstrip (rstrip s).

Definition lower_char (c : ascii) : ascii :=
  let n := nat_of_ascii c in
  if ((65 <=? n) && (n <=? 90))%nat then ascii_of_nat (n + 32)%nat else c.

Definition upper_char (c : ascii) : ascii :=
  let n := nat_of_ascii c in
  if ((97 <=? n) && (n <=? 122))%nat then ascii_of_nat (n - 32)%nat else c.

Fixpoint map_chars (f : ascii -> ascii) (s : string) : string :=
  match s with
  | EmptyString => EmptyString
  | String c s' => String (f c) (map_chars f s')
  end.

(** [s.lower()], [s.upper()] *)
Definition lower : string -> string := map_chars lower_char.
Definition upper : string -> string := map_chars upper_char.

(** [sep.join(parts)] *)
Fixpoint join (sep : string) (parts : list string) : string :=
  match parts with
  | [] => EmptyString
  | [p] => p
  | p :: ps => p ++ sep ++ join sep ps
  end.

(** [c in s] for a one-character needle. *)
Fixpoint contains_char (c : ascii) (s : string) : bool :=
  match s with
  | EmptyString => false
  | String d s' => Ascii.eqb d c || contains_char c s'
  end.

(** [s.split(sep)] for a one-character separator. *)
Fixpoint split_char (sep : ascii) (s : string) : list string :=
  match s with
  | EmptyString => [EmptyString]
  | String c s' =>
      if Ascii.eqb c sep then EmptyString :: split_char sep s'
      else match split_char sep s' with
           | [] => [String c EmptyString]
           | w :: ws => String c w :: ws
           end
  end.

(** [s.split(sep, 1)] for a one-character separator: the text before the
    first separator and, when there is one, the text after it. *)
Fixpoint split_once (sep : ascii) (s : string) : string * option string :=
  match s with
  | EmptyString => (EmptyString, None)
  | String c s' =>
      if Ascii.eqb c sep then (EmptyString, Some s')
      else let '(a, b) := split_once sep s' in (String c a, b)
  end.

(** [s.rstrip(ch)] for a one-character set. *)
Fixpoint rstrip_char (ch : ascii) (s : string) : string :=
  match s with
  | EmptyString => EmptyString
  | String c s' =>
      match rstrip_char ch s' with
      | EmptyString => if Ascii.eqb c ch then EmptyString else String c EmptyString
      | r => String c r
      end
  end.

(** Truthiness of a [str]. *)
Definition nonempty (s : string) : bool :=
  match s with EmptyString => false | _ => true end.

(** [s in {..}] / [s in [..]] for a collection of strings. *)
Definition str_in (s : string) (l : list string) : bool :=
  existsb (String.eqb s) l.

(** [str(n)] for an [int]. *)
Fixpoint digits_of (fuel : nat) (n : N) (acc : string) : string :=
  match fuel with
  | O => acc
  | S fuel' =>
      let d := ascii_of_N (48 + N.modulo n 10)%N in
      let q := N.div n 10%N in
      match q with
      | N0 => String d acc
      | _ => digits_of fuel' q (String d acc)
      end
  end.

Definition str_of_N (n : N) : string :=
  digits_of (S (N.to_nat (N.log2 n))) n EmptyString.

Definition str_of_Z (z : Z) : string :=
  match z with
  | Z0 => "0"
  | Zpos p => str_of_N (Npos p)
  | Zneg p => String "-" (str_of_N (Npos p))
  end.

End PyStr.
Import PyStr.

(* ================================================================== *)
(** ** Python values, exceptions and results *)
(* ================================================================== *)

(** The JSON-shaped fragment of Python values. *)
#[warnings="-register-all"]
Inductive value : Type :=
| VNone
| VBool (b : bool)
| VInt (z : Z)
| VStr (s : string)
| VList (l : list value)
| VDict (d : list (string * value)).

(** The exception classes that occur in the modelled code. *)
Inductive exn : Type :=
| ValueError (msg : string)
| RuntimeError (msg : string)
| AttributeError (msg : string)
| TypeError (msg : string)
| KeyError (repr_of_key : string)
| IndexError (msg : string)
| NameError (msg : string)
| JSONDecodeError (msg : string)
| RequestException (msg : string)
| DatabaseError (msg : string)
| OSError (msg : string).

(** [str(e)] *)
Definition str_exn (e : exn) : string :=
  match e with
  | ValueError m | RuntimeError m | AttributeError m | TypeError m
  | IndexError m | NameError m | JSONDecodeError m | RequestException m
  | DatabaseError m | OSError m => m
  | KeyError k => k
  end.

Inductive res (A : Type) : Type :=
| Ok (a : A)
| Raise (e : exn).
Arguments Ok {A} a.
Arguments Raise {A} e.

(** [l.append(x)] *)
Definition py_append {A} (l : list A) (x : A) : list A := (l ++ [x])%list.

(** An input row: a string-keyed mapping whose values are strings or [None]
    (an absent form field). *)
Definition Row := list (string * option string).

Fixpoint assoc {A} (k : string) (d : list (string * A)) : option A :=
  match d with
  | [] => None
  | (k', v) :: d' => if String.eqb k' k then Some v else assoc k d'
  end.

(** [row.get(k)]: [None] both for a missing key and for a [None] value. *)
Definition row_get (row : Row) (k : string) : option string :=
  match assoc k row with
  | Some v => v
  | None => None
  end.

(** [row.get(k) or ""] *)
Definition row_str (row : Row) (k : string) : string :=
  match row_get row k with
  | Some s => s
  | None => ""
  end.

(* ================================================================== *)
(** ** handlers.py: the group-name authority *)
(* ================================================================== *)

(** [construct_group_name(row)] *)
Definition construct_group_name (row : Row) : res string :=
  let env_raw := lower (strip (row_str row "env")) in
  let is_prd := str_in env_raw ["prod"; "production"; "prd"; "p"] in
  let env := if is_prd then "prod" else "nprod" in
  let bu := strip (row_str row "bu") in
  let domain := strip (row_str row "domain") in
  let appName := strip (row_str row "appName") in
  let role := strip (row_str row "role") in
  let finish (bu_value : string) : res string :=
    let parts := [env] in
    let parts := if nonempty bu_value then py_append parts ("TM" ++ bu_value) else parts in
    let parts := if nonempty domain then py_append parts (domain) else parts in
    let parts := if nonempty appName then py_append parts (appName) else parts in
    let parts := if nonempty role then py_append parts (role) else parts in
    Ok (join "_" parts) in
  if String.eqb bu "Others" then
    let bu_value := strip (row_str row "other_type") in
    if negb (nonempty bu_value)
    then Raise (ValueError "other_type is required when bu is 'Others'")
    else finish bu_value
  else finish bu.

(** The naming rule as the specification words it, over the trimmed fields:
    normalise the environment, pick the business unit or its override, and
    join the non-empty parts. *)
Module NamingSpec.

Definition prefix (env : string) : string :=
  if str_in (lower env) ["prod"; "production"; "prd"; "p"] then "prod" else "nprod".

Definition business_unit (bu other_type : string) : res string :=
  if String.eqb bu "Others" then
    if nonempty other_type then Ok other_type
    else Raise (ValueError "other_type is required when bu is 'Others'")
  else Ok bu.

(** The business-unit segment: "TM" followed by the unit, empty for an empty
    unit. *)
Definition tm (bu : string) : string :=
  if nonempty bu then "TM" ++ bu else "".

Definition GroupName (env bu other_type domain appName role : string) : res string :=
  match business_unit bu other_type with
  | Raise e => Raise e
  | Ok b => Ok (join "_" (filter nonempty [prefix env; tm b; domain; appName; role]))
  end.

End NamingSpec.

(* ================================================================== *)
(** ** Operations on Python values *)
(* ================================================================== *)

(** [bool(v)] *)
Definition truthy (v : value) : bool :=
  match v with
  | VNone => false
  | VBool b => b
  | VInt z => negb (z =? 0)%Z
  | VStr s => nonempty s
  | VList l => match l with [] => false | _ => true end
  | VDict d => match d with [] => false | _ => true end
  end.

(** [a or b] *)
Definition py_or (a b : value) : value := if truthy a then a else b.

(** [v is None] *)
Definition is_none (v : value) : bool :=
  match v with VNone => true | _ => false end.

(** [type(v).__name__] *)
Definition type_name (v : value) : string :=
  match v with
  | VNone => "NoneType"
  | VBool _ => "bool"
  | VInt _ => "int"
  | VStr _ => "str"
  | VList _ => "list"
  | VDict _ => "dict"
  end.

Definition no_attribute (v : value) (attr : string) : exn :=
  AttributeError ("'" ++ type_name v ++ "' object has no attribute '" ++ attr ++ "'").

(** [v.get(k, dflt)]; only a dict has [get]. *)
Definition py_get_default (v : value) (k : string) (dflt : value) : res value :=
  match v with
  | VDict d => Ok (match assoc k d with Some x => x | None => dflt end)
  | _ => Raise (no_attribute v "get")
  end.

(** [v.get(k)] *)
Definition py_get (v : value) (k : string) : res value := py_get_default v k VNone.

(** [v[0]] *)
Definition py_index0 (v : value) : res value :=
  match v with
  | VList (x :: _) => Ok x
  | VList [] => Raise (IndexError "list index out of range")
  | VStr (String c _) => Ok (VStr (String c EmptyString))
  | VStr EmptyString => Raise (IndexError "string index out of range")
  | VDict _ => Raise (KeyError "0")
  | _ => Raise (TypeError ("'" ++ type_name v ++ "' object is not subscriptable"))
  end.

(** [v[k]] for a string key. *)
Definition py_item (v : value) (k : string) : res value :=
  match v with
  | VDict d => match assoc k d with
               | Some x => Ok x
               | None => Raise (KeyError ("'" ++ k ++ "'"))
               end
  | VList _ => Raise (TypeError "list indices must be integers or slices, not str")
  | VStr _ => Raise (TypeError "string indices must be integers, not 'str'")
  | _ => Raise (TypeError ("'" ++ type_name v ++ "' object is not subscriptable"))
  end.

Fixpoint chars (s : string) : list value :=
  match s with
  | EmptyString => []
  | String c s' => VStr (String c EmptyString) :: chars s'
  end.

(** The items a [for] loop over [v] visits. *)
Definition py_iter (v : value) : res (list value) :=
  match v with
  | VList l => Ok l
  | VDict d => Ok (map (fun kv => VStr (fst kv)) d)
  | VStr s => Ok (chars s)
  | _ => Raise (TypeError ("'" ++ type_name v ++ "' object is not iterable"))
  end.

(** [v == s] for a [str] s, and [v == n] for an [int] n other than 0 and 1. *)
Definition eq_str (v : value) (s : string) : bool :=
  match v with VStr t => String.eqb t s | _ => false end.

Definition eq_int (v : value) (n : Z) : bool :=
  match v with VInt z => (z =? n)%Z | _ => false end.

(** The double-quote character, as a string. *)
Definition dq : string := String (ascii_of_nat 34) EmptyString.

(** [needle in s] for two strings. *)
Fixpoint is_substring (needle s : string) : bool :=
  String.prefix needle s
  || match s with
     | EmptyString => false
     | String _ s' => is_substring needle s'
     end.

(** [k in v] for a [str] k. *)
Definition py_contains (k : string) (v : value) : res bool :=
  match v with
  | VDict d => Ok (match assoc k d with Some _ => true | None => false end)
  | VList l => Ok (existsb (fun x => eq_str x k) l)
  | VStr s => Ok (is_substring k s)
  | _ => Raise (TypeError ("argument of type '" ++ type_name v ++ "' is not iterable"))
  end.

(** Truthiness of an environment variable read with [os.getenv]. *)
Definition env_truthy (o : option string) : bool :=
  match o with Some s => nonempty s | None => false end.

(** An environment variable inside an f-string. *)
Definition env_str (o : option string) : string :=
  match o with Some s => s | None => "None" end.

Definition opt_value (o : option string) : value :=
  match o with Some s => VStr s | None => VNone end.

(* ================================================================== *)
(** ** The outside world *)
(* ================================================================== *)

(** The process environment read at import time. *)
Record Config : Type := {
  INSTANCE : option string;             (* DATABRICKS_INSTANCE *)
  WORKSPACE_INSTANCE : option string;
  ACCOUNT : option string;              (* ACCOUNT_ID *)
  WORKSPACE_TOKEN : option string;
  DATABRICKS_HTTP_PATH : option string;
  AUDIT_MODE : string;
  AUDIT_FILE_PATH : string;             (* AUDIT_LOG_PATH *)
  AUDIT_DELTA_TABLE : string
}.

(** One call of [requests.request] / [requests.post]. *)
Record request : Type := {
  method : string;
  url : option string;
  headers : value;
  params : value;
  json : value;
  timeout : Z
}.

(** What the code reads of a [requests.Response]: the status, the result of
    [resp.json()] ([None] when it raises) and [resp.text]. *)
Record response : Type := {
  status_code : Z;
  json_body : option value;
  text : string
}.

(** A network exchange either completes or raises a
    [requests.exceptions.RequestException] with the given text. *)
Inductive attempt (A : Type) : Type :=
| Done (a : A)
| Failed (msg : string).
Arguments Done {A} a.
Arguments Failed {A} msg.

(** The collaborators of the provisioning core.  [E] is the state of
    everything outside the process; each operation may change it. *)
Record Platform (E : Type) : Type := {
  (* requests.request(...) *)
  http_send : request -> E -> attempt response * E;
  (* dbx_auth.get_dbx_access_token(): the token, or the exception it raises *)
  get_dbx_access_token : E -> res string * E;
  (* databricks.sql.connect(...) *)
  sql_connect : E -> res unit * E;
  (* cursor.execute(sql_text, params) *)
  sql_execute : string -> list (string * value) -> E -> res unit * E;
  (* os.makedirs + DataFrame.to_csv(mode="a"): the exception they raise, if any *)
  fs_error : E -> option exn;
  (* datetime.utcnow().isoformat() *)
  utcnow : E -> string;
  (* json.dumps, json.loads, and repr of a list or a dict *)
  json_dumps : value -> string;
  json_loads : string -> res value;
  py_repr : value -> string
}.
Arguments http_send {E} _ _ _.
Arguments get_dbx_access_token {E} _ _.
Arguments sql_connect {E} _ _.
Arguments sql_execute {E} _ _ _ _.
Arguments fs_error {E} _ _.
Arguments utcnow {E} _ _.
Arguments json_dumps {E} _ _.
Arguments json_loads {E} _ _.
Arguments py_repr {E} _ _.

(** One line of the flat-file audit store. *)
Inductive csv_line : Type :=
| Header (columns : list string)
| Data (cells : list value).

(** The state a run threads through: the outside world, the requests issued
    so far (oldest first), the delays slept, the ambient audit context
    ([_AUDIT_CONTEXT]) and the audit file ([None] while it does not exist). *)
Record World (E : Type) : Type := {
  ext : E;
  calls : list request;
  sleeps : list Z;
  audit_context : list (string * value);
  audit_file : option (list csv_line)
}.
Arguments ext {E} _.
Arguments calls {E} _.
Arguments sleeps {E} _.
Arguments audit_context {E} _.
Arguments audit_file {E} _.
Arguments Build_World {E} _ _ _ _ _.

Definition set_ext {E} (e : E) (w : World E) : World E :=
  Build_World e (calls w) (sleeps w) (audit_context w) (audit_file w).
Definition log_call {E} (rq : request) (w : World E) : World E :=
  Build_World (ext w) (calls w ++ [rq])%list (sleeps w) (audit_context w) (audit_file w).
Definition log_sleep {E} (d : Z) (w : World E) : World E :=
  Build_World (ext w) (calls w) (sleeps w ++ [d])%list (audit_context w) (audit_file w).
Definition set_audit_file {E} (f : option (list csv_line)) (w : World E) : World E :=
  Build_World (ext w) (calls w) (sleeps w) (audit_context w) f.
Definition set_context {E} (c : list (string * value)) (w : World E) : World E :=
  Build_World (ext w) (calls w) (sleeps w) c (audit_file w).

(** The state-and-exception monad of the embedding: a raised exception keeps
    the state reached when it was raised. *)
Definition M (E A : Type) : Type := World E -> res A * World E.

Definition ret {E A} (a : A) : M E A := fun w => (Ok a, w).
Definition raise {E A} (e : exn) : M E A := fun w => (Raise e, w).
Definition bind {E A B} (m : M E A) (k : A -> M E B) : M E B :=
  fun w => match m w with
           | (Ok a, w') => k a w'
           | (Raise e, w') => (Raise e, w')
           end.
(** [try: m  except Exception as e: h e] *)
Definition try_except {E A} (m : M E A) (h : exn -> M E A) : M E A :=
  fun w => match m w with
           | (Ok a, w') => (Ok a, w')
           | (Raise e, w') => h e w'
           end.
Definition lift {E A} (r : res A) : M E A := fun w => (r, w).

Declare Scope py_scope.
Delimit Scope py_scope with py.
Notation "x <- m ;; k" := (bind m (fun x => k))
  (at level 61, m at next level, right associativity) : py_scope.
Notation "m ;; k" := (bind m (fun _ => k))
  (at level 61, right associativity) : py_scope.
Open Scope py_scope.

(* ================================================================== *)
(** ** databricks_api.py *)
(* ================================================================== *)

Section Program.

Context {E : Type} (P : Platform E) (cfg : Config).

Definition FAST_TIMEOUT_SECS : Z := 12.
Definition FAST_RETRIES : Z := 2.

(** [str(v)] *)
Definition py_str (v : value) : string :=
  match v with
  | VNone => "None"
  | VBool true => "True"
  | VBool false => "False"
  | VInt z => str_of_Z z
  | VStr s => s
  | _ => py_repr P v
  end.

(** [_auth_headers()] *)
Definition _auth_headers : M E value :=
  fun w =>
    match get_dbx_access_token P (ext w) with
    | (Ok tok, e) =>
        (Ok (VDict [("Authorization", VStr ("Bearer " ++ tok));
                    ("Content-Type", VStr "application/json")]), set_ext e w)
    | (Raise ex, e) => (Raise ex, set_ext e w)
    end.

(** [_url(path)] *)
Definition _url (path : string) : res string :=
  match INSTANCE cfg with
  | Some i => Ok (rstrip_char "/" i ++ path)
  | None => Raise (no_attribute VNone "rstrip")
  end.

(** [_ws_url(path)] *)
Definition _ws_url (path : string) : option string :=
  let base := if env_truthy (WORKSPACE_INSTANCE cfg)
              then WORKSPACE_INSTANCE cfg else INSTANCE cfg in
  if env_truthy base then Some (rstrip_char "/" (env_str base) ++ path) else None.

(** [requests.request(method, url, headers=..., timeout=..., **kwargs)] *)
Definition requests_request (rq : request) : M E (attempt response) :=
  fun w => let '(a, e) := http_send P rq (ext w) in (Ok a, log_call rq (set_ext e w)).

(** [time.sleep(delay)] *)
Definition time_sleep (delay : Z) : M E unit := fun w => (Ok tt, log_sleep delay w).

(** The [try] body of one attempt of [_safe_request] up to the response,
    with [except RequestException] turned into [Failed]; any other exception
    of the token provider passes the [except] clause and is raised. *)
Definition send_once (rq : request) : M E (attempt response) :=
  fun w =>
    match (if truthy (headers rq) then ret (headers rq) else _auth_headers) w with
    | (Ok h, w1) =>
        requests_request
          {| method := method rq; url := url rq; headers := h;
             params := params rq; json := json rq; timeout := timeout rq |} w1
    | (Raise (RequestException msg), w1) => (Ok (Failed msg), w1)
    | (Raise e, w1) => (Raise e, w1)
    end.

(** The outcome built from a response that arrived. *)
Definition outcome_of_response (rq : request) (r : response) : value :=
  let sc := status_code r in
  if ((sc =? 200) || (sc =? 201))%Z then
    match json_body r with
    | Some b => VDict [("status_code", VInt sc); ("body", b)]
    | None => VDict [("status_code", VInt sc); ("body", VDict []);
                     ("message", VStr "Empty body")]
    end
  else if (sc =? 204)%Z then
    VDict [("status_code", VInt 204); ("body", VDict []); ("message", VStr "No content")]
  else
    let body := match json_body r with
                | Some b => b
                | None => VDict [("error", VStr (text r))]
                end in
    VDict [("status_code", VInt sc); ("body", body);
           ("error", VStr (method rq ++ " " ++ env_str (url rq) ++ " failed: " ++ str_of_Z sc))].

(** The outcome after the last attempt failed in transport. *)
Definition outcome_of_failure (rq : request) (retries : Z) (msg : string) : value :=
  VDict [("status_code", VInt 0); ("body", VDict []);
         ("error", VStr (method rq ++ " " ++ env_str (url rq) ++ " network error after "
                         ++ str_of_Z retries ++ " attempts: " ++ msg))].

(** The [for attempt in range(1, retries + 1)] loop, [n] iterations left.
    Falling off the end of the loop returns [None]. *)
Fixpoint safe_request_loop (n : nat) (attempt_no delay retries : Z) (rq : request)
  : M E value :=
  match n with
  | O => ret VNone
  | S n' =>
      a <- send_once rq ;;
      match a with
      | Done r => ret (outcome_of_response rq r)
      | Failed msg =>
          if (attempt_no =? retries)%Z then ret (outcome_of_failure rq retries msg)
          else time_sleep delay ;;
               safe_request_loop n' (attempt_no + 1)%Z (delay * 2)%Z retries rq
      end
  end.

(** [_safe_request(method, url, retries, headers, timeout, **kwargs)]; the
    keyword arguments in use are [params] and [json]. *)
Definition _safe_request (rq : request) (retries : Z) : M E value :=
  safe_request_loop (Z.to_nat retries) 1 2 retries rq.

Definition mk_request (m : string) (u : option string) (h p j : value) : request :=
  {| method := m; url := u; headers := h; params := p; json := j;
     timeout := FAST_TIMEOUT_SECS |}.

Definition users_path : string :=
  "/api/2.1/accounts/" ++ env_str (ACCOUNT cfg) ++ "/scim/v2/Users".
Definition groups_path : string :=
  "/api/2.1/accounts/" ++ env_str (ACCOUNT cfg) ++ "/scim/v2/Groups".

(** [scim_list_users(filter_)] *)
Definition scim_list_users (filter_ : string) : M E value :=
  u <- lift (_url users_path) ;;
  let params := if nonempty filter_ then VDict [("filter", VStr filter_)] else VNone in
  _safe_request (mk_request "GET" (Some u) VNone params VNone) FAST_RETRIES.

(** [scim_create_user(payload)] *)
Definition scim_create_user (payload : value) : M E value :=
  u <- lift (_url users_path) ;;
  _safe_request (mk_request "POST" (Some u) VNone VNone payload) FAST_RETRIES.

(** [scim_patch_user(user_id, patch_ops)] *)
Definition scim_patch_user (user_id : value) (patch_ops : value) : M E value :=
  u <- lift (_url (users_path ++ "/" ++ py_str user_id)) ;;
  _safe_request (mk_request "PATCH" (Some u) VNone VNone patch_ops) FAST_RETRIES.

(** [scim_delete_user(user_id)] *)
Definition scim_delete_user (user_id : value) : M E value :=
  u <- lift (_url (users_path ++ "/" ++ py_str user_id)) ;;
  _safe_request (mk_request "DELETE" (Some u) VNone VNone VNone) FAST_RETRIES.

(** [scim_list_groups(filter_)] *)
Definition scim_list_groups (filter_ : string) : M E value :=
  u <- lift (_url groups_path) ;;
  let params := if nonempty filter_ then VDict [("filter", VStr filter_)] else VNone in
  _safe_request (mk_request "GET" (Some u) VNone params VNone) FAST_RETRIES.

(** [scim_create_group(payload)] *)
Definition scim_create_group (payload : value) : M E value :=
  u <- lift (_url groups_path) ;;
  _safe_request (mk_request "POST" (Some u) VNone VNone payload) FAST_RETRIES.

(** [scim_patch_group(group_id, patch_ops)] *)
Definition scim_patch_group (group_id : value) (patch_ops : value) : M E value :=
  u <- lift (_url (groups_path ++ "/" ++ py_str group_id)) ;;
  _safe_request (mk_request "PATCH" (Some u) VNone VNone patch_ops) FAST_RETRIES.

(** The loop shared by the name lookups: the [id_key] of the first item whose
    [name_key] equals [name], [None] when there is none. *)
Fixpoint find_named (name_key id_key : string) (name : string) (items : list value)
  : res value :=
  match items with
  | [] => Ok VNone
  | item :: rest =>
      match py_get item name_key with
      | Raise e => Raise e
      | Ok n => if eq_str n name then py_get item id_key
                else find_named name_key id_key name rest
      end
  end.

(** The listing shared by [get_policy_id], [get_cluster_id] and
    [get_sql_warehouse_id]: fetch, check for 200, read the list under [key]. *)
Definition list_resources (path what key : string) : M E value :=
  h <- _auth_headers ;;
  api_response <- _safe_request (mk_request "GET" (_ws_url path) h VNone VNone) FAST_RETRIES ;;
  sc <- lift (py_get api_response "status_code") ;;
  response_body <- lift (py_get_default api_response "body" (VDict [])) ;;
  if negb (eq_int sc 200) then
    err <- lift (py_get api_response "error") ;;
    let error_msg := py_str (py_or err (VStr (py_str response_body))) in
    raise (RuntimeError ("Failed to retrieve " ++ what ++ ". API Error: " ++ error_msg))
  else lift (py_get_default response_body key (VList [])).

(** [get_policy_id(policy_name)] *)
Definition get_policy_id (policy_name : string) : M E value :=
  policy_list <- list_resources "/api/2.0/policies/clusters/list"
                   "cluster policies list" "policies" ;;
  items <- lift (py_iter policy_list) ;;
  found_id <- lift (find_named "name" "policy_id" policy_name items) ;;
  if truthy found_id then ret found_id
  else raise (RuntimeError ("Cluster policy '" ++ policy_name ++ "' not found in the workspace.")).

(** [get_cluster_id(cluster_name)] *)
Definition get_cluster_id (cluster_name : string) : M E value :=
  cluster_list <- list_resources "/api/2.0/clusters/list" "cluster list" "clusters" ;;
  items <- lift (py_iter cluster_list) ;;
  lift (find_named "cluster_name" "cluster_id" cluster_name items).

(** [get_sql_warehouse_id(wh_name)] *)
Definition get_sql_warehouse_id (wh_name : string) : M E value :=
  wh_list <- list_resources "/api/2.0/sql/warehouses" "warehouse list" "warehouses" ;;
  items <- lift (py_iter wh_list) ;;
  lift (find_named "name" "id" wh_name items).

(** [int(s)] for a [str] of ASCII text: surrounding white space, an optional
    sign, decimal digits with single underscores between them.  The white space [int]
    skips is TAB, LF, VT, FF, CR and the space; unlike [str.strip] it does
    not skip FS, GS, RS and US. *)
Definition is_digit (c : ascii) : bool :=
  let n := nat_of_ascii c in ((48 <=? n) && (n <=? 57))%nat.

Definition is_int_space (c : ascii) : bool :=
  let n := nat_of_ascii c in (((9 <=? n) && (n <=? 13)) || (n =? 32))%nat.

Fixpoint skip_int_space (s : string) : string :=
  match s with
  | EmptyString => EmptyString
  | String c s' => if is_int_space c then skip_int_space s' else s
  end.

Fixpoint drop_int_space (s : string) : string :=
  match s with
  | EmptyString => EmptyString
  | String c s' =>
      match drop_int_space s' with
      | EmptyString => if is_int_space c then EmptyString else String c EmptyString
      | r => String c r
      end
  end.

Fixpoint parse_digits (s : string) (acc : Z) (after_digit : bool) : option Z :=
  match s with
  | EmptyString => if after_digit then Some acc else None
  | String c s' =>
      if is_digit c
      then parse_digits s' (10 * acc + Z.of_nat (nat_of_ascii c - 48))%Z true
      else if Ascii.eqb c "_" && after_digit then parse_digits s' acc false
      else None
  end.

Definition int_of_str (s : string) : res Z :=
  let t := skip_int_space (drop_int_space s) in
  let parsed :=
    match t with
    | String "-" t' => option_map Z.opp (parse_digits t' 0 false)
    | String "+" t' => parse_digits t' 0 false
    | _ => parse_digits t 0 false
    end in
  match parsed with
  | Some z => Ok z
  | None => Raise (ValueError ("invalid literal for int() with base 10: "
                               ++ py_repr P (VStr s)))
  end.

(** [int(base_workers or 1)] *)
Definition int_or_1 (base_workers : option string) : res Z :=
  match base_workers with
  | Some s => if nonempty s then int_of_str s else Ok 1%Z
  | None => Ok 1%Z
  end.

(** The payload [create_all_purpose_cluster] posts for [w] requested workers. *)
Definition cluster_payload (application_name : string) (policy_id : value)
    (node_type_id : string) (w : Z) (project_tags : list (string * value)) : value :=
  VDict [("cluster_name", VStr application_name);
         ("cluster_type", VStr "all-purpose");
         ("spark_version", VStr "16.4.x-scala2.12");
         ("node_type_id", VStr node_type_id);
         ("driver_node_type_id", VStr node_type_id);
         ("autotermination_minutes", VInt 10);
         ("autoscale", VDict [("min_workers", VInt (Z.max 1 w));
                              ("max_workers", VInt (Z.max 2 (w * 2)))]);
         ("custom_tags", VDict project_tags);
         ("data_security_mode", VStr "USER_ISOLATION");
         ("policy_id", policy_id)].

(** [create_all_purpose_cluster(application_name, policy_id, node_type_id,
    base_workers, environment, project_tags)] *)
Definition create_all_purpose_cluster (application_name : string) (policy_id : value)
    (node_type_id : string) (base_workers : option string) (environment : string)
    (project_tags : list (string * value)) : M E value :=
  h <- _auth_headers ;;
  let u := _ws_url "/api/2.0/clusters/create" in
  w <- lift (int_or_1 base_workers) ;;
  let payload := cluster_payload application_name policy_id node_type_id w project_tags in
  a <- requests_request {| method := "POST"; url := u; headers := h; params := VNone;
                           json := payload; timeout := 30 |} ;;
  match a with
  | Failed msg => raise (RequestException msg)
  | Done resp =>
      if (status_code resp =? 200)%Z then
        match json_body resp with
        | Some b => lift (py_item b "cluster_id")
        | None => raise (JSONDecodeError "Expecting value: line 1 column 1 (char 0)")
        end
      else raise (RuntimeError ("Cluster creation failed: " ++ text resp))
  end.

(** The payload [create_sql_warehouse] posts. *)
Definition warehouse_payload (wh_name : string) (sql_wh_size : value)
    (project_tags : list (string * value)) : value :=
  let custom_tags_list :=
    map (fun kv => VDict [("key", VStr (fst kv)); ("value", snd kv)])
        (filter (fun kv => truthy (snd kv)) project_tags) in
  VDict [("name", VStr wh_name);
         ("cluster_size", sql_wh_size);
         ("auto_stop_mins", VInt 10);
         ("min_num_clusters", VInt 1);
         ("max_num_clusters", VInt 2);
         ("enable_serverless_compute", VBool true);
         ("tags", VDict [("custom_tags", VList custom_tags_list)])].

(** [create_sql_warehouse(application_name, sql_wh_size, project_tags)] *)
Definition create_sql_warehouse (application_name : string) (sql_wh_size : value)
    (project_tags : list (string * value)) : M E value :=
  let wh_name := application_name ++ "_Reporting_wh" in
  wh_id <- get_sql_warehouse_id wh_name ;;
  if truthy wh_id then ret wh_id
  else
    let payload := warehouse_payload wh_name sql_wh_size project_tags in
    let u := _ws_url "/api/2.0/sql/warehouses" in
    h <- _auth_headers ;;
    api_response <- _safe_request (mk_request "POST" u h VNone payload) FAST_RETRIES ;;
    sc <- lift (py_get api_response "status_code") ;;
    if eq_int sc 200 then
      body <- lift (py_get_default api_response "body" (VDict [])) ;;
      new_wh_id <- lift (py_get body "id") ;;
      if truthy new_wh_id then ret new_wh_id
      else
        b <- lift (py_get api_response "body") ;;
        raise (RuntimeError ("SQL Warehouse creation succeeded but ID was missing from response body: "
                             ++ py_str b))
    else
      err <- lift (py_get api_response "error") ;;
      b <- lift (py_get api_response "body") ;;
      let error_msg := py_str (py_or err (VStr (py_str b))) in
      raise (RuntimeError ("Failed to create SQL Warehouse '" ++ wh_name
                           ++ "'. API Error: " ++ error_msg)).

(** [build_group_name(organization_name, department, application_name,
    environment)] *)
Definition build_group_name (organization_name department application_name
    environment : string) : list string :=
  let prefix := if String.eqb (lower environment) "dev" then "nprod" else "prod" in
  let base_name := organization_name ++ "_" ++ department ++ "_" ++ application_name in
  let group_roles := ["administrators"; "contributors"; "readers"] in
  map (fun role => prefix ++ "_" ++ base_name ++ "_" ++ role) group_roles.

(** [get_object_id(object_name)] *)
Definition get_object_id (object_name : string) : M E value :=
  let u := _ws_url "/api/2.0/workspace/get-status" in
  h <- _auth_headers ;;
  api_response <- _safe_request
                    (mk_request "GET" u h (VDict [("path", VStr object_name)]) VNone)
                    FAST_RETRIES ;;
  sc <- lift (py_get api_response "status_code") ;;
  response_body <- lift (py_get_default api_response "body" (VDict [])) ;;
  if eq_int sc 200 then
    found_id <- lift (py_get response_body "object_id") ;;
    if truthy found_id then ret found_id
    else raise (RuntimeError ("'object_id' was missing from response body for path: "
                              ++ object_name))
  else
    error_msg <- lift (py_get api_response "error") ;;
    if eq_int sc 404 then
      raise (RuntimeError ("Workspace object not found at path '" ++ object_name
                           ++ "' (Status 404)."))
    else
      raise (RuntimeError ("Failed to get object status for path '" ++ object_name
                           ++ "'. API Error: " ++ py_str error_msg)).

(** The tail shared by [get_group_id] and [get_user_id] once the listing came
    back with 200: the id of the first resource, [None] when there is none. *)
Definition first_resource_id (response_body : value) : M E value :=
  resources <- lift (py_get_default response_body "Resources" (VList [])) ;;
  if truthy resources then
    first <- lift (py_index0 resources) ;;
    lift (py_get first "id")
  else ret VNone.

(** [get_group_id(group_name)] *)
Definition get_group_id (group_name : string) : M E value :=
  let u := _ws_url "/api/2.0/preview/scim/v2/Groups" in
  h <- _auth_headers ;;
  api_response <- _safe_request
                    (mk_request "GET" u h
                       (VDict [("filter", VStr ("displayName eq " ++ dq ++ group_name ++ dq))])
                       VNone)
                    FAST_RETRIES ;;
  sc <- lift (py_get api_response "status_code") ;;
  response_body <- lift (py_get_default api_response "body" (VDict [])) ;;
  if eq_int sc 200 then first_resource_id response_body
  else
    err <- lift (py_get api_response "error") ;;
    let error_msg := py_str (py_or err (VStr (py_str response_body))) in
    raise (RuntimeError ("Failed to retrieve Group ID. API Error: " ++ error_msg)).

(** The payload [create_project_groups] posts. *)
Definition group_payload (group_full_name : string) : value :=
  VDict [("schemas", VList [VStr "urn:ietf:params:scim:schemas:core:2.0:Group"]);
         ("displayName", VStr group_full_name)].

(** [create_project_groups(group_full_name)] *)
Definition create_project_groups (group_full_name : string) : M E value :=
  group_id <- get_group_id group_full_name ;;
  if truthy group_id then ret group_id
  else
    let u := _ws_url "/api/2.0/preview/scim/v2/Groups" in
    let payload := group_payload group_full_name in
    h <- _auth_headers ;;
    api_response <- _safe_request (mk_request "POST" u h VNone payload) FAST_RETRIES ;;
    sc <- lift (py_get api_response "status_code") ;;
    response_body <- lift (py_get_default api_response "body" (VDict [])) ;;
    if eq_int sc 200 || eq_int sc 201 then
      new_group_id <- lift (py_get response_body "id") ;;
      if truthy new_group_id then ret new_group_id
      else raise (RuntimeError ("Group creation succeeded but ID was missing for "
                                ++ group_full_name ++ ": " ++ py_str response_body))
    else
      err <- lift (py_get api_response "error") ;;
      let error_msg := py_str (py_or err (VStr (py_str response_body))) in
      raise (RuntimeError ("Failed to create group '" ++ group_full_name
                           ++ "'. API Error: " ++ error_msg)).

(** The request shared by the three permission setters: one PUT of the whole
    access-control list to [path]; a 200 returns [None], anything else raises
    "Failed to set [what]. API Error: ...". *)
Definition put_access_control_list (path : string) (acl_list : value) (what : string)
  : M E value :=
  let u := _ws_url path in
  let payload := VDict [("access_control_list", acl_list)] in
  h <- _auth_headers ;;
  api_response <- _safe_request (mk_request "PUT" u h VNone payload) FAST_RETRIES ;;
  sc <- lift (py_get api_response "status_code") ;;
  if eq_int sc 200 then ret VNone
  else
    err <- lift (py_get api_response "error") ;;
    b <- lift (py_get api_response "body") ;;
    let error_msg := py_str (py_or err (VStr (py_str b))) in
    raise (RuntimeError ("Failed to set " ++ what ++ ". API Error: " ++ error_msg)).

(** [set_all_folder_permissions(folder_path, acl_list)] *)
Definition set_all_folder_permissions (folder_path : string) (acl_list : value)
  : M E value :=
  request_obj_id <- get_object_id folder_path ;;
  if negb (truthy request_obj_id) then ret VNone
  else
    put_access_control_list ("/api/2.0/permissions/directories/" ++ py_str request_obj_id)
      acl_list ("folder permissions for '" ++ folder_path ++ "'").

(** [set_all_cluster_permissions(cluster_id, acl_list)] *)
Definition set_all_cluster_permissions (cluster_id : value) (acl_list : value)
  : M E value :=
  if negb (truthy cluster_id) then ret VNone
  else
    put_access_control_list ("/api/2.0/permissions/clusters/" ++ py_str cluster_id)
      acl_list ("cluster permissions for '" ++ py_str cluster_id ++ "'").

(** [set_all_sql_warehouse_permissions(warehouse_id, acl_list)] *)
Definition set_all_sql_warehouse_permissions (warehouse_id : value) (acl_list : value)
  : M E value :=
  if negb (truthy warehouse_id) then ret VNone
  else
    put_access_control_list ("/api/2.0/permissions/sql/warehouses/" ++ py_str warehouse_id)
      acl_list ("sql warehouse permissions for '" ++ py_str warehouse_id ++ "'").

(** [get_user_id(user_email)]; a 200 without resources falls off the end of
    the function and returns [None]. *)
Definition get_user_id (user_email : string) : M E value :=
  let u := _ws_url "/api/2.0/preview/scim/v2/Users" in
  let params := VDict [("filter", VStr ("userName eq " ++ dq ++ user_email ++ dq))] in
  h <- _auth_headers ;;
  api_response <- _safe_request (mk_request "GET" u h params VNone) FAST_RETRIES ;;
  sc <- lift (py_get api_response "status_code") ;;
  response_body <- lift (py_get_default api_response "body" (VDict [])) ;;
  if eq_int sc 200 then first_resource_id response_body
  else
    err <- lift (py_get api_response "error") ;;
    let error_msg := py_str (py_or err (VStr (py_str response_body))) in
    raise (RuntimeError ("Failed to retrieve User ID for '" ++ user_email
                         ++ "'. API Error: " ++ error_msg)).

(** The payload [add_user_to_group_by_id] patches the group with. *)
Definition add_owner_patch (user_id_to_add : value) : value :=
  VDict [("schemas", VList [VStr "urn:ietf:params:scim:api:messages:2.0:PatchOp"]);
         ("Operations",
          VList [VDict [("op", VStr "add"); ("path", VStr "members");
                        ("value", VList [VDict [("value", user_id_to_add);
                                                ("type", VStr "User")]])]])].

(** [add_user_to_group_by_id(group_id, group_full_name, user_email)] *)
Definition add_user_to_group_by_id (group_id : value) (group_full_name user_email : string)
  : M E value :=
  user_id_to_add <- get_user_id user_email ;;
  if negb (truthy user_id_to_add) then ret (VBool false)
  else
    let u := _ws_url ("/api/2.0/preview/scim/v2/Groups/" ++ py_str group_id) in
    let payload := add_owner_patch user_id_to_add in
    h <- _auth_headers ;;
    api_response <- _safe_request (mk_request "PATCH" u h VNone payload) FAST_RETRIES ;;
    sc <- lift (py_get api_response "status_code") ;;
    if eq_int sc 200 || eq_int sc 204 then ret (VBool true)
    else
      err <- lift (py_get api_response "error") ;;
      b <- lift (py_get api_response "body") ;;
      let error_msg := py_str (py_or err (VStr (py_str b))) in
      raise (RuntimeError ("Failed to add user '" ++ user_email ++ "' to group '"
                           ++ group_full_name ++ "'. API Error: " ++ error_msg)).

(** The payload [create_project_schema] posts. *)
Definition schema_payload (catalog_name schema_name storage_root_url : string) : value :=
  VDict [("name", VStr schema_name);
         ("catalog_name", VStr catalog_name);
         ("storage_root", VStr storage_root_url);
         ("comment", VStr ("Schema for project " ++ schema_name ++ " in catalog "
                           ++ catalog_name))].

(** [create_project_schema(catalog_name, schema_name, storage_root_url)] *)
Definition create_project_schema (catalog_name schema_name storage_root_url : string)
  : M E value :=
  if negb (nonempty catalog_name && nonempty schema_name && nonempty storage_root_url) then
    raise (ValueError "Catalog name, schema name, and storage root URL are required for schema creation.")
  else
    let full_schema_name := catalog_name ++ "." ++ schema_name in
    let u := _ws_url "/api/2.1/unity-catalog/schemas" in
    let payload := schema_payload catalog_name schema_name storage_root_url in
    h <- _auth_headers ;;
    api_response <- _safe_request (mk_request "POST" u h VNone payload) FAST_RETRIES ;;
    sc <- lift (py_get api_response "status_code") ;;
    response_body <- lift (py_get_default api_response "body" (VDict [])) ;;
    if eq_int sc 200 || eq_int sc 201 then ret response_body
    else if eq_int sc 409 then
      ret (VDict [("name", VStr schema_name); ("catalog_name", VStr catalog_name);
                  ("status", VStr "exists")])
    else
      err <- lift (py_get api_response "error") ;;
      let error_msg := py_str (py_or err (VStr (py_str response_body))) in
      raise (RuntimeError ("Failed to create Unity Catalog Schema '" ++ full_schema_name
                           ++ "'. API Error: " ++ error_msg)).

(* ------------------------------------------------------------------ *)
(** *** logger_utils.py *)
(* ------------------------------------------------------------------ *)

(** [EXPECTED_COLUMNS] *)
Definition EXPECTED_COLUMNS : list string :=
  ["run_id"; "ts"; "admin"; "file_path"; "row_id"; "action"; "principal_type";
   "principal_identifier"; "status"; "details"; "request_payload"; "response_code";
   "response_body"].

(** [_is_databricks_env()] *)
Definition _is_databricks_env : bool :=
  env_truthy (WORKSPACE_INSTANCE cfg) && env_truthy (WORKSPACE_TOKEN cfg)
  && env_truthy (DATABRICKS_HTTP_PATH cfg).

(** What evaluating an [except] tuple that names [AuthenticationError] raises:
    the module never imports or defines that name. *)
Definition undefined_AuthenticationError : exn :=
  NameError "name 'AuthenticationError' is not defined".

(** [get_sql_connection()]: any exception of the [try] body reaches an
    [except] clause whose tuple mentions the undefined name. *)
Definition get_sql_connection : M E unit :=
  try_except
    (if negb (env_truthy (WORKSPACE_INSTANCE cfg))
        || negb (env_truthy (DATABRICKS_HTTP_PATH cfg))
        || negb (env_truthy (WORKSPACE_TOKEN cfg))
     then raise (ValueError "Required Databricks connection parameters (Host, HTTP Path, or Token) are MISSING in the environment.")
     else fun w => let '(r, e) := sql_connect P (ext w) in (r, set_ext e w))
    (fun _ => raise undefined_AuthenticationError).

(** [execute(sql_text, params)] *)
Definition execute (sql_text : string) (params : list (string * value)) : M E unit :=
  get_sql_connection ;;
  fun w => let '(r, e) := sql_execute P sql_text params (ext w) in (r, set_ext e w).

Definition audit_ddl : string :=
  "
    CREATE TABLE IF NOT EXISTS " ++ AUDIT_DELTA_TABLE cfg ++ " (
      run_id STRING,
      ts TIMESTAMP,
      admin STRING,
      file_path STRING,
      row_id STRING,
      action STRING,
      principal_type STRING,
      principal_identifier STRING,
      status STRING,
      details STRING,
      request_payload STRING,
      response_code STRING,
      response_body STRING
    )
    USING DELTA
    ".

Definition audit_grant : string :=
  "GRANT ALL PRIVILEGES ON TABLE " ++ AUDIT_DELTA_TABLE cfg ++ " TO `account users`".

(** [ensure_audit_table_sql()]: its [except] tuple names the undefined
    [AuthenticationError] too. *)
Definition ensure_audit_table_sql : M E unit :=
  try_except
    (execute audit_ddl [] ;; execute audit_grant [])
    (fun _ => raise undefined_AuthenticationError).

(** [insert_audit_sql(row)] *)
Definition insert_audit_sql (row : list (string * value)) : M E unit :=
  let cols := join ", " (map fst row) in
  let placeholders := join ", " (map (fun kv => ":" ++ fst kv) row) in
  let sql_text := "INSERT INTO " ++ AUDIT_DELTA_TABLE cfg ++ " (" ++ cols
                  ++ ") VALUES (" ++ placeholders ++ ")" in
  execute sql_text row.

(** What [DataFrame([row]).to_csv(path, mode="a", header=header)] leaves in
    the file: the header line only when the file did not exist. *)
Definition csv_append (f : option (list csv_line)) (row : list (string * value))
  : option (list csv_line) :=
  match f with
  | None => Some [Header (map fst row); Data (map snd row)]
  | Some ls => Some (ls ++ [Data (map snd row)])%list
  end.

(** [_append_to_file(row)] *)
Definition _append_to_file (row : list (string * value)) : M E bool :=
  fun w =>
    match fs_error P (ext w) with
    | Some _ => (Ok false, w)
    | None => (Ok true, set_audit_file (csv_append (audit_file w) row) w)
    end.

(** [ctx.get(k)] on the audit context. *)
Definition ctx_get (ctx : list (string * value)) (k : string) : value :=
  match assoc k ctx with Some v => v | None => VNone end.

(** The record [append_audit] builds. *)
Definition audit_row (ts_utc : string) (ctx : list (string * value))
    (action principal : string) (identifier : value) (status details : string)
    (response_code response_body request_payload : value) : list (string * value) :=
  let request_payload :=
    if negb (is_none request_payload) then request_payload else ctx_get ctx "request_payload" in
  let response_code :=
    if negb (is_none response_code) then response_code else ctx_get ctx "response_code" in
  let response_body :=
    if negb (is_none response_body) then response_body else ctx_get ctx "response_body" in
  [("run_id", py_or (ctx_get ctx "run_id") (VStr ""));
   ("ts", VStr ts_utc);
   ("admin", py_or (ctx_get ctx "admin") (VStr ""));
   ("file_path", py_or (ctx_get ctx "file_path") (VStr ""));
   ("row_id", if negb (is_none (ctx_get ctx "row_id"))
              then VStr (py_str (ctx_get ctx "row_id")) else VStr "");
   ("action", VStr action);
   ("principal_type", VStr principal);
   ("principal_identifier", identifier);
   ("status", VStr status);
   ("details", VStr details);
   ("request_payload", if negb (is_none request_payload)
                       then VStr (json_dumps P request_payload) else VStr "");
   ("response_code", if negb (is_none response_code)
                     then VStr (py_str response_code) else VStr "");
   ("response_body", if negb (is_none response_body)
                     then VStr (json_dumps P response_body) else VStr "")].

(** [append_audit(action, principal, identifier, status, details,
    response_code, response_body, request_payload)] *)
Definition append_audit (action principal : string) (identifier : value)
    (status details : string) (response_code response_body request_payload : value)
  : M E unit :=
  fun w =>
    let ts_utc := utcnow P (ext w) ++ "Z" in
    let row := audit_row ts_utc (audit_context w) action principal identifier status
                 details response_code response_body request_payload in
    (if String.eqb (AUDIT_MODE cfg) "delta" && _is_databricks_env then
       try_except (ensure_audit_table_sql ;; insert_audit_sql row)
                  (fun _ => _append_to_file row ;; ret tt)
     else _append_to_file row ;; ret tt) w.




(** [dict[k] = v] on a key the dict already has. *)
Fixpoint dict_set {A} (k : string) (v : A) (d : list (string * A)) : list (string * A) :=
  match d with
  | [] => []
  | (k', v') :: d' => if String.eqb k' k then (k', v) :: d' else (k', v') :: dict_set k v d'
  end.

(** [set_audit_context] applied to the keyword arguments [kwargs]. *)
Definition set_audit_context (kwargs : list (string * value)) : M E unit :=
  fun w =>
    (Ok tt, set_context
              (fold_left (fun c kv => dict_set (fst kv) (snd kv) c) kwargs (audit_context w)) w).

(** [clear_audit_context()] *)
Definition clear_audit_context : M E unit :=
  fun w => (Ok tt, set_context (map (fun kv => (fst kv, VNone)) (audit_context w)) w).

(* ------------------------------------------------------------------ *)
(** *** handlers.py *)
(* ------------------------------------------------------------------ *)

(** [a or b] on two optional strings, [None] and the empty string being falsy. *)
Definition opt_or (a b : option string) : option string :=
  if env_truthy a then a else b.

(** [row.get(k, "")] *)
Definition row_get_default (row : Row) (k : string) : value :=
  match assoc k row with
  | Some v => opt_value v
  | None => VStr ""
  end.

(** [_split_members(members_csv)] *)
Definition _split_members (members_csv : string) : list string :=
  if negb (nonempty members_csv) then []
  else
    let csv := strip members_csv in
    let parts (sep : ascii) :=
      map (fun p => lower (strip p))
          (filter (fun p => nonempty (strip p)) (split_char sep csv)) in
    if contains_char "," csv then parts ","%char
    else if contains_char ";" csv then parts ";"%char
    else if nonempty csv then [lower csv] else [].

(** The [Resources] of a listing answered with 200, as the two lookups read
    them: [Some rs] inside the [if resp and resp.get("status_code") == 200]. *)
Definition listed_resources (resp : value) : M E (option value) :=
  if truthy resp then
    sc <- lift (py_get resp "status_code") ;;
    if eq_int sc 200 then
      body <- lift (py_get resp "body") ;;
      resources <- lift (py_get (py_or body (VDict [])) "Resources") ;;
      ret (Some (py_or resources (VList [])))
    else ret None
  else ret None.

(** [_find_user_by_email(email)] *)
Definition _find_user_by_email (email : string) : M E value :=
  if negb (nonempty email) then ret VNone
  else
    try_except
      (resp <- scim_list_users ("userName eq " ++ dq ++ email ++ dq) ;;
       rs <- listed_resources resp ;;
       match (match rs with Some r => if truthy r then Some r else None | None => None end) with
       | Some resources => lift (py_index0 resources)
       | None =>
           resp_alt <- scim_list_users ("emails.value eq " ++ dq ++ email ++ dq) ;;
           rs_alt <- listed_resources resp_alt ;;
           match rs_alt with
           | Some resources_alt =>
               if truthy resources_alt then lift (py_index0 resources_alt) else ret VNone
           | None => ret VNone
           end
       end)
      (fun _ => ret VNone).

(** [get_user_id_by_email(email)] *)
Definition get_user_id_by_email (email : string) : M E value :=
  u <- _find_user_by_email (lower (strip email)) ;;
  if truthy u then lift (py_get u "id") else ret VNone.

Definition user_payload (email_norm display : string) : value :=
  let '(given, family) :=
    match split_once " " display with
    | (g, None) => (g, EmptyString)
    | (g, Some f) => (g, f)
    end in
  VDict [("schemas", VList [VStr "urn:ietf:params:scim:schemas:core:2.0:User"]);
         ("userName", VStr email_norm);
         ("name", VDict [("givenName", VStr given); ("familyName", VStr family);
                         ("formatted", VStr display)]);
         ("emails", VList [VDict [("value", VStr email_norm); ("primary", VBool true)]]);
         ("active", VBool true)].

(** [x not in (a, b)] for a status code. *)
Definition not_in2 (v : value) (a b : Z) : bool := negb (eq_int v a || eq_int v b).

(** [ensure_user(email, display_name)] *)
Definition ensure_user (email : string) (display_name : string) : M E value :=
  let email_norm := lower (strip email) in
  if negb (nonempty email_norm) then
    ret (VDict [("existed", VBool false); ("id", VNone); ("error", VStr "no_email_provided")])
  else
    existing <- _find_user_by_email email_norm ;;
    if truthy existing then
      i <- lift (py_get existing "id") ;;
      ret (VDict [("existed", VBool true); ("id", i)])
    else
      let display := strip (if nonempty display_name then display_name else email_norm) in
      let payload := user_payload email_norm display in
      try_except
        (resp <- scim_create_user payload ;;
         sc <- lift (py_get resp "status_code") ;;
         (if not_in2 sc 200 201 then
            b <- lift (py_get resp "body") ;; raise (RuntimeError (py_str b))
          else ret tt) ;;
         b <- lift (py_get resp "body") ;;
         user_id <- lift (py_get (py_or b (VDict [])) "id") ;;
         append_audit "CREATE_USER" "user" (VStr email_norm) "SUCCESS" "created"
                      sc resp payload ;;
         ret (VDict [("existed", VBool false); ("id", user_id); ("resp", resp)]))
        (fun e =>
           append_audit "CREATE_USER" "user" (VStr email_norm) "FAILED" (str_exn e)
                        VNone VNone payload ;;
           ret (VDict [("existed", VBool false); ("id", VNone); ("error", VStr (str_exn e))])).

(** [_find_group_by_display_name(display_name)] *)
Definition _find_group_by_display_name (display_name : string) : M E value :=
  if negb (nonempty display_name) then ret VNone
  else
    try_except
      (resp <- scim_list_groups ("displayName eq " ++ dq ++ display_name ++ dq) ;;
       if negb (truthy resp) then ret VNone
       else
         sc <- lift (py_get resp "status_code") ;;
         if negb (eq_int sc 200) then ret VNone
         else
           body <- lift (py_get resp "body") ;;
           resources <- lift (py_get (py_or body (VDict [])) "Resources") ;;
           let resources := py_or resources (VList []) in
           if truthy resources then lift (py_index0 resources) else ret VNone)
      (fun _ => ret VNone).

(** [range(0, stop, step)] for a positive [step], [fuel] bounding the number
    of its items. *)
Fixpoint range_from (fuel start stop step : nat) : list nat :=
  match fuel with
  | O => []
  | S fuel' =>
      if (start <? stop)%nat then start :: range_from fuel' (start + step) stop step
      else []
  end.

(** [_chunked(iterable, size)]: the chunks the generator yields, in order.
    [range] refuses a zero step and is empty for a negative one. *)
Definition _chunked {A} (iterable : list A) (size : Z) : res (list (list A)) :=
  if (size =? 0)%Z then Raise (ValueError "range() arg 3 must not be zero")
  else if (size <? 0)%Z then Ok []
  else
    let n := Z.to_nat size in
    Ok (map (fun i => firstn n (skipn i iterable))
            (range_from (length iterable) 0 (length iterable) n)).

(** The display name both user handlers compose from the name fields. *)
Definition compose_name (first_name last_name : string) : string :=
  strip (first_name ++ (if nonempty last_name then " " ++ last_name else EmptyString)).

(** [create_user_handler(row)] *)
Definition create_user_handler (row : Row) : M E value :=
  let email := lower (strip (row_str row "user_email")) in
  let first_name := strip (row_str row "first_name") in
  let last_name := strip (row_str row "last_name") in
  let display_name :=
    if nonempty first_name || nonempty last_name
    then compose_name first_name last_name else email in
  if negb (nonempty email) then
    append_audit "CREATE_USER" "user" (VStr "") "FAILED" "user_email missing"
                 VNone VNone VNone ;;
    raise (ValueError "user_email required")
  else
    existing <- _find_user_by_email email ;;
    if truthy existing then
      append_audit "CREATE_USER" "user" (VStr email) "SKIPPED" "already_exists"
                   VNone VNone VNone ;;
      i <- lift (py_get existing "id") ;;
      ret (VDict [("status", VStr "skipped"); ("id", i)])
    else
      result <- ensure_user email display_name ;;
      i <- lift (py_get result "id") ;;
      if truthy i then
        r <- lift (py_get result "resp") ;;
        ret (VDict [("status", VStr "created"); ("id", i); ("resp", r)])
      else
        err <- lift (py_get result "error") ;;
        raise (RuntimeError ("create_user failed: " ++ py_str err)).

Definition patch_op_schema : value :=
  VList [VStr "urn:ietf:params:scim:api:messages:2.0:PatchOp"].

Definition replace_op (path : string) (v : value) : value :=
  VDict [("op", VStr "replace"); ("path", VStr path); ("value", v)].

(** The operations [update_user_handler] reads off a parsed
    [attributes_json]: [displayName] and [active]. *)
Definition attribute_ops (attrs : value) : res (list value) :=
  match py_contains "displayName" attrs with
  | Raise e => Raise e
  | Ok has_name =>
      match (if has_name then
               match py_item attrs "displayName" with
               | Ok v => Ok [replace_op "displayName" v]
               | Raise e => Raise e
               end
             else Ok []) with
      | Raise e => Raise e
      | Ok ops1 =>
          match py_contains "active" attrs with
          | Raise e => Raise e
          | Ok has_active =>
              if has_active then
                match py_item attrs "active" with
                | Ok v => Ok (py_append ops1 (replace_op "active" (VBool (truthy v))))
                | Raise e => Raise e
                end
              else Ok ops1
          end
      end
  end.

(** [op.get("path") in ("displayName", "name.formatted")] *)
Definition names_display (op : value) : bool :=
  match py_get op "path" with
  | Ok p => eq_str p "displayName" || eq_str p "name.formatted"
  | Raise _ => false
  end.

(** [update_user_handler(row)] *)
Definition update_user_handler (row : Row) : M E value :=
  let email := lower (strip (row_str row "user_email")) in
  if negb (nonempty email) then
    append_audit "UPDATE_USER" "user" (VStr "") "FAILED" "user_email required"
                 VNone VNone VNone ;;
    raise (ValueError "user_email required")
  else
    existing <- _find_user_by_email email ;;
    if negb (truthy existing) then
      append_audit "UPDATE_USER" "user" (VStr email) "NOT_FOUND" "user not found"
                   VNone VNone VNone ;;
      raise (ValueError "user not found")
    else
      user_id <- lift (py_get existing "id") ;;
      let attrs_json := strip (row_str row "attributes_json") in
      ops0 <- (if nonempty attrs_json then
                 try_except
                   (attrs <- lift (json_loads P attrs_json) ;; lift (attribute_ops attrs))
                   (fun e =>
                      append_audit "UPDATE_USER" "user" (VStr email) "FAILED"
                                   ("invalid attributes_json: " ++ str_exn e)
                                   VNone VNone (VStr attrs_json) ;;
                      raise e)
               else ret []) ;;
      let first_name := strip (row_str row "first_name") in
      let last_name := strip (row_str row "last_name") in
      let composed :=
        if nonempty first_name || nonempty last_name
        then compose_name first_name last_name else EmptyString in
      let operations :=
        if nonempty composed && negb (existsb names_display ops0)
        then py_append ops0 (replace_op "name.formatted" (VStr composed)) else ops0 in
      let ops := VDict [("schemas", patch_op_schema); ("Operations", VList operations)] in
      match operations with
      | [] =>
          append_audit "UPDATE_USER" "user" (VStr email) "NOOP" "nothing to update"
                       VNone VNone VNone ;;
          ret (VDict [("status", VStr "noop")])
      | _ =>
          try_except
            (resp <- scim_patch_user user_id ops ;;
             append_audit "UPDATE_USER" "user" (VStr email) "SUCCESS" "patched"
                          (VInt 200) resp ops ;;
             ret (VDict [("status", VStr "updated"); ("resp", resp)]))
            (fun e =>
               append_audit "UPDATE_USER" "user" (VStr email) "FAILED" (str_exn e)
                            VNone VNone ops ;;
               raise e)
      end.

(** [delete_user_handler(row)] *)
Definition delete_user_handler (row : Row) : M E value :=
  let user_id0 := strip (row_str row "user_id") in
  user_id <-
    (if negb (nonempty user_id0) then
       let email :=
         lower (strip (match opt_or (row_get row "user_email") (row_get row "email") with
                       | Some s => s
                       | None => EmptyString
                       end)) in
       if negb (nonempty email) then
         append_audit "DELETE_USER" "user" (VStr "") "FAILED"
                      "user_id or user_email required" VNone VNone VNone ;;
         raise (ValueError "user_id or user_email required")
       else
         existing <- _find_user_by_email email ;;
         if negb (truthy existing) then
           append_audit "DELETE_USER" "user" (VStr email) "NOT_FOUND" "" VNone VNone VNone ;;
           raise (ValueError "user not found")
         else lift (py_get existing "id")
     else ret (VStr user_id0)) ;;
  try_except
    (scim_delete_user user_id ;;
     append_audit "DELETE_USER" "user" user_id "SUCCESS" "deleted" (VInt 204) VNone VNone ;;
     ret (VDict [("status", VStr "deleted"); ("id", user_id)]))
    (fun e =>
       append_audit "DELETE_USER" "user" user_id "FAILED" (str_exn e) VNone VNone VNone ;;
       raise e).

(** The loop of [create_group_handler] and [add_members_to_group_handler]
    that resolves member e-mails: the member objects and the e-mails that did
    not resolve, both in input order. *)
Fixpoint resolve_members (members : list string) (member_objs : list value)
    (missing_members : list string) : M E (list value * list string) :=
  match members with
  | [] => ret (member_objs, missing_members)
  | mem :: rest =>
      uid <- get_user_id_by_email mem ;;
      if truthy uid
      then resolve_members rest (py_append member_objs (VDict [("value", uid)])) missing_members
      else resolve_members rest member_objs (py_append missing_members mem)
  end.

Definition add_members_patch (member_objs : list value) : value :=
  VDict [("schemas", patch_op_schema);
         ("Operations", VList [VDict [("op", VStr "add"); ("path", VStr "members");
                                      ("value", VList member_objs)]])].

Definition str_of_len {A} (l : list A) : string := str_of_Z (Z.of_nat (length l)).

Definition group_exists_msg : string :=
  "Group already exists. Use add_to_group to add members.".

(** [create_group_handler(row)] *)
Definition create_group_handler (row : Row) : M E value :=
  group_name <- lift (construct_group_name row) ;;
  if negb (nonempty group_name) then
    append_audit "CREATE_GROUP" "group" (VStr "") "FAILED"
                 "cannot construct group_name from row data" VNone VNone VNone ;;
    raise (ValueError "group_name required")
  else
    existing_group <- _find_group_by_display_name group_name ;;
    if truthy existing_group then
      append_audit "CREATE_GROUP" "group" (VStr group_name) "FAILED" group_exists_msg
                   VNone VNone VNone ;;
      raise (ValueError group_exists_msg)
    else
      let members := _split_members (row_str row "group_members") in
      resolved <- resolve_members members [] [] ;;
      let '(member_objs, missing_members) := resolved in
      match missing_members with
      | _ :: _ =>
          let msg := "Cannot create group. These users do not exist: "
                     ++ join ", " missing_members in
          append_audit "CREATE_GROUP" "group" (VStr group_name) "FAILED" msg
                       VNone VNone VNone ;;
          raise (ValueError msg)
      | [] =>
          let create_payload :=
            VDict [("schemas", VList [VStr "urn:ietf:params:scim:schemas:core:2.0:Group"]);
                   ("displayName", VStr group_name)] in
          resp <- try_except
                    (resp <- scim_create_group create_payload ;;
                     status <- lift (py_get resp "status_code") ;;
                     (if not_in2 status 200 201 then
                        b <- lift (py_get resp "body") ;; raise (RuntimeError (py_str b))
                      else ret tt) ;;
                     append_audit "CREATE_GROUP" "group" (VStr group_name) "SUCCESS"
                                  "created" status resp create_payload ;;
                     ret resp)
                    (fun e =>
                       append_audit "CREATE_GROUP" "group" (VStr group_name) "FAILED"
                                    (str_exn e) VNone VNone create_payload ;;
                       raise e) ;;
          match member_objs with
          | [] => ret (VDict [("status", VStr "created"); ("resp", resp);
                              ("members_patched", VBool false)])
          | _ :: _ =>
              b <- lift (py_get resp "body") ;;
              group_id <- lift (py_get (py_or b (VDict [])) "id") ;;
              let patch_payload := add_members_patch member_objs in
              try_except
                (patch_resp <- scim_patch_group group_id patch_payload ;;
                 patch_status <- lift (py_get patch_resp "status_code") ;;
                 (if not_in2 patch_status 200 204 then
                    pb <- lift (py_get patch_resp "body") ;; raise (RuntimeError (py_str pb))
                  else ret tt) ;;
                 append_audit "CREATE_GROUP" "group" (VStr group_name) "SUCCESS"
                              ("added " ++ str_of_len member_objs ++ " members")
                              patch_status patch_resp patch_payload ;;
                 ret (VDict [("status", VStr "created"); ("resp", resp);
                             ("members_patched", VBool true)]))
                (fun e =>
                   append_audit "CREATE_GROUP" "group" (VStr group_name) "FAILED"
                                ("members patch failed: " ++ str_exn e)
                                VNone VNone patch_payload ;;
                   raise e)
          end
      end.

(** [add_members_to_group_handler(row)] *)
Definition add_members_to_group_handler (row : Row) : M E value :=
  group_name <- lift (construct_group_name row) ;;
  if negb (nonempty group_name) then
    append_audit "ADD_TO_GROUP" "group" (VStr "") "FAILED" "cannot construct group_name"
                 VNone VNone VNone ;;
    raise (ValueError "group_name required")
  else
    let members := _split_members (row_str row "group_members") in
    match members with
    | [] =>
        append_audit "ADD_TO_GROUP" "group" (VStr group_name) "NOOP" "no members specified"
                     VNone VNone VNone ;;
        ret (VDict [("status", VStr "noop")])
    | _ :: _ =>
        group <- _find_group_by_display_name group_name ;;
        if negb (truthy group) then
          append_audit "ADD_TO_GROUP" "group" (VStr group_name) "NOT_FOUND" "group not found"
                       VNone VNone VNone ;;
          raise (ValueError "group not found")
        else
          group_id <- lift (py_get group "id") ;;
          resolved <- resolve_members members [] [] ;;
          let '(member_objs, missing_members) := resolved in
          match missing_members with
          | _ :: _ =>
              let msg := "Cannot add members. These users do not exist: "
                         ++ join ", " missing_members in
              append_audit "ADD_TO_GROUP" "group" (VStr group_name) "FAILED" msg
                           VNone VNone VNone ;;
              raise (ValueError msg)
          | [] =>
              let patch := add_members_patch member_objs in
              try_except
                (resp <- scim_patch_group group_id patch ;;
                 status <- lift (py_get resp "status_code") ;;
                 (if not_in2 status 200 204 then
                    b <- lift (py_get resp "body") ;; raise (RuntimeError (py_str b))
                  else ret tt) ;;
                 append_audit "ADD_TO_GROUP" "group" (VStr group_name) "SUCCESS"
                              ("added " ++ str_of_len member_objs) status resp patch ;;
                 ret (VDict [("status", VStr "added"); ("resp", resp)]))
                (fun e =>
                   append_audit "ADD_TO_GROUP" "group" (VStr group_name) "FAILED"
                                (str_exn e) VNone VNone patch ;;
                   raise e)
          end
    end.

Definition remove_member_patch (uid : value) : value :=
  VDict [("schemas", patch_op_schema);
         ("Operations",
          VList [VDict [("op", VStr "remove");
                        ("path", VStr ("members[value eq " ++ dq ++ py_str uid ++ dq ++ "]"))]])].

(** The body of the [for m in members] loop of
    [remove_members_from_group_handler]: the entry appended to [results]. *)
Definition remove_one (group_name : string) (group_id : value) (m : string) : M E value :=
  uid0 <- get_user_id_by_email m ;;
  let uid := if negb (truthy uid0)
             then (if nonempty m then VStr m else VNone) else uid0 in
  if negb (truthy uid) then
    append_audit "REMOVE_FROM_GROUP" "group" (VStr group_name) "SKIPPED"
                 ("user not found " ++ m) VNone VNone (VStr m) ;;
    ret (VDict [("member", VStr m); ("status", VStr "skipped")])
  else
    let patch := remove_member_patch uid in
    try_except
      (resp <- scim_patch_group group_id patch ;;
       append_audit "REMOVE_FROM_GROUP" "group" (VStr group_name) "SUCCESS"
                    ("removed " ++ py_str uid) (VInt 200) resp patch ;;
       ret (VDict [("member", VStr m); ("id", uid); ("status", VStr "removed")]))
      (fun e =>
         append_audit "REMOVE_FROM_GROUP" "group" (VStr group_name) "FAILED"
                      ("remove " ++ py_str uid ++ " failed: " ++ str_exn e)
                      VNone VNone patch ;;
         ret (VDict [("member", VStr m); ("id", uid); ("status", VStr "failed");
                     ("error", VStr (str_exn e))])).

Fixpoint remove_loop (group_name : string) (group_id : value) (members : list string)
    (results : list value) : M E (list value) :=
  match members with
  | [] => ret results
  | m :: rest =>
      r <- remove_one group_name group_id m ;;
      remove_loop group_name group_id rest (py_append results r)
  end.

(** [r.get("status") != "removed"] *)
Definition not_removed (r : value) : bool :=
  match py_get r "status" with
  | Ok st => negb (eq_str st "removed")
  | Raise _ => true
  end.

(** [remove_members_from_group_handler(row)] *)
Definition remove_members_from_group_handler (row : Row) : M E value :=
  group_name <- lift (construct_group_name row) ;;
  if negb (nonempty group_name) then
    append_audit "REMOVE_FROM_GROUP" "group" (VStr "") "FAILED" "cannot construct group_name"
                 VNone VNone VNone ;;
    raise (ValueError "group_name required")
  else
    let members := _split_members (row_str row "group_members") in
    match members with
    | [] =>
        append_audit "REMOVE_FROM_GROUP" "group" (VStr group_name) "NOOP"
                     "no members specified" VNone VNone VNone ;;
        ret (VDict [("status", VStr "noop")])
    | _ :: _ =>
        group <- _find_group_by_display_name group_name ;;
        if negb (truthy group) then
          append_audit "REMOVE_FROM_GROUP" "group" (VStr group_name) "NOT_FOUND"
                       "group not found" VNone VNone VNone ;;
          raise (ValueError "group not found")
        else
          group_id <- lift (py_get group "id") ;;
          results <- remove_loop group_name group_id members [] ;;
          ret (VDict [("status", VStr (if existsb not_removed results
                                       then "partial" else "removed_all"));
                      ("results", VList results)])
    end.

(** [_get_env_config(environment)]: the environment key, the S3 modifier and
    the catalog modifier. *)
Definition _get_env_config (environment : string) : res (string * string * string) :=
  let env_key := lower (strip environment) in
  if String.eqb env_key "dev" then Ok (env_key, "nonprod", "d")
  else if String.eqb env_key "prod" then Ok (env_key, "prod", "p")
  else Raise (ValueError ("Invalid environment specified: " ++ environment
                          ++ ". Must resolve to 'dev' or 'prod'.")).

(** [onboard_project_handler(row)] *)
Definition onboard_project_handler (row : Row) : M E value :=
  let app_name := strip (row_str row "application_name") in
  let cluster_type := lower (strip (row_str row "cluster_type")) in
  let node_type_id := strip (row_str row "node_type_id") in
  let base_workers := row_get row "base_workers" in
  let sql_wh_size := opt_value (row_get row "sql_wh_size") in
  let environment := lower (strip (row_str row "environment")) in
  if negb (nonempty app_name) then raise (ValueError "Application name is required")
  else
    let project_tags :=
      [("application_name", VStr app_name);
       ("environment", VStr environment);
       ("cost_center", row_get_default row "cost_center");
       ("department", row_get_default row "department");
       ("business_owner", row_get_default row "business_owner")] in
    try_except
      (if String.eqb cluster_type "all-purpose" then
         policy_id <- get_policy_id "Unified-All-Purpose-Compute" ;;
         cluster_id <- create_all_purpose_cluster app_name policy_id node_type_id
                         base_workers environment project_tags ;;
         append_audit "ONBOARD_PROJECT" "cluster" (VStr app_name) "SUCCESS"
                      ("All-purpose cluster created: " ++ py_str cluster_id)
                      VNone VNone VNone ;;
         ret (VDict [("application_name", VStr app_name);
                     ("cluster_id", cluster_id);
                     ("cluster_type", VStr "all-purpose");
                     ("environment", VStr environment);
                     ("status", VStr "SUCCESS")])
       else if String.eqb cluster_type "job" then
         wh_id <- create_sql_warehouse app_name sql_wh_size project_tags ;;
         append_audit "ONBOARD_PROJECT" "sql_warehouse" (VStr app_name) "SUCCESS"
                      ("SQL Warehouse created: " ++ py_str wh_id) VNone VNone VNone ;;
         ret (VDict [("application_name", VStr app_name);
                     ("sql_wh_id", wh_id);
                     ("cluster_type", VStr "job");
                     ("environment", VStr environment);
                     ("status", VStr "SUCCESS")])
       else raise (ValueError ("Invalid cluster_type received: " ++ cluster_type)))
      (fun e =>
         append_audit "ONBOARD_PROJECT" "project" (VStr app_name) "FAILED" (str_exn e)
                      VNone VNone VNone ;;
         raise (ValueError ("Invalid cluster_type received: " ++ cluster_type))).

(* ------------------------------------------------------------------ *)
(** *** app.py: the per-row dispatcher and the onboarding route *)
(* ------------------------------------------------------------------ *)

(** [process_row(ix, row)] *)
Definition process_row (ix : value) (row : Row) : M E value :=
  let action := upper (strip (row_str row "action")) in
  resp <-
    try_except
      (if String.eqb action "CREATE_USER" then create_user_handler row
       else if String.eqb action "DELETE_USER" then delete_user_handler row
       else if String.eqb action "UPDATE_USER" then update_user_handler row
       else if String.eqb action "CREATE_GROUP" then create_group_handler row
       else if String.eqb action "ADD_TO_GROUP" then add_members_to_group_handler row
       else if String.eqb action "REMOVE_FROM_GROUP" then remove_members_from_group_handler row
       else
         append_audit action "unknown" (VStr "") "FAILED" "unknown action" VNone VNone VNone ;;
         ret (VDict [("error", VStr ("unknown action: " ++ action))]))
      (fun e =>
         identifier <-
           (if match row_get row "action" with
               | Some a => str_in a ["CREATE_GROUP"; "ADD_TO_GROUP"; "REMOVE_FROM_GROUP";
                                     "UPDATE_GROUP"]
               | None => false
               end
            then
              if env_truthy (row_get row "user_email") then ret (row_str row "user_email")
              else lift (construct_group_name row)
            else ret EmptyString) ;;
         append_audit action "error" (VStr identifier) "FAILED" (str_exn e) VNone VNone VNone ;;
         ret (VDict [("error", VStr (str_exn e))])) ;;
  identifier <-
    (if env_truthy (row_get row "user_email") then ret (row_str row "user_email")
     else
       name <- (if str_in action ["CREATE_GROUP"; "ADD_TO_GROUP"; "REMOVE_FROM_GROUP"]
                then lift (construct_group_name row) else ret EmptyString) ;;
       if nonempty name then ret name
       else ret (match opt_or (row_get row "admin") (Some EmptyString) with
                 | Some s => s
                 | None => EmptyString
                 end)) ;;
  ret (VDict [("row", ix);
              ("action", VStr action);
              ("principal_type", row_get_default row "principal_type");
              ("identifier", VStr identifier);
              ("result", resp)]).

(** The POST branch of the [/project-onboard] route from the call of the
    handler on: the result handed to the template and the HTTP status. *)
Definition onboard_project_post (form_data : Row) : M E (value * Z) :=
  let app_name :=
    match opt_or (row_get form_data "application_name") (Some "unknown_project") with
    | Some s => s
    | None => EmptyString
    end in
  try_except
    (results <- onboard_project_handler form_data ;; ret (results, 200%Z))
    (fun e =>
       append_audit "ONBOARD_PROJECT" "project" (VStr app_name) "FAILED" (str_exn e)
                    VNone VNone VNone ;;
       ret (VDict [("error", VStr (str_exn e))], 500%Z)).

End Program.

(* ================================================================== *)
(** ** A reference workspace *)
(* ================================================================== *)

(** A small in-memory stand-in for the remote platform, used to run the
    handlers end to end: an identity directory with exact-match filters and
    server-assigned ids, the compute listings, and switches for transport
    outages, the SQL endpoint and the disk. *)
Module Sim.

Record user : Type := { u_id : string; u_name : string; u_email : string }.

Record state : Type := {
  users : list user;
  groups : list (string * string);       (* id, displayName *)
  policies : list (string * string);     (* policy_id, name *)
  clusters : list (string * string);     (* cluster_id, cluster_name *)
  warehouses : list (string * string);   (* id, name *)
  outages : nat;                         (* transport failures still to come *)
  sql_up : bool;
  disk_ok : bool
}.

Definition with_users (us : list user) (d : state) : state :=
  {| users := us; groups := groups d; policies := policies d; clusters := clusters d;
     warehouses := warehouses d; outages := outages d; sql_up := sql_up d;
     disk_ok := disk_ok d |}.
Definition with_groups (gs : list (string * string)) (d : state) : state :=
  {| users := users d; groups := gs; policies := policies d; clusters := clusters d;
     warehouses := warehouses d; outages := outages d; sql_up := sql_up d;
     disk_ok := disk_ok d |}.
Definition with_clusters (cs : list (string * string)) (d : state) : state :=
  {| users := users d; groups := groups d; policies := policies d; clusters := cs;
     warehouses := warehouses d; outages := outages d; sql_up := sql_up d;
     disk_ok := disk_ok d |}.
Definition with_warehouses (ws : list (string * string)) (d : state) : state :=
  {| users := users d; groups := groups d; policies := policies d; clusters := clusters d;
     warehouses := ws; outages := outages d; sql_up := sql_up d; disk_ok := disk_ok d |}.
Definition with_outages (n : nat) (d : state) : state :=
  {| users := users d; groups := groups d; policies := policies d; clusters := clusters d;
     warehouses := warehouses d; outages := n; sql_up := sql_up d; disk_ok := disk_ok d |}.

(** An id no listed id equals: it is longer than each of them. *)
Definition fresh_id (taken : list string) : string :=
  String "i" (String.concat EmptyString taken).

(** The text between [prefix] and the end of [s]. *)
Fixpoint strip_prefix (prefix s : string) : option string :=
  match prefix, s with
  | EmptyString, _ => Some s
  | String a p', String b s' => if Ascii.eqb a b then strip_prefix p' s' else None
  | String _ _, EmptyString => None
  end.

(** [s] without its closing double quote. *)
Fixpoint unquote_tail (s : string) : option string :=
  match s with
  | EmptyString => None
  | String c EmptyString => if Ascii.eqb c (ascii_of_nat 34) then Some EmptyString else None
  | String c s' => option_map (String c) (unquote_tail s')
  end.

(** The value [v] of a filter [attr eq "v"]. *)
Definition filter_value (attr f : string) : option string :=
  match strip_prefix (attr ++ " eq " ++ dq) f with
  | Some rest => unquote_tail rest
  | None => None
  end.

Definition user_matches (f : string) (u : user) : bool :=
  match filter_value "userName" f with
  | Some v => String.eqb (u_name u) v
  | None =>
      match filter_value "emails.value" f with
      | Some v => String.eqb (u_email u) v
      | None => false
      end
  end.

Definition group_matches (f : string) (g : string * string) : bool :=
  match filter_value "displayName" f with
  | Some v => String.eqb (snd g) v
  | None => false
  end.

Definition user_json (u : user) : value :=
  VDict [("id", VStr (u_id u)); ("userName", VStr (u_name u));
         ("emails", VList [VDict [("value", VStr (u_email u)); ("primary", VBool true)]]);
         ("active", VBool true)].

Definition group_json (g : string * string) : value :=
  VDict [("id", VStr (fst g)); ("displayName", VStr (snd g))].

Definition listing (items : list value) : value :=
  VDict [("totalResults", VInt (Z.of_nat (length items))); ("Resources", VList items)].

Definition answer (sc : Z) (body : value) : attempt response :=
  Done {| status_code := sc; json_body := Some body; text := EmptyString |}.

Definition no_content : attempt response :=
  Done {| status_code := 204; json_body := None; text := EmptyString |}.

Definition not_found : attempt response :=
  Done {| status_code := 404; json_body := None; text := "not found" |}.

Definition conflict : attempt response :=
  answer 409 (VDict [("detail", VStr "already exists")]).

(** The filter of a listing request: every item when there is none. *)
Definition request_filter (rq : request) : option string :=
  match params rq with
  | VDict d => match assoc "filter" d with Some (VStr f) => Some f | _ => None end
  | _ => None
  end.

Definition string_field (v : value) (k : string) : option string :=
  match py_get v k with Ok (VStr s) => Some s | _ => None end.

Definition url_is (rq : request) (u : option string) : bool :=
  match url rq, u with
  | Some a, Some b => String.eqb a b
  | _, _ => false
  end.

Section Server.

Context (cfg : Config).

Definition account_url (path : string) : option string :=
  match _url cfg path with Ok u => Some u | Raise _ => None end.

Definition named_listing (key id_key name_key : string) (items : list (string * string))
  : attempt response :=
  answer 200 (VDict [(key, VList (map (fun it => VDict [(id_key, VStr (fst it));
                                                        (name_key, VStr (snd it))]) items))]).

(** The answer to one request that reached the platform, and the state after it. *)
Definition handle (rq : request) (d : state) : attempt response * state :=
  let m := method rq in
  if String.eqb m "GET" && url_is rq (account_url (users_path cfg)) then
    let found := match request_filter rq with
                 | Some f => filter (user_matches f) (users d)
                 | None => users d
                 end in
    (answer 200 (listing (map user_json found)), d)
  else if String.eqb m "POST" && url_is rq (account_url (users_path cfg)) then
    match string_field (json rq) "userName" with
    | Some n =>
        if existsb (fun u => String.eqb (u_name u) n) (users d) then (conflict, d)
        else
          let u := {| u_id := fresh_id (map u_id (users d)); u_name := n; u_email := n |} in
          (answer 201 (user_json u), with_users (users d ++ [u])%list d)
    | None => (answer 400 (VDict [("detail", VStr "userName missing")]), d)
    end
  else if String.eqb m "GET" && url_is rq (account_url (groups_path cfg)) then
    let found := match request_filter rq with
                 | Some f => filter (group_matches f) (groups d)
                 | None => groups d
                 end in
    (answer 200 (listing (map group_json found)), d)
  else if String.eqb m "POST" && url_is rq (account_url (groups_path cfg)) then
    match string_field (json rq) "displayName" with
    | Some n =>
        if existsb (fun g => String.eqb (snd g) n) (groups d) then (conflict, d)
        else
          let g := (fresh_id (map fst (groups d)), n) in
          (answer 201 (group_json g), with_groups (groups d ++ [g])%list d)
    | None => (answer 400 (VDict [("detail", VStr "displayName missing")]), d)
    end
  else if String.eqb m "PATCH" then
    if existsb (fun g => url_is rq (account_url (groups_path cfg ++ "/" ++ fst g))) (groups d)
       || existsb (fun u => url_is rq (account_url (users_path cfg ++ "/" ++ u_id u))) (users d)
    then (no_content, d) else (not_found, d)
  else if String.eqb m "DELETE" then
    if existsb (fun u => url_is rq (account_url (users_path cfg ++ "/" ++ u_id u))) (users d)
    then (no_content,
          with_users (filter (fun u => negb (url_is rq (account_url
                                (users_path cfg ++ "/" ++ u_id u)))) (users d)) d)
    else (not_found, d)
  else if String.eqb m "GET" && url_is rq (_ws_url cfg "/api/2.0/policies/clusters/list") then
    (named_listing "policies" "policy_id" "name" (policies d), d)
  else if String.eqb m "GET" && url_is rq (_ws_url cfg "/api/2.0/clusters/list") then
    (named_listing "clusters" "cluster_id" "cluster_name" (clusters d), d)
  else if String.eqb m "POST" && url_is rq (_ws_url cfg "/api/2.0/clusters/create") then
    match string_field (json rq) "cluster_name" with
    | Some n =>
        let c := (fresh_id (map fst (clusters d)), n) in
        (answer 200 (VDict [("cluster_id", VStr (fst c))]),
         with_clusters (clusters d ++ [c])%list d)
    | None => (answer 400 (VDict [("detail", VStr "cluster_name missing")]), d)
    end
  else if String.eqb m "GET" && url_is rq (_ws_url cfg "/api/2.0/sql/warehouses") then
    (named_listing "warehouses" "id" "name" (warehouses d), d)
  else if String.eqb m "POST" && url_is rq (_ws_url cfg "/api/2.0/sql/warehouses") then
    match string_field (json rq) "name" with
    | Some n =>
        let wh := (fresh_id (map fst (warehouses d)), n) in
        (answer 200 (VDict [("id", VStr (fst wh))]),
         with_warehouses (warehouses d ++ [wh])%list d)
    | None => (answer 400 (VDict [("detail", VStr "name missing")]), d)
    end
  else (not_found, d).

(** [requests.request] against the reference workspace: a pending outage
    fails the exchange, otherwise the request is handled. *)
Definition serve (rq : request) (d : state) : attempt response * state :=
  match outages d with
  | S n => (Failed "connection reset", with_outages n d)
  | O => handle rq d
  end.

End Server.

(** A plain rendering of a value, standing in for [json.dumps] and [repr]. *)
Fixpoint show (v : value) : string :=
  match v with
  | VNone => "null"
  | VBool true => "true"
  | VBool false => "false"
  | VInt z => str_of_Z z
  | VStr s => dq ++ s ++ dq
  | VList l =>
      "[" ++ (fix items (l : list value) : string :=
                match l with
                | [] => EmptyString
                | [x] => show x
                | x :: r => show x ++ ", " ++ items r
                end) l ++ "]"
  | VDict d =>
      "{" ++ (fix entries (d : list (string * value)) : string :=
                match d with
                | [] => EmptyString
                | [(k, x)] => dq ++ k ++ dq ++ ": " ++ show x
                | (k, x) :: r => dq ++ k ++ dq ++ ": " ++ show x ++ ", " ++ entries r
                end) d ++ "}"
  end.

Definition platform (cfg : Config) : Platform state :=
  {| http_send := serve cfg;
     get_dbx_access_token := fun d => (Ok "t0", d);
     sql_connect := fun d =>
       (if sql_up d then Ok tt else Raise (DatabaseError "connection refused"), d);
     sql_execute := fun _ _ d => (Ok tt, d);
     fs_error := fun d => if disk_ok d then None else Some (OSError "read-only file system");
     utcnow := fun _ => "2025-01-01T00:00:00";
     json_dumps := show;
     json_loads := fun _ => Raise (JSONDecodeError "Expecting value: line 1 column 1 (char 0)");
     py_repr := show |}.

(** A configuration and an initial world for running examples. *)
Definition cfg0 : Config :=
  {| INSTANCE := Some "https://accounts.example/";
     WORKSPACE_INSTANCE := Some "https://ws.example";
     ACCOUNT := Some "acc-1";
     WORKSPACE_TOKEN := Some "wt";
     DATABRICKS_HTTP_PATH := Some "/sql/1.0/warehouses/x";
     AUDIT_MODE := "delta";
     AUDIT_FILE_PATH := "./logs/audit_log.csv";
     AUDIT_DELTA_TABLE := "tata_motors.deep.dpm_audit_log" |}.

Definition empty_context : list (string * value) :=
  [("run_id", VNone); ("admin", VNone); ("file_path", VNone); ("row_id", VNone);
   ("request_payload", VNone); ("response_code", VNone); ("response_body", VNone)].

Definition world_of (d : state) : World state :=
  {| ext := d; calls := []; sleeps := []; audit_context := empty_context;
     audit_file := None |}.

Definition d0 : state :=
  {| users := [ {| u_id := "u1"; u_name := "ann@x.io"; u_email := "ann@x.io" |};
                {| u_id := "u2"; u_name := "bob@x.io"; u_email := "bob@x.io" |} ];
     groups := [("g1", "nprod_TMX_App1_readers")];
     policies := [("p1", "Unified-All-Purpose-Compute")];
     clusters := [("c1", "app")];
     warehouses := [("w1", "app_Reporting_wh")];
     outages := 0; sql_up := true; disk_ok := true |}.

End Sim.

(** A transport that plays back a fixed list of exchanges, whatever the
    request; once the list is used up every exchange fails. *)
Module Script.

Definition platform : Platform (list (attempt response)) :=
  {| http_send := fun _ s =>
       match s with
       | a :: s' => (a, s')
       | [] => (Failed "no route to host", [])
       end;
     get_dbx_access_token := fun s => (Ok "t0", s);
     sql_connect := fun s => (Raise (DatabaseError "connection refused"), s);
     sql_execute := fun _ _ s => (Ok tt, s);
     fs_error := fun _ => None;
     utcnow := fun _ => "2025-01-01T00:00:00";
     json_dumps := Sim.show;
     json_loads := fun _ => Raise (JSONDecodeError "Expecting value: line 1 column 1 (char 0)");
     py_repr := Sim.show |}.

(** The same transport behind a token endpoint whose answer holds no
    access_token: [token_data["access_token"]] raises a [KeyError]. *)
Definition no_access_token : Platform (list (attempt response)) :=
  {| http_send := http_send platform;
     get_dbx_access_token := fun s => (Raise (KeyError "'access_token'"), s);
     sql_connect := sql_connect platform;
     sql_execute := sql_execute platform;
     fs_error := fs_error platform;
     utcnow := utcnow platform;
     json_dumps := json_dumps platform;
     json_loads := json_loads platform;
     py_repr := py_repr platform |}.

(** The same transport behind a token endpoint that answers properly while
    the script holds exchanges, and without an access_token once it is used
    up. *)
Definition token_runs_out : Platform (list (attempt response)) :=
  {| http_send := http_send platform;
     get_dbx_access_token := fun s =>
       match s with
       | [] => (Raise (KeyError "'access_token'"), s)
       | _ :: _ => (Ok "t0", s)
       end;
     sql_connect := sql_connect platform;
     sql_execute := sql_execute platform;
     fs_error := fs_error platform;
     utcnow := utcnow platform;
     json_dumps := json_dumps platform;
     json_loads := json_loads platform;
     py_repr := py_repr platform |}.

Definition world_of (s : list (attempt response)) : World (list (attempt response)) :=
  {| ext := s; calls := []; sleeps := []; audit_context := Sim.empty_context;
     audit_file := None |}.

Definition timed_out : attempt response := Failed "read timed out".

Definition ok_200 (body : value) : response :=
  {| status_code := 200; json_body := Some body; text := EmptyString |}.

Definition accepted_202 : response :=
  {| status_code := 202; json_body := Some (VDict [("state", VStr "PENDING")]);
     text := EmptyString |}.

Definition get_me : request :=
  {| method := "GET"; url := Some "https://ws.example/api/2.0/preview/scim/v2/Me";
     headers := VNone; params := VNone; json := VNone; timeout := 12 |}.

End Script.

(* ================================================================== *)
(** ** Vocabulary of the properties *)
(* ================================================================== *)

(** *** Naming *)

(** [strip(row.get(k) or "")], the way every naming field is read. *)
Definition trimmed (row : Row) (k : string) : string := strip (row_str row k).

(** *** The request executor *)

(** The delays of [n] successive waits that start at [delay] and double. *)
Fixpoint backoff (n : nat) (delay : Z) : list Z :=
  match n with
  | O => []
  | S n' => delay :: backoff n' (delay * 2)
  end.

Definition log_sleeps {E} (ds : list Z) (w : World E) : World E :=
  fold_left (fun w d => log_sleep d w) ds w.

(** Reading a key of an outcome; [None] when the key is not set. *)
Definition outcome_field (o : value) (k : string) : option value :=
  match o with
  | VDict d => assoc k d
  | _ => None
  end.

Definition has_field (o : value) (k : string) : bool :=
  match outcome_field o k with Some _ => true | None => false end.

(** The statuses the executor treats as success. *)
Definition success_status (sc : Z) : bool :=
  ((sc =? 200) || (sc =? 201) || (sc =? 204))%Z.

(** Every 2xx status. *)
Definition is_2xx (sc : Z) : bool := ((200 <=? sc) && (sc <? 300))%Z.

(** The error rule with every 2xx status taken as success. *)
Definition error_iff_not_2xx (o : value) : Prop :=
  forall sc : Z,
    outcome_field o "status_code" = Some (VInt sc) ->
    (has_field o "error" = true <-> is_2xx sc = false).

(** [e] is an error of the token provider that [_safe_request] lets through:
    the provider raises it in some state, and it is not a [RequestException]. *)
Definition token_error {E} (P : Platform E) (e : exn) : Prop :=
  (exists s s', get_dbx_access_token P s = (Raise e, s'))
  /\ forall msg, e <> RequestException msg.

(** The token provider fails with a [RequestException] only. *)
Definition token_provider_contained {E} (P : Platform E) : Prop :=
  forall s e s', get_dbx_access_token P s = (Raise e, s') ->
                 exists msg, e = RequestException msg.

(** The two shapes an outcome has. *)
Inductive is_outcome (rq : request) (retries : Z) : value -> Prop :=
| outcome_response (r : response) : is_outcome rq retries (outcome_of_response rq r)
| outcome_failure (msg : string) : is_outcome rq retries (outcome_of_failure rq retries msg).

Section ExecutorRuns.

Context {E : Type} (P : Platform E).

(** The world after the first [k] attempts at [rq] all failed in transport
    (the waits between them left aside); [None] if one of them did not. *)
Fixpoint fail_run (rq : request) (k : nat) (w : World E) : option (World E) :=
  match k with
  | O => Some w
  | S k' =>
      match send_once P rq w with
      | (Ok (Failed _), w1) => fail_run rq k' w1
      | _ => None
      end
  end.

End ExecutorRuns.

(** *** Frames and traffic *)

(** [m] relates every start state to the state it ends in by [R], whether it
    returns or raises. *)
Definition preserves {E A} (R : World E -> World E -> Prop) (m : M E A) : Prop :=
  forall w r w', m w = (r, w') -> R w w'.

(** The requests issued from [w] to [w'] all satisfy [Q]. *)
Definition traffic {E} (Q : request -> Prop) (w w' : World E) : Prop :=
  exists cs, calls w' = (calls w ++ cs)%list /\ Forall Q cs.

(** No request at all. *)
Definition silent {E} (w w' : World E) : Prop := calls w' = calls w.

(** Nothing but the outside world changed: no request, no wait, the same
    audit context and the same audit file. *)
Definition only_ext {E} (w w' : World E) : Prop :=
  calls w' = calls w /\ sleeps w' = sleeps w
  /\ audit_context w' = audit_context w /\ audit_file w' = audit_file w.

(** Nothing but the outside world and the audit file changed. *)
Definition audit_only {E} (w w' : World E) : Prop :=
  calls w' = calls w /\ sleeps w' = sleeps w /\ audit_context w' = audit_context w.

(** The data lines of the audit file. *)
Definition records (f : option (list csv_line)) : list (list value) :=
  match f with
  | None => []
  | Some ls => flat_map (fun l => match l with Data c => [c] | Header _ => [] end) ls
  end.

(** [r] is [rq] as it goes on the wire: the same but for the headers. *)
Definition sent_as (rq r : request) : Prop :=
  method r = method rq /\ url r = url rq /\ params r = params rq /\ json r = json rq.

Definition is_get (r : request) : Prop := method r = "GET".

(** A request to the workspace endpoint [path]. *)
Definition goes_to (cfg : Config) (path : string) (r : request) : Prop :=
  url r = _ws_url cfg path.

(** The request that creates a resource: a POST to [path] carrying [payload]. *)
Definition creates (cfg : Config) (path : string) (payload : value) (r : request) : Prop :=
  method r = "POST" /\ url r = _ws_url cfg path /\ json r = payload.

(** *** Member removal *)

(** The id a member is removed under: the resolved id, or the member text
    itself when the e-mail did not resolve. *)
Definition removal_id (m : string) (uid0 : value) : value :=
  if truthy uid0 then uid0 else VStr m.

Definition removed_entry (m : string) (uid : value) : value :=
  VDict [("member", VStr m); ("id", uid); ("status", VStr "removed")].

Definition failed_entry (m : string) (uid : value) (e : exn) : value :=
  VDict [("member", VStr m); ("id", uid); ("status", VStr "failed");
         ("error", VStr (str_exn e))].

(** The entry [e] of the results carries the status [st]. *)
Definition has_status (st : string) (e : value) : Prop :=
  py_get e "status" = Ok (VStr st).

(** An outcome with one of the statuses a patch answers on success, 200 and
    204 (the statuses the add path checks for). *)
Definition accepted (resp : value) : Prop :=
  py_get resp "status_code" = Ok (VInt 200) \/ py_get resp "status_code" = Ok (VInt 204).

(** The entry reported for the member [m], patched out under [uid], whose
    patch call ended in [x]: "failed" with the error text when the call
    raised, "removed" when it was accepted. *)
Definition member_entry (m : string) (uid : value) (x : res value) (e : value) : Prop :=
  py_get e "member" = Ok (VStr m)
  /\ py_get e "id" = Ok uid
  /\ match x with
     | Raise ex => e = failed_entry m uid ex
     | Ok resp => accepted resp -> e = removed_entry m uid
     end.

Section RemovalRuns.

Context {E : Type} (P : Platform E) (cfg : Config).

(** One run of the removal loop: each member in turn is resolved on its own,
    patched out with one call of [scim_patch_group] under its [removal_id],
    audited (no request is involved) and reported by its own entry. *)
Inductive removal_run (group_name : string) (group_id : value)
  : list string -> World E -> list value -> World E -> Prop :=
| removal_done (w : World E) : removal_run group_name group_id [] w [] w
| removal_next (m : string) (ms : list string) (w w0 w1 w2 w' : World E)
    (uid0 : value) (x : res value) (e : value) (es : list value) :
    get_user_id_by_email P cfg m w = (Ok uid0, w0) ->
    scim_patch_group P cfg group_id (remove_member_patch P (removal_id m uid0)) w0
    = (x, w1) ->
    audit_only w1 w2 ->
    member_entry m (removal_id m uid0) x e ->
    removal_run group_name group_id ms w2 es w' ->
    removal_run group_name group_id (m :: ms) w (e :: es) w'.

End RemovalRuns.

(** *** Onboarding *)

(** The fields [onboard_project_handler] reads off the form. *)
Definition app_name_of (row : Row) : string := strip (row_str row "application_name").
Definition cluster_type_of (row : Row) : string := lower (strip (row_str row "cluster_type")).
Definition environment_of (row : Row) : string := lower (strip (row_str row "environment")).

Definition project_tags_of (row : Row) : list (string * value) :=
  [("application_name", VStr (app_name_of row));
   ("environment", VStr (environment_of row));
   ("cost_center", row_get_default row "cost_center");
   ("department", row_get_default row "department");
   ("business_owner", row_get_default row "business_owner")].

Definition invalid_cluster_type (row : Row) : exn :=
  ValueError ("Invalid cluster_type received: " ++ cluster_type_of row).

(** *** The reference directory *)

(** No user of the directory has [email] as userName or as e-mail. *)
Definition absent (email : string) (d : Sim.state) : Prop :=
  forall u, In u (Sim.users d) ->
            String.eqb (Sim.u_name u) email = false
            /\ String.eqb (Sim.u_email u) email = false.

(** The directory holds a group whose display name is [name]. *)
Definition group_exists (name : string) (d : Sim.state) : Prop :=
  exists gid, In (gid, name) (Sim.groups d).

(** The request as it goes on the wire against the reference workspace. *)
Definition with_bearer (rq : request) : request :=
  {| method := method rq; url := url rq;
     headers := VDict [("Authorization", VStr "Bearer t0");
                       ("Content-Type", VStr "application/json")];
     params := params rq; json := json rq; timeout := timeout rq |}.

(** No request, no change of the outside world. *)
Definition settled (w w' : World Sim.state) : Prop :=
  ext w' = ext w /\ calls w' = calls w.

(** The user the directory creates for [email]. *)
Definition new_user (email : string) (d : Sim.state) : Sim.user :=
  {| Sim.u_id := Sim.fresh_id (map Sim.u_id (Sim.users d));
     Sim.u_name := email; Sim.u_email := email |}.

(** *** Example rows *)

(** A row naming the existing group [nprod_TMX_App1_readers], and a row for a
    new group with the unknown member [zed@x.io]. *)
Definition existing_group_row : Row :=
  [("action", Some "CREATE_GROUP"); ("env", Some "dev"); ("bu", Some "Others");
   ("other_type", Some "X"); ("appName", Some "App1"); ("role", Some "readers");
   ("group_members", Some "ann@x.io")].

Definition unknown_member_row : Row :=
  [("action", Some "CREATE_GROUP"); ("env", Some "prod"); ("bu", Some "Finance");
   ("appName", Some "Ledger"); ("role", Some "admins");
   ("group_members", Some "ann@x.io, zed@x.io")].

(** Three members of the existing group, the middle one unknown to the
    directory. *)
Definition three_member_row : Row :=
  [("action", Some "REMOVE_FROM_GROUP"); ("env", Some "dev"); ("bu", Some "Others");
   ("other_type", Some "X"); ("appName", Some "App1"); ("role", Some "readers");
   ("group_members", Some "ann@x.io, zed@x.io, bob@x.io")].

(** One member of that group, and a script that lists the group and then the
    member. *)
Definition one_member_row : Row :=
  [("action", Some "REMOVE_FROM_GROUP"); ("env", Some "dev"); ("bu", Some "Others");
   ("other_type", Some "X"); ("appName", Some "App1"); ("role", Some "readers");
   ("group_members", Some "ann@x.io")].

Definition listing_of_group_and_member : list (attempt response) :=
  [Sim.answer 200 (Sim.listing [Sim.group_json ("g1", "nprod_TMX_App1_readers")]);
   Sim.answer 200 (Sim.listing [Sim.user_json {| Sim.u_id := "u1"; Sim.u_name := "ann@x.io";
                                                 Sim.u_email := "ann@x.io" |}])].

(** An onboarding form for a new application that asks for four workers. *)
Definition four_worker_job_row : Row :=
  [("application_name", Some "ledger"); ("cluster_type", Some "job");
   ("base_workers", Some "4"); ("sql_wh_size", Some "Small");
   ("environment", Some "dev"); ("cost_center", Some "cc-9")].

Definition widget_row : Row :=
  [("application_name", Some "ledger"); ("cluster_type", Some "widget");
   ("base_workers", Some "2"); ("environment", Some "dev")].

Definition all_purpose_row : Row :=
  [("application_name", Some "ledger"); ("cluster_type", Some " All-Purpose ");
   ("node_type_id", Some "m5.large"); ("base_workers", Some "2");
   ("environment", Some "dev")].

(** A group row with the unit "Others" and no override. *)
Definition others_without_override : Row :=
  [("action", Some "CREATE_GROUP"); ("bu", Some "Others"); ("other_type", Some "");
   ("user_email", Some "")].

(** The same row with the action in lower case. *)
Definition others_without_override_lowercase : Row :=
  [("action", Some "create_group"); ("bu", Some "Others"); ("other_type", Some "");
   ("user_email", Some "")].

(** A new user, with stray blanks and capitals in the address. *)
Definition cat_row : Row :=
  [("action", Some "CREATE_USER"); ("user_email", Some " Cat@X.io ");
   ("first_name", Some "Cat"); ("last_name", Some "Stevens")].

(** A row that adds a known and an unknown member to the existing group, a row
    for a group the directory does not have, and a row whose member list holds
    separators only. *)
Definition add_unknown_member_row : Row :=
  [("action", Some "ADD_TO_GROUP"); ("env", Some "dev"); ("bu", Some "Others");
   ("other_type", Some "X"); ("appName", Some "App1"); ("role", Some "readers");
   ("group_members", Some "ann@x.io; zed@x.io")].

Definition add_to_missing_group_row : Row :=
  [("action", Some "ADD_TO_GROUP"); ("env", Some "prod"); ("bu", Some "Finance");
   ("appName", Some "Ledger"); ("role", Some "admins");
   ("group_members", Some "ann@x.io")].

Definition separators_only_row : Row :=
  [("action", Some "ADD_TO_GROUP"); ("env", Some "prod"); ("bu", Some "Finance");
   ("appName", Some "Ledger"); ("role", Some "admins");
   ("group_members", Some " ; ; ")].

(** A deletion by an id the directory does not have, an update that names
    nothing to change, a change of name for a user the directory has, and a
    row that identifies no user. *)
Definition delete_unknown_id_row : Row :=
  [("action", Some "DELETE_USER"); ("user_id", Some " nope ")].

Definition empty_update_row : Row :=
  [("action", Some "UPDATE_USER"); ("user_email", Some "Ann@x.io");
   ("attributes_json", Some "  ")].

Definition rename_ann_row : Row :=
  [("action", Some "UPDATE_USER"); ("user_email", Some "ann@x.io");
   ("first_name", Some "Ann"); ("last_name", Some "Lee")].

Definition no_identifier_row : Row :=
  [("action", Some "DELETE_USER"); ("user_email", Some "   "); ("first_name", Some "Ann")].

(** A row with an action the dispatcher does not know, and a form without an
    application name. *)
Definition rename_row : Row :=
  [("action", Some " rename_user "); ("user_email", Some "ann@x.io");
   ("principal_type", Some "user")].

Definition nameless_form : Row :=
  [("application_name", Some "  "); ("cluster_type", Some "job")].

(** A workspace whose SQL endpoint and disk are both out of order. *)
Definition d_no_store : Sim.state :=
  {| Sim.users := []; Sim.groups := []; Sim.policies := []; Sim.clusters := [];
     Sim.warehouses := []; Sim.outages := 0; Sim.sql_up := false; Sim.disk_ok := false |}.

(** The reference configuration with the flat file as the only audit store. *)
Definition file_cfg : Config :=
  {| INSTANCE := Some "https://accounts.example/";
     WORKSPACE_INSTANCE := Some "https://ws.example";
     ACCOUNT := Some "acc-1";
     WORKSPACE_TOKEN := Some "wt";
     DATABRICKS_HTTP_PATH := Some "/sql/1.0/warehouses/x";
     AUDIT_MODE := "file";
     AUDIT_FILE_PATH := "./logs/audit_log.csv";
     AUDIT_DELTA_TABLE := "tata_motors.deep.dpm_audit_log" |}.


(** The body of a SCIM listing. *)
Definition resources_body (items : list value) : value :=
  VDict [("Resources", VList items)].

(** *** The user handlers *)

(** The request that deletes the user [uid] of the account directory. *)
Definition deletes_user (cfg : Config) (inst uid : string) (r : request) : Prop :=
  method r = "DELETE"
  /\ url r = Some (rstrip_char "/" inst ++ users_path cfg ++ "/" ++ uid).

(** The patch [update_user_handler] sends for a change of name only. *)
Definition rename_patch (composed : string) : value :=
  VDict [("schemas", patch_op_schema);
         ("Operations", VList [replace_op "name.formatted" (VStr composed)])].

(** The request that patches the user [uid] of the account directory. *)
Definition patches_user (cfg : Config) (inst uid : string) (patch : value) (r : request)
  : Prop :=
  method r = "PATCH"
  /\ url r = Some (rstrip_char "/" inst ++ users_path cfg ++ "/" ++ uid)
  /\ json r = patch.

(** *** The per-row dispatcher *)

(** The action [process_row] dispatches on. *)
Definition action_of (row : Row) : string := upper (strip (row_str row "action")).

(** The rows [process_row] has to name by their group: a group action and no
    user_email. *)
Definition named_by_group (row : Row) : bool :=
  str_in (action_of row) ["CREATE_GROUP"; "ADD_TO_GROUP"; "REMOVE_FROM_GROUP"]
  && negb (env_truthy (row_get row "user_email")).

(** The mapping [process_row] returns. *)
Definition row_result (ix : value) (row : Row) (identifier : string) (resp : value) : value :=
  VDict [("row", ix);
         ("action", VStr (action_of row));
         ("principal_type", row_get_default row "principal_type");
         ("identifier", VStr identifier);
         ("result", resp)].

(** The actions [process_row] has a handler for. *)
Definition known_actions : list string :=
  ["CREATE_USER"; "DELETE_USER"; "UPDATE_USER"; "CREATE_GROUP"; "ADD_TO_GROUP";
   "REMOVE_FROM_GROUP"].

(** *** The audit trail *)

(** The shape of the audit file: absent, or the header line with the expected
    columns followed by records with one cell per column. *)
Definition well_formed_audit_file (f : option (list csv_line)) : Prop :=
  match f with
  | None => True
  | Some ls =>
      exists rows,
        ls = Header EXPECTED_COLUMNS :: map Data rows
        /\ Forall (fun cells => length cells = length EXPECTED_COLUMNS) rows
  end.

(** The primary store is the one [append_audit] writes to first. *)
Definition primary_selected (cfg : Config) : bool :=
  String.eqb (AUDIT_MODE cfg) "delta" && _is_databricks_env cfg.

(** An explicit argument, or the value the ambient context holds under [k]
    when the argument is [None]. *)
Definition explicit_or_ambient (v : value) (ctx : list (string * value)) (k : string)
  : value :=
  match v with
  | VNone => ctx_get ctx k
  | _ => v
  end.

(** The text a record holds for a value of the context: blank for a missing
    one. *)
Definition text_or_blank (v : value) : value :=
  if truthy v then v else VStr "".

(** The audit record of one attempted operation, cell by cell in the order of
    [EXPECTED_COLUMNS]: the run, the time stamp, the administrator, the file
    and the row of the ambient context; the action, the kind of principal and
    its identifier; the status and the details; the request payload
    (serialised), the response code and the response body (serialised), each
    taken from the ambient context when not given. *)
Definition audit_record {E} (P : Platform E) (w : World E) (action principal : string)
    (identifier : value) (status details : string)
    (response_code response_body request_payload : value) : list value :=
  let ctx := audit_context w in
  let serialised (v : value) :=
    match v with VNone => VStr "" | _ => VStr (json_dumps P v) end in
  let shown (v : value) :=
    match v with VNone => VStr "" | _ => VStr (py_str P v) end in
  [ text_or_blank (ctx_get ctx "run_id");
    VStr (utcnow P (ext w) ++ "Z");
    text_or_blank (ctx_get ctx "admin");
    text_or_blank (ctx_get ctx "file_path");
    shown (ctx_get ctx "row_id");
    VStr action;
    VStr principal;
    identifier;
    VStr status;
    VStr details;
    serialised (explicit_or_ambient request_payload ctx "request_payload");
    shown (explicit_or_ambient response_code ctx "response_code");
    serialised (explicit_or_ambient response_body ctx "response_body") ].

(** The audit trail took the record [cells] in the step from [w] to [w']: the
    primary store executed its insert, or the audit file holds it as its new
    last record. *)
Definition took_record {E} (P : Platform E) (cfg : Config) (cells : list value)
    (w w' : World E) : Prop :=
  (primary_selected cfg = true
   /\ (ensure_audit_table_sql P cfg ;;
       insert_audit_sql P cfg (combine EXPECTED_COLUMNS cells)) w = (Ok tt, w'))
  \/ records (audit_file w') = (records (audit_file w) ++ [cells])%list.

(** *** What the platform answered *)

(** The platform answered the request [rq] (whatever its headers) with the
    response [r]. *)
Definition answered {E} (P : Platform E) (rq : request) (r : response) : Prop :=
  exists (rq' : request) (e e' : E), sent_as rq rq' /\ http_send P rq' e = (Done r, e').

(** A request as the workspace helpers build it, headers left open. *)
Definition ws_request (cfg : Config) (m path : string) (p j : value) : request :=
  mk_request m (_ws_url cfg path) VNone p j.

(** [items] holds no item named [name]; [v] is the [id_key] of the first item
    of [items] named [name]. *)
Definition none_named (name_key name : string) (items : list value) : Prop :=
  Forall (fun x => exists n, py_get x name_key = Ok n /\ eq_str n name = false) items.

Definition first_named (name_key id_key name : string) (items : list value) (v : value)
  : Prop :=
  exists pre item post,
    items = (pre ++ item :: post)%list
    /\ none_named name_key name pre
    /\ py_get item name_key = Ok (VStr name)
    /\ py_get item id_key = Ok v.

(** *** What went out and came back *)

(** In the run from [w] to [w'] the request [rq] went out (whatever its
    headers) and the platform answered it with the response [r]. *)
Definition exchanged {E} (P : Platform E) (rq : request) (r : response)
    (w w' : World E) : Prop :=
  exists (rq' : request) (pre post : list request) (e e' : E),
    sent_as rq rq'
    /\ http_send P rq' e = (Done r, e')
    /\ calls w' = (calls w ++ pre ++ rq' :: post)%list.

(** The body an outcome carries for a response with status 200. *)
Definition body_of (r : response) : value :=
  match json_body r with
  | Some b => b
  | None => VDict []
  end.

(** *** What onboarding provisions *)

(** In the run from [w] to [w'] the listing of [path] came back with status
    200 and, under [key], the items [items]. *)
Definition listed {E} (P : Platform E) (cfg : Config) (path key : string)
    (items : list value) (w w' : World E) : Prop :=
  exists (resp : response) (lst : value),
    exchanged P (ws_request cfg "GET" path VNone VNone) resp w w'
    /\ status_code resp = 200%Z
    /\ py_get_default (body_of resp) key (VList []) = Ok lst
    /\ py_iter lst = Ok items.

(** The policy [policy_name] resolved to [policy_id]: the first policy of
    that name in the listing. *)
Definition policy_resolved {E} (P : Platform E) (cfg : Config) (policy_name : string)
    (policy_id : value) (w w' : World E) : Prop :=
  exists items,
    listed P cfg "/api/2.0/policies/clusters/list" "policies" items w w'
    /\ first_named "name" "policy_id" policy_name items policy_id.

(** The warehouse [wh_name] is provisioned under [wh_id]: the listing holds
    it under that id already, or the creation POST of its payload went out
    and came back with status 200 and the id. *)
Definition warehouse_provisioned {E} (P : Platform E) (cfg : Config) (wh_name : string)
    (sql_wh_size : value) (project_tags : list (string * value)) (wh_id : value)
    (w w' : World E) : Prop :=
  (exists items,
      listed P cfg "/api/2.0/sql/warehouses" "warehouses" items w w'
      /\ first_named "name" "id" wh_name items wh_id)
  \/ (exists resp,
         exchanged P
           (ws_request cfg "POST" "/api/2.0/sql/warehouses" VNone
              (warehouse_payload wh_name sql_wh_size project_tags)) resp w w'
         /\ status_code resp = 200%Z
         /\ py_get (body_of resp) "id" = Ok wh_id).

(** The cluster is provisioned under [cluster_id]: the creation POST of its
    payload for [n] workers went out and came back with status 200 and a body
    holding the id. *)
Definition cluster_provisioned {E} (P : Platform E) (cfg : Config)
    (application_name : string) (policy_id : value) (node_type_id : string) (n : Z)
    (project_tags : list (string * value)) (cluster_id : value) (w w' : World E) : Prop :=
  exists (resp : response) (b : value),
    exchanged P
      (ws_request cfg "POST" "/api/2.0/clusters/create" VNone
         (cluster_payload application_name policy_id node_type_id n project_tags))
      resp w w'
    /\ status_code resp = 200%Z
    /\ json_body resp = Some b
    /\ py_item b "cluster_id" = Ok cluster_id.

(* ================================================================== *)
(** ** Properties of the group-name authority *)
(* ================================================================== *)

Lemma join_filter_cons (p : string) (ps : list string) :
  nonempty p = true ->
  filter nonempty (p :: ps) = p :: filter nonempty ps.
Proof. intros H. simpl. now rewrite H. Qed.

Lemma prefix_nonempty (env : string) : nonempty (NamingSpec.prefix env) = true.
Proof. unfold NamingSpec.prefix. now destruct (str_in _ _). Qed.

Lemma tm_nonempty (b : string) : nonempty (NamingSpec.tm b) = nonempty b.
Proof. unfold NamingSpec.tm. now destruct b. Qed.

Lemma GroupName_parts (env b domain appName role : string) :
  join "_" (filter nonempty [NamingSpec.prefix env; NamingSpec.tm b; domain; appName; role])
  = let parts := [NamingSpec.prefix env] in
    let parts := if nonempty b then py_append parts ("TM" ++ b) else parts in
    let parts := if nonempty domain then py_append parts domain else parts in
    let parts := if nonempty appName then py_append parts appName else parts in
    let parts := if nonempty role then py_append parts role else parts in
    join "_" parts.
Proof.
  rewrite join_filter_cons by apply prefix_nonempty.
  cbv zeta. unfold filter at 1. rewrite tm_nonempty.
  unfold NamingSpec.tm.
  destruct (nonempty b) eqn:Hb, (nonempty domain) eqn:Hd,
           (nonempty appName) eqn:Ha, (nonempty role) eqn:Hr;
    cbn [filter py_append app]; rewrite ?Hd, ?Ha, ?Hr; reflexivity.
Qed.

(** A constructed group name is never empty: it starts with the environment
    prefix. *)
Lemma join_cons_nonempty (sep p : string) (ps : list string) :
  nonempty p = true -> nonempty (join sep (p :: ps)) = true.
Proof. destruct p; [discriminate|]. intros _. destruct ps; reflexivity. Qed.

Lemma GroupName_nonempty (env bu other_type domain appName role name : string) :
  NamingSpec.GroupName env bu other_type domain appName role = Ok name ->
  nonempty name = true.
Proof.
  unfold NamingSpec.GroupName.
  destruct (NamingSpec.business_unit bu other_type); [|discriminate].
  intros H. injection H as <-.
  cbn [filter]. rewrite prefix_nonempty.
  apply join_cons_nonempty, prefix_nonempty.
Qed.

Lemma construct_group_name_GroupName (row : Row) :
  construct_group_name row
  = NamingSpec.GroupName (trimmed row "env") (trimmed row "bu")
      (trimmed row "other_type") (trimmed row "domain")
      (trimmed row "appName") (trimmed row "role").
Proof.
  unfold construct_group_name, NamingSpec.GroupName,
    NamingSpec.business_unit, trimmed.
  generalize (strip (row_str row "env")) (strip (row_str row "bu"))
    (strip (row_str row "other_type")) (strip (row_str row "domain"))
    (strip (row_str row "appName")) (strip (row_str row "role")).
  intros env bu other domain appName role.
  destruct (String.eqb bu "Others").
  - destruct (nonempty other) eqn:Ho; cbn [negb]; [|reflexivity].
    rewrite GroupName_parts. cbv zeta. now rewrite Ho.
  - now rewrite GroupName_parts.
Qed.

Lemma construct_group_name_nonempty (row : Row) (name : string) :
  construct_group_name row = Ok name -> nonempty name = true.
Proof. rewrite construct_group_name_GroupName. apply GroupName_nonempty. Qed.

(** C2. The group name is a function of the six naming fields alone: on every
    row [construct_group_name] returns what the naming rule [GroupName] gives
    on the trimmed fields env, bu, other_type, domain, appName and role
    (production spellings, in any letter case, give the prefix "prod" and
    everything else "nprod"; the unit "Others" is replaced by the override
    and fails when the override is blank; empty segments are left out, the
    "TM" segment included when the unit is empty).  The two named rows give
    "prod_TMFinance_Sales_CoPilot_admins" and "nprod_TMX_App1_readers". *)
Theorem construct_group_name_is_GroupName :
  (forall row : Row,
      construct_group_name row
      = NamingSpec.GroupName (trimmed row "env") (trimmed row "bu")
          (trimmed row "other_type") (trimmed row "domain")
          (trimmed row "appName") (trimmed row "role"))
  /\ construct_group_name
       [("env", Some "Production"); ("bu", Some "Finance"); ("domain", Some "Sales");
        ("appName", Some "CoPilot"); ("role", Some "admins")]
     = Ok "prod_TMFinance_Sales_CoPilot_admins"
  /\ construct_group_name
       [("env", Some "dev"); ("bu", Some "Others"); ("other_type", Some "X");
        ("domain", Some ""); ("appName", Some "App1"); ("role", Some "readers")]
     = Ok "nprod_TMX_App1_readers".
Proof.
  split; [exact construct_group_name_GroupName | split; reflexivity].
Qed.

(* ================================================================== *)
(** ** Properties of the request executor *)
(* ================================================================== *)

Section Executor.

Context {E : Type} (P : Platform E).

(** One attempt either comes back (with a response or a transport failure)
    or raises an error of the token provider; the latter only when the
    request carries no headers of its own, and before anything is sent. *)
Lemma send_once_cases (rq : request) (w : World E) :
  (exists a w', send_once P rq w = (Ok a, w'))
  \/ (exists e w', send_once P rq w = (Raise e, w')
                   /\ truthy (headers rq) = false
                   /\ token_error P e
                   /\ calls w' = calls w /\ sleeps w' = sleeps w).
Proof.
  unfold send_once, _auth_headers, requests_request, ret.
  destruct (truthy (headers rq)).
  - left. destruct (http_send P _ (ext w)); eauto.
  - destruct (get_dbx_access_token P (ext w)) as [[tok|ex] e] eqn:Htok.
    + left. destruct (http_send P _ _); eauto.
    + destruct ex; try (left; eauto; fail);
        right; eexists _, _; (split; [reflexivity|]); (split; [reflexivity|]);
        (split; [split; [eauto | discriminate] | split; reflexivity]).
Qed.

Lemma send_once_total (rq : request) (w : World E) :
  truthy (headers rq) = true \/ token_provider_contained P ->
  exists a w', send_once P rq w = (Ok a, w').
Proof.
  intros Hsafe.
  destruct (send_once_cases rq w) as [H|(e & w' & _ & Hh & ((s & s' & Hs) & Hne) & _)];
    [exact H|].
  destruct Hsafe as [Ht|Hc]; [congruence|].
  destruct (Hc _ _ _ Hs) as (msg & ->). now destruct (Hne msg).
Qed.

Lemma send_once_log_sleep (rq : request) (d : Z) (w : World E) :
  send_once P rq (log_sleep d w)
  = (fst (send_once P rq w), log_sleep d (snd (send_once P rq w))).
Proof.
  unfold send_once, _auth_headers, requests_request, ret.
  destruct (truthy (headers rq)); cbn.
  - destruct (http_send P _ (ext w)); reflexivity.
  - destruct (get_dbx_access_token P (ext w)) as [[tok|ex] e]; cbn.
    + destruct (http_send P _ _); reflexivity.
    + destruct ex; reflexivity.
Qed.

Lemma fail_run_log_sleep (rq : request) (d : Z) (k : nat) :
  forall w w1, fail_run P rq k w = Some w1 ->
               fail_run P rq k (log_sleep d w) = Some (log_sleep d w1).
Proof.
  induction k as [|k IH]; intros w w1; cbn [fail_run].
  - now intros [= ->].
  - rewrite send_once_log_sleep.
    destruct (send_once P rq w) as [[[r|msg]|e] w0]; cbn; try discriminate.
    apply IH.
Qed.

(** [k] failed attempts, then a response: the loop returns the outcome of
    that response, having slept the first [k] back-off delays. *)
Lemma loop_succeeds_after (rq : request) (retries : Z) (k : nat) :
  forall (n : nat) (a d : Z) (w w1 w2 : World E) (r : response),
    (k < n)%nat -> (a + Z.of_nat k <= retries)%Z ->
    fail_run P rq k w = Some w1 ->
    send_once P rq w1 = (Ok (Done r), w2) ->
    safe_request_loop P n a d retries rq w
    = (Ok (outcome_of_response rq r), log_sleeps (backoff k d) w2).
Proof.
  induction k as [|k IH]; intros n a d w w1 w2 r Hn Ha Hf Hs.
  - cbn [fail_run] in Hf. injection Hf as <-. destruct n; [lia|].
    cbn [safe_request_loop]. unfold bind. now rewrite Hs.
  - destruct n; [lia|]. cbn [fail_run] in Hf. cbn [safe_request_loop]. unfold bind at 1.
    destruct (send_once P rq w) as [[[r0|msg]|e] w0]; try discriminate.
    replace (a =? retries)%Z with false by (symmetry; apply Z.eqb_neq; lia).
    unfold bind, time_sleep.
    apply (fail_run_log_sleep rq d) in Hf.
    assert (Hs' : send_once P rq (log_sleep d w1) = (Ok (Done r), log_sleep d w2))
      by (rewrite send_once_log_sleep, Hs; reflexivity).
    rewrite (IH n (a + 1)%Z (d * 2)%Z _ _ _ r ltac:(lia) ltac:(lia) Hf Hs').
    reflexivity.
Qed.

(** Every attempt fails: the loop returns the transport-failure outcome of
    the last attempt, having slept between the attempts only. *)
Lemma loop_exhausted (rq : request) (retries : Z) (n : nat) :
  forall (a d : Z) (w w1 : World E),
    (a + Z.of_nat n = retries)%Z ->
    fail_run P rq (S n) w = Some w1 ->
    exists msg,
      safe_request_loop P (S n) a d retries rq w
      = (Ok (outcome_of_failure rq retries msg), log_sleeps (backoff n d) w1).
Proof.
  induction n as [|n IH]; intros a d w w1 Ha Hf.
  - cbn [fail_run] in Hf. cbn [safe_request_loop]. unfold bind.
    destruct (send_once P rq w) as [[[r0|msg]|e] w0]; try discriminate.
    injection Hf as <-. exists msg.
    replace (a =? retries)%Z with true by (symmetry; apply Z.eqb_eq; lia).
    reflexivity.
  - change (fail_run P rq (S (S n)) w) with
      (match send_once P rq w with
       | (Ok (Failed _), w0) => fail_run P rq (S n) w0
       | _ => None
       end) in Hf.
    change (safe_request_loop P (S (S n)) a d retries rq w) with
      (bind (send_once P rq)
         (fun x => match x with
                   | Done r => ret (outcome_of_response rq r)
                   | Failed msg =>
                       if (a =? retries)%Z then ret (outcome_of_failure rq retries msg)
                       else bind (time_sleep d)
                              (fun _ => safe_request_loop P (S n) (a + 1) (d * 2) retries rq)
                   end) w).
    unfold bind at 1.
    destruct (send_once P rq w) as [[[r0|msg]|e] w0]; try discriminate.
    replace (a =? retries)%Z with false by (symmetry; apply Z.eqb_neq; lia).
    unfold bind, time_sleep.
    apply (fail_run_log_sleep rq d) in Hf.
    destruct (IH (a + 1)%Z (d * 2)%Z (log_sleep d w0) (log_sleep d w1)) as [m Hm];
      [lia | assumption |].
    exists m. rewrite Hm. reflexivity.
Qed.

(** With at least one attempt allowed the loop does not fall off its end: it
    returns an outcome, or raises an error of the token provider. *)
Lemma loop_outcome_or_token_error (rq : request) (retries : Z) (n : nat) :
  forall (a d : Z) (w w' : World E) (x : res value),
    (a + Z.of_nat n = retries)%Z ->
    safe_request_loop P (S n) a d retries rq w = (x, w') ->
    match x with
    | Ok o => is_outcome rq retries o
    | Raise e => truthy (headers rq) = false /\ token_error P e
    end.
Proof.
  induction n as [|n IH]; intros a d w w' x Ha.
  - cbn [safe_request_loop]. unfold bind.
    destruct (send_once_cases rq w) as [(y & w0 & ->)|(e & w0 & -> & Hh & He & _)].
    + destruct y as [r|msg].
      * intros [= <- _]. constructor.
      * replace (a =? retries)%Z with true by (symmetry; apply Z.eqb_eq; lia).
        intros [= <- _]. constructor.
    + intros [= <- _]. now split.
  - change (safe_request_loop P (S (S n)) a d retries rq w) with
      (bind (send_once P rq)
         (fun x => match x with
                   | Done r => ret (outcome_of_response rq r)
                   | Failed msg =>
                       if (a =? retries)%Z then ret (outcome_of_failure rq retries msg)
                       else bind (time_sleep d)
                              (fun _ => safe_request_loop P (S n) (a + 1) (d * 2) retries rq)
                   end) w).
    unfold bind at 1.
    destruct (send_once_cases rq w) as [(y & w0 & ->)|(e & w0 & -> & Hh & He & _)].
    + destruct y as [r|msg].
      * intros [= <- _]. constructor.
      * replace (a =? retries)%Z with false by (symmetry; apply Z.eqb_neq; lia).
        unfold bind, time_sleep. apply IH. lia.
    + intros [= <- _]. now split.
Qed.

(** When the request carries its headers, or the token provider fails with a
    [RequestException] only, the loop returns an outcome. *)
Lemma loop_returns_outcome (rq : request) (retries : Z) (n : nat) :
  truthy (headers rq) = true \/ token_provider_contained P ->
  forall (a d : Z) (w : World E),
    (a + Z.of_nat n = retries)%Z ->
    exists o w', safe_request_loop P (S n) a d retries rq w = (Ok o, w')
                 /\ is_outcome rq retries o.
Proof.
  intros Hsafe a d w Ha.
  destruct (safe_request_loop P (S n) a d retries rq w) as [[o|e] w'] eqn:Hrun;
    pose proof (loop_outcome_or_token_error rq retries n a d w w' _ Ha Hrun) as H.
  - eauto.
  - destruct H as (Hh & (s & s' & Hs) & Hne).
    destruct Hsafe as [Ht|Hc]; [congruence|].
    destruct (Hc _ _ _ Hs) as (msg & ->). now destruct (Hne msg).
Qed.

End Executor.

(* ================================================================== *)
(** ** The executor contains request exceptions and retries with back-off (C5) *)
(* ================================================================== *)

Lemma append_nonempty_r (a b : string) : nonempty b = true -> nonempty (a ++ b) = true.
Proof. destruct a; [trivial|reflexivity]. Qed.

Lemma nonempty_neq (s : string) : nonempty s = true -> s <> EmptyString.
Proof. destruct s; [discriminate|discriminate]. Qed.

Lemma failure_error_nonempty (rq : request) (retries : Z) (msg : string) :
  exists err,
    outcome_field (outcome_of_failure rq retries msg) "error" = Some (VStr err)
    /\ err <> EmptyString.
Proof.
  eexists. split; [reflexivity|].
  apply nonempty_neq, append_nonempty_r. reflexivity.
Qed.

(** C5 (as the code has it). [_safe_request] catches request exceptions
    only.  With [retries >= 1] every run returns an outcome or raises an
    error of the token provider that is not a request exception, the latter
    only for a request without headers of its own; when the request carries
    its headers, or the token provider fails with request exceptions only, it
    returns an outcome on every run.  Transport failures are retried with
    waits of 2, 4, 8, ... seconds: when the first [k < retries] attempts fail
    in transport and the next one gets a response, the outcome of that
    response is returned after exactly the first [k] back-off waits; when all
    [retries] attempts fail, the outcome has status_code 0 and a non-empty
    error text, after [retries - 1] waits. *)
Theorem safe_request_contains_transport_failures_and_backs_off :
  forall (E : Type) (P : Platform E) (rq : request) (retries : Z) (w : World E),
    (1 <= retries)%Z ->
    (forall (x : res value) (w' : World E),
        _safe_request P rq retries w = (x, w') ->
        match x with
        | Ok o => is_outcome rq retries o
        | Raise e => truthy (headers rq) = false /\ token_error P e
        end)
    /\ (truthy (headers rq) = true \/ token_provider_contained P ->
        exists o w', _safe_request P rq retries w = (Ok o, w') /\ is_outcome rq retries o)
    /\ (forall (k : nat) (w1 w2 : World E) (r : response),
           (Z.of_nat k < retries)%Z ->
           fail_run P rq k w = Some w1 ->
           send_once P rq w1 = (Ok (Done r), w2) ->
           _safe_request P rq retries w
           = (Ok (outcome_of_response rq r), log_sleeps (backoff k 2) w2))
    /\ (forall w1 : World E,
           fail_run P rq (Z.to_nat retries) w = Some w1 ->
           exists msg err,
             _safe_request P rq retries w
             = (Ok (outcome_of_failure rq retries msg),
                log_sleeps (backoff (Z.to_nat retries - 1) 2) w1)
             /\ outcome_field (outcome_of_failure rq retries msg) "status_code"
                = Some (VInt 0)
             /\ outcome_field (outcome_of_failure rq retries msg) "error"
                = Some (VStr err)
             /\ err <> EmptyString).
Proof.
  intros E P rq retries w Hr. unfold _safe_request.
  destruct (Z.to_nat retries) as [|n] eqn:Hn; [lia|].
  split; [|split; [|split]].
  - intros x w'. apply loop_outcome_or_token_error. lia.
  - intros Hsafe. apply loop_returns_outcome; [exact Hsafe | lia].
  - intros k w1 w2 r Hk Hf Hs.
    apply (loop_succeeds_after P rq retries k (S n) 1 2 w w1 w2 r); try assumption; lia.
  - intros w1 Hf.
    destruct (loop_exhausted P rq retries n 1 2 w w1 ltac:(lia) Hf) as [msg Hm].
    destruct (failure_error_nonempty rq retries msg) as (err & He & Hne).
    exists msg, err. rewrite Hm.
    replace (S n - 1)%nat with n by lia.
    repeat split; assumption.
Qed.

(** Two time-outs, then a 200: the third attempt's outcome is returned after
    waits of 2 and 4 seconds.  Two time-outs with two attempts allowed: the
    outcome has status_code 0 and an error text, after one wait of 2 seconds. *)
Lemma safe_request_third_attempt_succeeds :
  (1 <= 3)%Z
  /\ (exists w',
         _safe_request Script.platform Script.get_me 3
           (Script.world_of [Script.timed_out; Script.timed_out;
                             Done (Script.ok_200 (VDict [("userName", VStr "ann@x.io")]))])
         = (Ok (VDict [("status_code", VInt 200);
                       ("body", VDict [("userName", VStr "ann@x.io")])]), w')
         /\ sleeps w' = [2; 4]%Z)
  /\ (exists msg err w',
         _safe_request Script.platform Script.get_me 2
           (Script.world_of [Script.timed_out; Script.timed_out])
         = (Ok (outcome_of_failure Script.get_me 2 msg), w')
         /\ outcome_field (outcome_of_failure Script.get_me 2 msg) "status_code"
            = Some (VInt 0)
         /\ outcome_field (outcome_of_failure Script.get_me 2 msg) "error" = Some (VStr err)
         /\ err <> EmptyString
         /\ sleeps w' = [2]%Z).
Proof.
  split; [lia|]. split.
  - destruct (safe_request_contains_transport_failures_and_backs_off _ Script.platform
                Script.get_me 3
                (Script.world_of [Script.timed_out; Script.timed_out;
                                  Done (Script.ok_200
                                          (VDict [("userName", VStr "ann@x.io")]))])
                ltac:(lia)) as (_ & _ & H & _).
    eexists. split; [exact (H 2%nat _ _ _ ltac:(lia) eq_refl eq_refl)|]. reflexivity.
  - destruct (safe_request_contains_transport_failures_and_backs_off _ Script.platform
                Script.get_me 2
                (Script.world_of [Script.timed_out; Script.timed_out])
                ltac:(lia)) as (_ & _ & _ & H).
    destruct (H _ eq_refl) as (msg & err & Hrun & Hsc & Herr & Hne).
    exists msg, err. eexists. repeat split; try eassumption. reflexivity.
Defined.

(** The token endpoint answers without an access_token: the [KeyError] of
    the token provider is not a request exception, so it leaves
    [_safe_request] at the first attempt, although three are allowed and the
    transport itself would have answered. *)
Lemma safe_request_lets_a_token_error_through :
  (1 <= 3)%Z
  /\ _safe_request Script.no_access_token Script.get_me 3
       (Script.world_of [Done (Script.ok_200 (VDict [("userName", VStr "ann@x.io")]))])
     = (Raise (KeyError "'access_token'"),
        Script.world_of [Done (Script.ok_200 (VDict [("userName", VStr "ann@x.io")]))]).
Proof. split; [lia | reflexivity]. Qed.

(* ================================================================== *)
(** ** The shape of every outcome (C6) *)
(* ================================================================== *)

Lemma response_outcome_shape (rq : request) (r : response) :
  let o := outcome_of_response rq r in
  let sc := status_code r in
  outcome_field o "status_code" = Some (VInt sc)
  /\ (exists body, outcome_field o "body" = Some body)
  /\ has_field o "error" = negb (success_status sc)
  /\ (sc = 200%Z \/ sc = 201%Z ->
      match json_body r with
      | Some b => o = VDict [("status_code", VInt sc); ("body", b)]
      | None => o = VDict [("status_code", VInt sc); ("body", VDict []);
                           ("message", VStr "Empty body")]
      end)
  /\ (sc = 204%Z ->
      o = VDict [("status_code", VInt 204); ("body", VDict []);
                 ("message", VStr "No content")]).
Proof.
  unfold outcome_of_response, success_status. cbv zeta.
  destruct (status_code r =? 200)%Z eqn:H200;
    destruct (status_code r =? 201)%Z eqn:H201;
    destruct (status_code r =? 204)%Z eqn:H204;
    cbn [orb negb];
    rewrite ?Z.eqb_eq, ?Z.eqb_neq in *;
    try (exfalso; lia).
  all: destruct (json_body r) as [b|]; cbn.
  all: repeat split; eauto.
  all: try (intros [?|?]; lia); try (intros; lia).
  all: try (intros; congruence).
Qed.

Lemma failure_outcome_shape (rq : request) (retries : Z) (msg : string) :
  let o := outcome_of_failure rq retries msg in
  outcome_field o "status_code" = Some (VInt 0)
  /\ outcome_field o "body" = Some (VDict [])
  /\ has_field o "error" = true.
Proof. repeat split. Qed.

Lemma safe_request_outcome {E} (P : Platform E) (rq : request) (retries : Z)
    (w w' : World E) (o : value) :
  (1 <= retries)%Z ->
  _safe_request P rq retries w = (Ok o, w') ->
  is_outcome rq retries o.
Proof.
  intros Hr Hrun. unfold _safe_request in Hrun.
  destruct (Z.to_nat retries) as [|n] eqn:Hn; [lia|].
  exact (loop_outcome_or_token_error P rq retries n 1 2 w w' _ ltac:(lia) Hrun).
Qed.

(** C6 (as the code has it). Every outcome [_safe_request] returns carries a
    status_code and a body, and carries an error exactly when its status is
    not one of 200, 201 and 204 (a transport failure has status 0).  A 200 or
    201 is parsed, falling back to an empty body with the note "Empty body";
    a 204 gives an empty body with the note "No content" whatever the
    response holds. *)
Theorem safe_request_outcome_invariant :
  forall (E : Type) (P : Platform E) (rq : request) (retries : Z)
         (w w' : World E) (o : value),
    (1 <= retries)%Z ->
    _safe_request P rq retries w = (Ok o, w') ->
    (exists body, outcome_field o "body" = Some body)
    /\ (exists sc, outcome_field o "status_code" = Some (VInt sc)
                   /\ has_field o "error" = negb (success_status sc))
    /\ ((exists msg, o = outcome_of_failure rq retries msg)
        \/ (exists r, o = outcome_of_response rq r
              /\ (status_code r = 200%Z \/ status_code r = 201%Z ->
                  match json_body r with
                  | Some b => o = VDict [("status_code", VInt (status_code r)); ("body", b)]
                  | None => o = VDict [("status_code", VInt (status_code r));
                                       ("body", VDict []);
                                       ("message", VStr "Empty body")]
                  end)
              /\ (status_code r = 204%Z ->
                  o = VDict [("status_code", VInt 204); ("body", VDict []);
                             ("message", VStr "No content")]))).
Proof.
  intros E P rq retries w w' o Hr Hrun.
  destruct (safe_request_outcome P rq retries w w' o Hr Hrun) as [r|msg].
  - destruct (response_outcome_shape rq r) as (Hsc & Hb & He & H2 & H4).
    split; [exact Hb|]. split; [eauto|]. right. exists r. auto.
  - destruct (failure_outcome_shape rq retries msg) as (Hsc & Hb & He).
    split; [eauto|]. split; [exists 0%Z; auto|]. left. eauto.
Qed.

Lemma safe_request_outcome_invariant_on_404 :
  (1 <= 2)%Z
  /\ exists body sc,
       outcome_field (outcome_of_response Script.get_me
                        {| status_code := 404; json_body := None; text := "not found" |})
         "body" = Some body
       /\ outcome_field (outcome_of_response Script.get_me
                           {| status_code := 404; json_body := None; text := "not found" |})
            "status_code" = Some (VInt sc)
       /\ has_field (outcome_of_response Script.get_me
                       {| status_code := 404; json_body := None; text := "not found" |})
            "error" = negb (success_status sc).
Proof.
  split; [lia|].
  destruct (safe_request_outcome_invariant _ Script.platform Script.get_me 2
              (Script.world_of [Done {| status_code := 404; json_body := None;
                                        text := "not found" |}])
              _ _ ltac:(lia) eq_refl) as ((body & Hb) & (sc & Hsc & He) & _).
  exists body, sc. auto.
Defined.

(** A 202 is a 2xx status, yet its outcome carries an error: the error rule
    with every 2xx status as success fails on it. *)
Lemma accepted_202_outcome_has_error :
  exists o w',
    _safe_request Script.platform Script.get_me 2
      (Script.world_of [Done Script.accepted_202]) = (Ok o, w')
    /\ ~ error_iff_not_2xx o.
Proof.
  eexists _, _. split; [reflexivity|].
  intros H. specialize (H 202%Z eq_refl). destruct H as [H _].
  specialize (H eq_refl). discriminate H.
Qed.

(* ================================================================== *)
(** ** Framing: what a computation leaves alone *)
(* ================================================================== *)

Section Frame.

Context {E : Type} (R : World E -> World E -> Prop).
Hypothesis R_refl : forall w, R w w.
Hypothesis R_trans : forall w1 w2 w3, R w1 w2 -> R w2 w3 -> R w1 w3.

Lemma preserves_ret {A} (a : A) : preserves R (ret a).
Proof using R_refl R_trans. intros w r w' [= _ <-]. apply R_refl. Qed.

Lemma preserves_raise {A} (e : exn) : preserves R (@raise E A e).
Proof using R_refl R_trans. intros w r w' [= _ <-]. apply R_refl. Qed.

Lemma preserves_lift {A} (x : res A) : preserves R (lift x).
Proof using R_refl R_trans. intros w r w' [= _ <-]. apply R_refl. Qed.

Lemma preserves_bind {A B} (m : M E A) (k : A -> M E B) :
  preserves R m -> (forall a, preserves R (k a)) -> preserves R (bind m k).
Proof using R_refl R_trans.
  intros Hm Hk w r w'. unfold bind.
  destruct (m w) as [[a|e] w1] eqn:Hmw.
  - intros Hkw. eapply R_trans; [eapply Hm, Hmw | eapply Hk, Hkw].
  - intros [= _ <-]. eapply Hm, Hmw.
Qed.

Lemma preserves_try {A} (m : M E A) (h : exn -> M E A) :
  preserves R m -> (forall e, preserves R (h e)) -> preserves R (try_except m h).
Proof using R_refl R_trans.
  intros Hm Hh w r w'. unfold try_except.
  destruct (m w) as [[a|e] w1] eqn:Hmw.
  - intros [= _ <-]. eapply Hm, Hmw.
  - intros Hhw. eapply R_trans; [eapply Hm, Hmw | eapply Hh, Hhw].
Qed.

Lemma preserves_if {A} (b : bool) (m1 m2 : M E A) :
  preserves R m1 -> preserves R m2 -> preserves R (if b then m1 else m2).
Proof using R_refl R_trans. now destruct b. Qed.

End Frame.

Lemma traffic_refl {E} (Q : request -> Prop) (w : World E) : traffic Q w w.
Proof. exists []. split; [now rewrite app_nil_r | constructor]. Qed.

Lemma traffic_trans {E} (Q : request -> Prop) (w1 w2 w3 : World E) :
  traffic Q w1 w2 -> traffic Q w2 w3 -> traffic Q w1 w3.
Proof.
  intros (c1 & H1 & F1) (c2 & H2 & F2). exists (c1 ++ c2)%list. split.
  - now rewrite H2, H1, app_assoc.
  - apply Forall_app. now split.
Qed.

Lemma traffic_mono {E} (Q Q' : request -> Prop) (w w' : World E) :
  (forall rq, Q rq -> Q' rq) -> traffic Q w w' -> traffic Q' w w'.
Proof.
  intros HQ (cs & Hc & HF). exists cs. split; [assumption|].
  eapply Forall_impl; eassumption.
Qed.

Lemma silent_traffic {E} (Q : request -> Prop) (w w' : World E) :
  silent w w' -> traffic Q w w'.
Proof. intros H. exists []. split; [now rewrite app_nil_r | constructor]. Qed.

Lemma only_ext_refl {E} (w : World E) : only_ext w w.
Proof. repeat split. Qed.

Lemma only_ext_trans {E} (w1 w2 w3 : World E) :
  only_ext w1 w2 -> only_ext w2 w3 -> only_ext w1 w3.
Proof.
  intros (a1 & b1 & c1 & d1) (a2 & b2 & c2 & d2).
  repeat split; congruence.
Qed.

Lemma audit_only_refl {E} (w : World E) : audit_only w w.
Proof. repeat split. Qed.

Lemma audit_only_trans {E} (w1 w2 w3 : World E) :
  audit_only w1 w2 -> audit_only w2 w3 -> audit_only w1 w3.
Proof.
  intros (a1 & b1 & c1) (a2 & b2 & c2). repeat split; congruence.
Qed.

Lemma only_ext_audit_only {E} (w w' : World E) : only_ext w w' -> audit_only w w'.
Proof. intros (a & b & c & _). now repeat split. Qed.

Lemma records_csv_append (f : option (list csv_line)) (row : list (string * value)) :
  records (csv_append f row) = (records f ++ [map snd row])%list.
Proof.
  destruct f as [ls|]; cbn; [|reflexivity].
  now rewrite flat_map_app.
Qed.

Section AuditFacts.

Context {E : Type} (P : Platform E) (cfg : Config).

Lemma get_sql_connection_only_ext : preserves only_ext (get_sql_connection P cfg).
Proof.
  unfold get_sql_connection.
  apply (preserves_try _ only_ext_refl only_ext_trans).
  - apply (preserves_if _ only_ext_refl only_ext_trans).
    + apply preserves_raise; [apply only_ext_refl | apply only_ext_trans].
    + intros w r w'. destruct (sql_connect P (ext w)) as [r0 e].
      intros [= _ <-]. repeat split.
  - intros e. apply preserves_raise; [apply only_ext_refl | apply only_ext_trans].
Qed.

Lemma execute_only_ext (sql_text : string) (ps : list (string * value)) :
  preserves only_ext (execute P cfg sql_text ps).
Proof.
  unfold execute.
  apply (preserves_bind _ only_ext_refl only_ext_trans).
  - apply get_sql_connection_only_ext.
  - intros _ w r w'. destruct (sql_execute P sql_text ps (ext w)) as [r0 e].
    intros [= _ <-]. repeat split.
Qed.

Lemma ensure_audit_table_sql_only_ext : preserves only_ext (ensure_audit_table_sql P cfg).
Proof.
  unfold ensure_audit_table_sql.
  apply (preserves_try _ only_ext_refl only_ext_trans).
  - apply (preserves_bind _ only_ext_refl only_ext_trans); [apply execute_only_ext|].
    intros _. apply execute_only_ext.
  - intros e. apply preserves_raise; [apply only_ext_refl | apply only_ext_trans].
Qed.

Lemma insert_audit_sql_only_ext (row : list (string * value)) :
  preserves only_ext (insert_audit_sql P cfg row).
Proof. apply execute_only_ext. Qed.

(** The primary write: table set-up, then the insert. *)
Lemma primary_write_only_ext (row : list (string * value)) :
  preserves only_ext (ensure_audit_table_sql P cfg ;; insert_audit_sql P cfg row).
Proof.
  apply (preserves_bind _ only_ext_refl only_ext_trans).
  - apply ensure_audit_table_sql_only_ext.
  - intros _. apply insert_audit_sql_only_ext.
Qed.

Lemma append_to_file_returns (row : list (string * value)) (w : World E) :
  exists b w', _append_to_file P row w = (Ok b, w') /\ audit_only w w'.
Proof.
  unfold _append_to_file. destruct (fs_error P (ext w)).
  - eexists _, _. split; [reflexivity|]. repeat split.
  - eexists _, _. split; [reflexivity|]. repeat split.
Qed.

(** [append_audit] returns normally on every input and issues no request. *)
Lemma append_audit_returns (action principal : string) (identifier : value)
    (status details : string) (rc rb rp : value) (w : World E) :
  exists w',
    append_audit P cfg action principal identifier status details rc rb rp w = (Ok tt, w')
    /\ audit_only w w'.
Proof.
  unfold append_audit.
  set (row := audit_row _ _ _ _ _ _ _ _ _ _ _).
  destruct (String.eqb (AUDIT_MODE cfg) "delta" && _is_databricks_env cfg).
  - unfold try_except.
    destruct ((ensure_audit_table_sql P cfg ;; insert_audit_sql P cfg row) w)
      as [[[]|e] w1] eqn:Hp.
    + eexists. split; [reflexivity|].
      apply only_ext_audit_only. eapply primary_write_only_ext, Hp.
    + apply primary_write_only_ext in Hp. apply only_ext_audit_only in Hp.
      unfold bind. destruct (append_to_file_returns row w1) as (b & w2 & -> & H2).
      eexists. split; [reflexivity|]. eapply audit_only_trans; eassumption.
  - unfold bind. destruct (append_to_file_returns row w) as (b & w2 & -> & H2).
    eexists. split; [reflexivity|]. assumption.
Qed.

Lemma append_audit_audit_only (action principal : string) (identifier : value)
    (status details : string) (rc rb rp : value) :
  preserves audit_only (append_audit P cfg action principal identifier status details rc rb rp).
Proof.
  intros w r w' H.
  destruct (append_audit_returns action principal identifier status details rc rb rp w)
    as (w1 & H1 & Ha).
  rewrite H1 in H. now injection H as _ <-.
Qed.

End AuditFacts.

(* ================================================================== *)
(** ** The record the audit trail takes *)
(* ================================================================== *)

Section AuditRecord.

Context {E : Type} (P : Platform E) (cfg : Config).

(** The row [append_audit] builds is the audit record under the expected
    columns. *)
Lemma audit_row_record (w : World E) (action principal : string) (identifier : value)
    (status details : string) (rc rb rp : value) :
  audit_row P (utcnow P (ext w) ++ "Z") (audit_context w) action principal identifier
    status details rc rb rp
  = combine EXPECTED_COLUMNS
      (audit_record P w action principal identifier status details rc rb rp).
Proof.
  unfold audit_row, audit_record, explicit_or_ambient, text_or_blank, py_or. cbv zeta.
  cbn [combine EXPECTED_COLUMNS].
  repeat f_equal.
  - now destruct (ctx_get (audit_context w) "row_id").
  - destruct rp; cbn [is_none negb]; try reflexivity.
    now destruct (ctx_get (audit_context w) "request_payload").
  - destruct rc; cbn [is_none negb]; try reflexivity.
    now destruct (ctx_get (audit_context w) "response_code").
  - destruct rb; cbn [is_none negb]; try reflexivity.
    now destruct (ctx_get (audit_context w) "response_body").
Qed.

Lemma audit_record_length (w : World E) (action principal : string) (identifier : value)
    (status details : string) (rc rb rp : value) :
  map snd (combine EXPECTED_COLUMNS
             (audit_record P w action principal identifier status details rc rb rp))
  = audit_record P w action principal identifier status details rc rb rp.
Proof. reflexivity. Qed.

(** With a writable disk every call of [append_audit] returns with the record
    in one of the stores. *)
Lemma append_audit_takes (action principal : string) (identifier : value)
    (status details : string) (rc rb rp : value) (w w' : World E) (x : res unit) :
  (forall s, fs_error P s = None) ->
  append_audit P cfg action principal identifier status details rc rb rp w = (x, w') ->
  x = Ok tt
  /\ took_record P cfg
       (audit_record P w action principal identifier status details rc rb rp) w w'.
Proof.
  intros Hdisk. unfold append_audit, took_record. rewrite audit_row_record.
  set (cells := audit_record P w action principal identifier status details rc rb rp).
  fold (primary_selected cfg).
  destruct (primary_selected cfg).
  - unfold try_except.
    destruct ((ensure_audit_table_sql P cfg ;;
               insert_audit_sql P cfg (combine EXPECTED_COLUMNS cells)) w)
      as [[[]|e] w1] eqn:Hp.
    + intros [= <- <-]. split; [reflexivity|]. left. now split.
    + pose proof (primary_write_only_ext P cfg _ _ _ _ Hp) as (_ & _ & _ & Hfile).
      unfold bind, _append_to_file. rewrite Hdisk. intros [= <- <-].
      split; [reflexivity|]. right.
      cbn [audit_file set_audit_file]. rewrite Hfile, records_csv_append. reflexivity.
  - unfold bind, _append_to_file. rewrite Hdisk. intros [= <- <-].
    split; [reflexivity|]. right.
    cbn [audit_file set_audit_file]. rewrite records_csv_append. reflexivity.
Qed.

End AuditRecord.

(* ================================================================== *)
(** ** The audit trail: unserialisable payloads and the fall-back (C10) *)
(* ================================================================== *)




(* ================================================================== *)
(** ** The requests each operation issues *)
(* ================================================================== *)

Lemma preserves_weaken {E A} (R R' : World E -> World E -> Prop) (m : M E A) :
  (forall w w', R w w' -> R' w w') -> preserves R m -> preserves R' m.
Proof. intros HR Hm w r w' H. eapply HR, Hm, H. Qed.

(** Name the result of running [m] by evaluation. *)
Ltac run_as H m :=
  let v := eval vm_compute in m in
  assert (H : m = v) by (vm_compute; reflexivity).

(** Composition steps for [traffic]. *)
Ltac traffic_step :=
  lazymatch goal with
  | |- preserves _ (bind _ _) =>
      apply (preserves_bind _ (traffic_refl _) (traffic_trans _)); [|intros ?]
  | |- preserves _ (try_except _ _) =>
      apply (preserves_try _ (traffic_refl _) (traffic_trans _)); [|intros ?]
  | |- preserves _ (ret _) => apply (preserves_ret _ (traffic_refl _) (traffic_trans _))
  | |- preserves _ (raise _) => apply (preserves_raise _ (traffic_refl _) (traffic_trans _))
  | |- preserves _ (lift _) => apply (preserves_lift _ (traffic_refl _) (traffic_trans _))
  | |- preserves _ (if ?b then _ else _) => destruct b
  | |- preserves _ (match ?x with _ => _ end) => destruct x
  end.

Section Traffic.

Context {E : Type} (P : Platform E) (cfg : Config).

Lemma auth_headers_silent : preserves silent (_auth_headers P).
Proof.
  intros w r w'. unfold _auth_headers.
  destruct (get_dbx_access_token P (ext w)) as [[tok|msg] e]; intros [= _ <-]; reflexivity.
Qed.

Lemma auth_headers_traffic (Q : request -> Prop) : preserves (traffic Q) (_auth_headers P).
Proof. eapply preserves_weaken; [apply silent_traffic | apply auth_headers_silent]. Qed.

Lemma time_sleep_traffic (Q : request -> Prop) (d : Z) : preserves (traffic Q) (@time_sleep E d).
Proof. intros w r w' [= _ <-]. apply silent_traffic. reflexivity. Qed.

Lemma send_once_traffic (rq : request) : preserves (traffic (sent_as rq)) (send_once P rq).
Proof.
  intros w r w'. unfold send_once, _auth_headers, requests_request, ret.
  destruct (truthy (headers rq)).
  - destruct (http_send P _ (ext w)) as [a e]. intros [= _ <-].
    eexists [_]. split; [reflexivity|]. constructor; [|constructor]. repeat split.
  - destruct (get_dbx_access_token P (ext w)) as [[tok|msg] e].
    + destruct (http_send P _ _) as [a e']. intros [= _ <-].
      eexists [_]. split; [reflexivity|]. constructor; [|constructor]. repeat split.
    + destruct msg; intros [= _ <-]; apply silent_traffic; reflexivity.
Qed.

Lemma safe_request_loop_traffic (rq : request) (retries : Z) (n : nat) :
  forall a d, preserves (traffic (sent_as rq)) (safe_request_loop P n a d retries rq).
Proof.
  induction n as [|n IH]; intros a d; cbn [safe_request_loop].
  - traffic_step.
  - traffic_step; [apply send_once_traffic|].
    repeat traffic_step. { apply time_sleep_traffic. } apply IH.
Qed.

Lemma safe_request_traffic (Q : request -> Prop) (rq : request) (retries : Z) :
  (forall r, sent_as rq r -> Q r) ->
  preserves (traffic Q) (_safe_request P rq retries).
Proof.
  intros HQ. eapply preserves_weaken; [|apply safe_request_loop_traffic].
  intros w w'. apply traffic_mono, HQ.
Qed.

Lemma append_audit_traffic (Q : request -> Prop) (action principal : string)
    (identifier : value) (status details : string) (rc rb rp : value) :
  preserves (traffic Q)
    (append_audit P cfg action principal identifier status details rc rb rp).
Proof.
  eapply preserves_weaken; [|apply append_audit_audit_only].
  intros w w' (Hc & _). apply silent_traffic, Hc.
Qed.

Lemma scim_list_users_reads (f : string) : preserves (traffic is_get) (scim_list_users P cfg f).
Proof.
  unfold scim_list_users. repeat traffic_step.
  apply safe_request_traffic. now intros r (Hm & _).
Qed.

Lemma scim_list_groups_reads (f : string) : preserves (traffic is_get) (scim_list_groups P cfg f).
Proof.
  unfold scim_list_groups. repeat traffic_step.
  apply safe_request_traffic. now intros r (Hm & _).
Qed.

Lemma listed_resources_reads (resp : value) :
  preserves (traffic is_get) (@listed_resources E resp).
Proof. unfold listed_resources. repeat traffic_step. Qed.

Lemma find_user_reads (email : string) :
  preserves (traffic is_get) (_find_user_by_email P cfg email).
Proof.
  unfold _find_user_by_email.
  repeat first [ apply scim_list_users_reads | apply listed_resources_reads | traffic_step ].
Qed.

Lemma get_user_id_reads (email : string) :
  preserves (traffic is_get) (get_user_id_by_email P cfg email).
Proof.
  unfold get_user_id_by_email.
  repeat first [ apply find_user_reads | traffic_step ].
Qed.

Lemma find_group_reads (name : string) :
  preserves (traffic is_get) (_find_group_by_display_name P cfg name).
Proof.
  unfold _find_group_by_display_name.
  repeat first [ apply scim_list_groups_reads | traffic_step ].
Qed.

Lemma resolve_members_reads (members : list string) :
  forall objs missing,
    preserves (traffic is_get) (resolve_members P cfg members objs missing).
Proof.
  induction members as [|m ms IH]; intros objs missing; cbn [resolve_members].
  - traffic_step.
  - traffic_step; [apply get_user_id_reads|].
    destruct (truthy a); apply IH.
Qed.

End Traffic.

(* ================================================================== *)
(** ** Group creation stops at its checks *)
(* ================================================================== *)

(** On any platform: when the existence check for the constructed name
    returns a group, [create_group_handler] raises the conflict error and
    issues no request beyond that check; when the check finds nothing and a
    member e-mail does not resolve, it raises naming the unresolved members,
    and every request it issued is a GET. *)
Lemma create_group_stops_at_its_checks {E} (P : Platform E) (cfg : Config) (row : Row)
    (name : string) (w w1 : World E) (g : value) :
  construct_group_name row = Ok name ->
  _find_group_by_display_name P cfg name w = (Ok g, w1) ->
  (truthy g = true ->
   exists w',
     create_group_handler P cfg row w = (Raise (ValueError group_exists_msg), w')
     /\ audit_only w1 w'
     /\ traffic is_get w w')
  /\ (truthy g = false ->
      forall (objs : list value) (m : string) (missing : list string) (w2 : World E),
        resolve_members P cfg (_split_members (row_str row "group_members")) [] [] w1
        = (Ok (objs, m :: missing), w2) ->
        exists w',
          create_group_handler P cfg row w
          = (Raise (ValueError ("Cannot create group. These users do not exist: "
                                ++ join ", " (m :: missing))), w')
          /\ audit_only w2 w'
          /\ traffic is_get w w').
Proof.
  intros Hname Hfind.
  pose proof (construct_group_name_nonempty row name Hname) as Hne.
  pose proof (find_group_reads P cfg name w _ _ Hfind) as Hreads.
  split.
  - intros Hg.
    destruct (append_audit_returns P cfg "CREATE_GROUP" "group" (VStr name) "FAILED"
                group_exists_msg VNone VNone VNone w1) as (w' & Ha & Hao).
    exists w'. split; [|split].
    + unfold create_group_handler, bind, lift, raise.
      rewrite Hname, Hne. cbn [negb]. rewrite Hfind, Hg, Ha. reflexivity.
    + exact Hao.
    + eapply traffic_trans; [exact Hreads|]. apply silent_traffic, (proj1 Hao).
  - intros Hg objs m missing w2 Hres.
    pose proof (resolve_members_reads P cfg _ _ _ _ _ _ Hres) as Hreads2.
    destruct (append_audit_returns P cfg "CREATE_GROUP" "group" (VStr name) "FAILED"
                ("Cannot create group. These users do not exist: "
                 ++ join ", " (m :: missing)) VNone VNone VNone w2) as (w' & Ha & Hao).
    exists w'. split; [|split].
    + unfold create_group_handler, bind, lift, raise.
      rewrite Hname, Hne. cbn [negb]. rewrite Hfind, Hg, Hres, Ha. reflexivity.
    + exact Hao.
    + eapply traffic_trans; [exact Hreads|].
      eapply traffic_trans; [exact Hreads2|]. apply silent_traffic, (proj1 Hao).
Qed.

(* ================================================================== *)
(** ** Member removal (C4) *)
(* ================================================================== *)

Lemma lower_nonempty (s : string) : nonempty (lower s) = nonempty s.
Proof. now destruct s. Qed.

Lemma split_members_nonempty (csv m : string) :
  In m (_split_members csv) -> nonempty m = true.
Proof.
  unfold _split_members.
  destruct (nonempty csv); cbn [negb]; [|intros []].
  assert (Hparts : forall sep,
             In m (map (fun p => lower (strip p))
                     (filter (fun p => nonempty (strip p)) (split_char sep (strip csv)))) ->
             nonempty m = true).
  { intros sep Hin. apply in_map_iff in Hin as (p & <- & Hp).
    apply filter_In in Hp as (_ & Hp). now rewrite lower_nonempty. }
  destruct (contains_char "," (strip csv)); [apply Hparts|].
  destruct (contains_char ";" (strip csv)); [apply Hparts|].
  destruct (nonempty (strip csv)) eqn:Hs; [|intros []].
  intros [<-|[]]. now rewrite lower_nonempty.
Qed.

Section Removal.

Context {E : Type} (P : Platform E) (cfg : Config).

Lemma removal_id_truthy (m : string) (uid0 : value) :
  nonempty m = true -> truthy (removal_id m uid0) = true.
Proof. unfold removal_id. intros Hm. now destruct (truthy uid0) eqn:Hu. Qed.

(** One pass of the loop body, for a member that is not the empty string. *)
Lemma remove_one_entry (group_name : string) (group_id : value) (m : string)
    (w w' : World E) (e : value) :
  nonempty m = true ->
  remove_one P cfg group_name group_id m w = (Ok e, w') ->
  exists uid0 w0 x w1,
    get_user_id_by_email P cfg m w = (Ok uid0, w0)
    /\ scim_patch_group P cfg group_id (remove_member_patch P (removal_id m uid0)) w0
       = (x, w1)
    /\ audit_only w1 w'
    /\ match x with
       | Ok _ => e = removed_entry m (removal_id m uid0)
       | Raise ex => e = failed_entry m (removal_id m uid0) ex
       end.
Proof.
  intros Hm. unfold remove_one. unfold bind at 1.
  destruct (get_user_id_by_email P cfg m w) as [[uid0|ex] w0] eqn:Hu; [|discriminate].
  rewrite Hm.
  replace (if negb (truthy uid0) then VStr m else uid0) with (removal_id m uid0)
    by (unfold removal_id; now destruct (truthy uid0)).
  rewrite (removal_id_truthy m uid0 Hm). cbn [negb].
  unfold try_except. unfold bind at 1.
  destruct (scim_patch_group P cfg group_id (remove_member_patch P (removal_id m uid0)) w0)
    as [[resp|ex] w1] eqn:Hp.
  - destruct (append_audit_returns P cfg "REMOVE_FROM_GROUP" "group" (VStr group_name)
                "SUCCESS" ("removed " ++ py_str P (removal_id m uid0)) (VInt 200) resp
                (remove_member_patch P (removal_id m uid0)) w1) as (w2 & Ha & Hao).
    unfold bind. rewrite Ha. unfold ret. intros [= <- <-].
    exists uid0, w0, (Ok resp), w1.
    split; [reflexivity|]. split; [exact Hp|]. split; [exact Hao|reflexivity].
  - destruct (append_audit_returns P cfg "REMOVE_FROM_GROUP" "group" (VStr group_name)
                "FAILED" ("remove " ++ py_str P (removal_id m uid0) ++ " failed: "
                          ++ str_exn ex) VNone VNone
                (remove_member_patch P (removal_id m uid0)) w1) as (w2 & Ha & Hao).
    unfold bind. rewrite Ha. unfold ret. intros [= <- <-].
    exists uid0, w0, (Raise ex), w1.
    split; [reflexivity|]. split; [exact Hp|]. split; [exact Hao|reflexivity].
Qed.

Lemma remove_loop_run (group_name : string) (group_id : value) (ms : list string) :
  Forall (fun m => nonempty m = true) ms ->
  forall (acc res : list value) (w w' : World E),
    remove_loop P cfg group_name group_id ms acc w = (Ok res, w') ->
    exists es,
      res = (acc ++ es)%list
      /\ removal_run P cfg group_name group_id ms w es w'
      /\ Forall (fun e => has_status "removed" e \/ has_status "failed" e) es.
Proof.
  intros Hms. induction Hms as [|m ms Hm Hms IH]; intros acc res w w'.
  - cbn [remove_loop]. intros [= <- <-]. exists [].
    split; [now rewrite app_nil_r|]. split; constructor.
  - cbn [remove_loop]. unfold bind at 1.
    destruct (remove_one P cfg group_name group_id m w) as [[e|ex] w2] eqn:Hone;
      [|discriminate].
    intros Hloop.
    destruct (remove_one_entry group_name group_id m w w2 e Hm Hone)
      as (uid0 & w0 & x & w1 & Hu & Hp & Hao & He).
    destruct (IH _ _ _ _ Hloop) as (es & -> & Hrun & Hst).
    exists (e :: es). split; [|split].
    + unfold py_append. now rewrite <- app_assoc.
    + econstructor; try eassumption.
      destruct x as [resp|ex]; subst e; repeat split.
    + constructor; [|exact Hst].
      destruct x as [resp|ex]; subst e; [now left | now right].
Qed.

End Removal.

(** The aggregate status of a list of entries each "removed" or "failed". *)
Lemma aggregate_status (es : list value) :
  Forall (fun e => has_status "removed" e \/ has_status "failed" e) es ->
  existsb not_removed es = true <-> Exists (has_status "failed") es.
Proof.
  induction 1 as [|e es He Hes IH]; cbn [existsb].
  - split; [discriminate | intros H; inversion H].
  - rewrite orb_true_iff, IH, Exists_cons.
    assert (Hone : not_removed e = true <-> has_status "failed" e).
    { unfold not_removed, has_status in *.
      destruct He as [-> | ->]; cbn; split; congruence. }
    now rewrite Hone.
Qed.

(** C4 (as the code has it). Whenever [remove_members_from_group_handler]
    returns for a row with members, the group was found and the loop ran once
    over the members in order: each member is resolved on its own and patched
    out with one call; a member whose e-mail does not resolve is not skipped
    but patched out under its own text as the id; every member has its own
    entry in the results, "failed" with the error text when its patch raised
    and "removed" when its patch was accepted, never "skipped"; the aggregate
    status is "partial" exactly when some entry is "failed", and
    "removed_all" otherwise. *)
Theorem remove_members_reports_every_member :
  forall (E : Type) (P : Platform E) (cfg : Config) (row : Row)
         (w w' : World E) (res : value),
    _split_members (row_str row "group_members") <> [] ->
    remove_members_from_group_handler P cfg row w = (Ok res, w') ->
    exists (name : string) (g group_id : value) (w1 : World E) (es : list value)
           (st : string),
      construct_group_name row = Ok name
      /\ _find_group_by_display_name P cfg name w = (Ok g, w1)
      /\ truthy g = true
      /\ py_get g "id" = Ok group_id
      /\ removal_run P cfg name group_id (_split_members (row_str row "group_members"))
           w1 es w'
      /\ Forall (fun e => has_status "removed" e \/ has_status "failed" e) es
      /\ res = VDict [("status", VStr st); ("results", VList es)]
      /\ (st = "partial" <-> Exists (has_status "failed") es)
      /\ (st = "removed_all" <-> ~ Exists (has_status "failed") es).
Proof.
  intros E P cfg row w w' res Hmem.
  unfold remove_members_from_group_handler. unfold bind at 1. unfold lift.
  destruct (construct_group_name row) as [name|ex] eqn:Hname; [|discriminate].
  rewrite (construct_group_name_nonempty row name Hname). cbn [negb].
  pose proof (split_members_nonempty (row_str row "group_members")) as Hne.
  destruct (_split_members (row_str row "group_members")) as [|m ms] eqn:Hms;
    [congruence|].
  unfold bind at 1.
  destruct (_find_group_by_display_name P cfg name w) as [[g|ex] w1] eqn:Hfind;
    [|discriminate].
  destruct (truthy g) eqn:Hg; cbn [negb].
  2:{ unfold bind, raise.
      destruct (append_audit P cfg _ _ _ _ _ _ _ _ w1) as [[[]|?] ?]; discriminate. }
  unfold bind at 1. unfold lift.
  destruct (py_get g "id") as [group_id|ex] eqn:Hid; [|discriminate].
  unfold bind at 1.
  destruct (remove_loop P cfg name group_id (m :: ms) [] w1) as [[results|ex] w2] eqn:Hloop;
    [|discriminate].
  unfold ret. intros [= <- <-].
  destruct (remove_loop_run P cfg name group_id (m :: ms)
              ltac:(apply Forall_forall; exact Hne) [] results w1 w2 Hloop)
    as (es & -> & Hrun & Hst).
  cbn [app].
  pose proof (aggregate_status es Hst) as Hagg.
  exists name, g, group_id, w1, es.
  destruct (existsb not_removed es).
  - exists "partial".
    do 7 (split; [first [assumption | reflexivity]|]). split; split.
    + intros _. now apply Hagg.
    + reflexivity.
    + discriminate.
    + intros Hno. exfalso. apply Hno. now apply Hagg.
  - exists "removed_all".
    do 7 (split; [first [assumption | reflexivity]|]). split; split.
    + discriminate.
    + intros Hex. apply Hagg in Hex. discriminate.
    + intros _ Hex. apply Hagg in Hex. discriminate.
    + reflexivity.
Qed.

(** Three members on the reference directory, the middle one unknown to it:
    every patch is accepted, so the status is "removed_all" and the three
    entries are "removed".  One member behind a token endpoint that stops
    answering properly before the patch: the patch raises, the entry is
    "failed" and the status is "partial". *)
Lemma remove_members_reports_every_member_on_examples :
  _split_members (row_str three_member_row "group_members") <> []
  /\ (exists es,
         fst (remove_members_from_group_handler (Sim.platform Sim.cfg0) Sim.cfg0
                three_member_row (Sim.world_of Sim.d0))
         = Ok (VDict [("status", VStr "removed_all"); ("results", VList es)])
         /\ es = [removed_entry "ann@x.io" (VStr "u1");
                  removed_entry "zed@x.io" (VStr "zed@x.io");
                  removed_entry "bob@x.io" (VStr "u2")]
         /\ ~ Exists (has_status "failed") es)
  /\ (exists es,
         fst (remove_members_from_group_handler Script.token_runs_out Sim.cfg0
                one_member_row (Script.world_of listing_of_group_and_member))
         = Ok (VDict [("status", VStr "partial"); ("results", VList es)])
         /\ es = [failed_entry "ann@x.io" (VStr "u1") (KeyError "'access_token'")]
         /\ Exists (has_status "failed") es).
Proof.
  split; [discriminate|]. split.
  - run_as Hrun (remove_members_from_group_handler (Sim.platform Sim.cfg0) Sim.cfg0
                   three_member_row (Sim.world_of Sim.d0)).
    destruct (remove_members_reports_every_member _ (Sim.platform Sim.cfg0) Sim.cfg0
                three_member_row (Sim.world_of Sim.d0) _ _ ltac:(discriminate) Hrun)
      as (name & g & gid & w1 & es & st & _ & _ & _ & _ & _ & _ & Hres & _ & Hall).
    injection Hres as <- <-.
    eexists. split; [rewrite Hrun; reflexivity|]. split; [reflexivity|].
    now apply Hall.
  - run_as Hrun (remove_members_from_group_handler Script.token_runs_out Sim.cfg0
                   one_member_row (Script.world_of listing_of_group_and_member)).
    destruct (remove_members_reports_every_member _ Script.token_runs_out Sim.cfg0
                one_member_row (Script.world_of listing_of_group_and_member) _ _
                ltac:(discriminate) Hrun)
      as (name & g & gid & w1 & es & st & _ & _ & _ & _ & _ & _ & Hres & Hpart & _).
    injection Hres as <- <-.
    eexists. split; [rewrite Hrun; reflexivity|]. split; [reflexivity|].
    now apply Hpart.
Defined.

(** Three members, one of them unresolved: the handler answers "removed_all"
    with three "removed" entries and no "skipped" one, not "partial". *)
Lemma unresolved_member_is_removed_not_skipped :
  fst (get_user_id_by_email (Sim.platform Sim.cfg0) Sim.cfg0 "zed@x.io"
         (Sim.world_of Sim.d0)) = Ok VNone
  /\ fst (remove_members_from_group_handler (Sim.platform Sim.cfg0) Sim.cfg0
            three_member_row (Sim.world_of Sim.d0))
     = Ok (VDict [("status", VStr "removed_all");
                  ("results",
                   VList [VDict [("member", VStr "ann@x.io"); ("id", VStr "u1");
                                 ("status", VStr "removed")];
                          VDict [("member", VStr "zed@x.io"); ("id", VStr "zed@x.io");
                                 ("status", VStr "removed")];
                          VDict [("member", VStr "bob@x.io"); ("id", VStr "u2");
                                 ("status", VStr "removed")]])]).
Proof. split; vm_compute; reflexivity. Qed.

(* ================================================================== *)
(** ** What went out and came back *)
(* ================================================================== *)

Lemma exchanged_after {E} (P : Platform E) (rq : request) (r : response)
    (w w1 w' : World E) (cs : list request) :
  calls w1 = (calls w ++ cs)%list -> exchanged P rq r w1 w' -> exchanged P rq r w w'.
Proof.
  intros Hc (rq' & pre & post & e & e' & Hs & Hr & Hc').
  exists rq', (cs ++ pre)%list, post, e, e'. split; [exact Hs|]. split; [exact Hr|].
  now rewrite Hc', Hc, <- !app_assoc.
Qed.

Lemma exchanged_before {E} (P : Platform E) (rq : request) (r : response)
    (w w1 w' : World E) (cs : list request) :
  exchanged P rq r w w1 -> calls w' = (calls w1 ++ cs)%list -> exchanged P rq r w w'.
Proof.
  intros (rq' & pre & post & e & e' & Hs & Hr & Hc') Hc.
  exists rq', pre, (post ++ cs)%list, e, e'. split; [exact Hs|]. split; [exact Hr|].
  rewrite Hc, Hc', <- !app_assoc. cbn [app]. reflexivity.
Qed.

Lemma exchanged_any_headers {E} (P : Platform E) (m : string) (u : option string)
    (h p j : value) (r : response) (w w' : World E) :
  exchanged P (mk_request m u h p j) r w w' -> exchanged P (mk_request m u VNone p j) r w w'.
Proof.
  intros (rq' & pre & post & e & e' & Hs & Hr). exists rq', pre, post, e, e'.
  split; assumption.
Qed.

Section Exchange.

Context {E : Type} (P : Platform E).

Lemma send_once_exchange (rq : request) (w w' : World E) (r : response) :
  send_once P rq w = (Ok (Done r), w') -> exchanged P rq r w w'.
Proof.
  unfold send_once, _auth_headers, requests_request, ret.
  destruct (truthy (headers rq)).
  - match goal with
    | |- context [http_send P ?q ?s] => destruct (http_send P q s) as [x e] eqn:Hs
    end.
    intros [= -> <-]. eexists _, [], [], _, _.
    split; [|split; [exact Hs|reflexivity]]. repeat split.
  - destruct (get_dbx_access_token P (ext w)) as [[tok|ex] e].
    + match goal with
      | |- context [http_send P ?q ?s] => destruct (http_send P q s) as [x e'] eqn:Hs
      end.
      intros [= -> <-]. eexists _, [], [], _, _.
      split; [|split; [exact Hs|reflexivity]]. repeat split.
    + destruct ex; discriminate.
Qed.

Lemma loop_exchange (rq : request) (retries : Z) (n : nat) :
  forall (a d : Z) (w w' : World E) (o : value),
    safe_request_loop P n a d retries rq w = (Ok o, w') ->
    o = VNone
    \/ (exists msg, o = outcome_of_failure rq retries msg)
    \/ (exists r, exchanged P rq r w w' /\ o = outcome_of_response rq r).
Proof.
  induction n as [|n IH]; intros a d w w' o; cbn [safe_request_loop].
  - intros [= <- _]. now left.
  - unfold bind at 1.
    destruct (send_once P rq w) as [[[r|msg]|e] w0] eqn:Hs; [| |discriminate].
    + intros [= <- <-]. right. right. exists r. split; [|reflexivity].
      eapply send_once_exchange, Hs.
    + destruct (a =? retries)%Z.
      * intros [= <- _]. right. left. eauto.
      * unfold bind, time_sleep. intros Hrun.
        destruct (send_once_traffic P rq w _ _ Hs) as (cs & Hc & _).
        destruct (IH _ _ _ _ _ Hrun) as [->|[(m & ->)|(r & Hr & ->)]];
          [now left | right; left; eauto |].
        right. right. exists r. split; [|reflexivity].
        eapply exchanged_after; [|exact Hr]. exact Hc.
Qed.

Lemma response_status (rq : request) (r : response) :
  py_get (outcome_of_response rq r) "status_code" = Ok (VInt (status_code r)).
Proof.
  unfold outcome_of_response. cbv zeta.
  destruct ((status_code r =? 200) || (status_code r =? 201))%Z.
  - now destruct (json_body r).
  - destruct (status_code r =? 204)%Z eqn:H204; [|reflexivity].
    apply Z.eqb_eq in H204. now rewrite H204.
Qed.

(** An outcome with a status other than 0 is the outcome of a response the
    platform gave in this run. *)
Lemma safe_request_exchange (rq : request) (retries : Z) (w w' : World E)
    (o sc : value) (n : Z) :
  _safe_request P rq retries w = (Ok o, w') ->
  py_get o "status_code" = Ok sc ->
  eq_int sc n = true ->
  n <> 0%Z ->
  exists r, exchanged P rq r w w' /\ status_code r = n /\ o = outcome_of_response rq r.
Proof.
  intros Hrun Hsc Hn Hnz.
  destruct (loop_exchange rq retries _ _ _ _ _ _ Hrun) as [->|[(msg & ->)|(r & Hr & ->)]].
  - discriminate.
  - cbn in Hsc. injection Hsc as <-. unfold eq_int in Hn. apply Z.eqb_eq in Hn. congruence.
  - rewrite response_status in Hsc. injection Hsc as <-. unfold eq_int in Hn.
    apply Z.eqb_eq in Hn. eauto.
Qed.

Lemma response_body_200 (rq : request) (r : response) :
  status_code r = 200%Z ->
  py_get_default (outcome_of_response rq r) "body" (VDict []) = Ok (body_of r).
Proof.
  intros Hsc. unfold outcome_of_response, body_of. cbv zeta. rewrite Hsc.
  cbn [Z.eqb Pos.eqb orb]. now destruct (json_body r).
Qed.

(** A request that carries its headers goes out at the first attempt. *)
Lemma safe_request_sends (rq : request) (retries : Z) (w w' : World E) (x : res value) :
  (1 <= retries)%Z ->
  truthy (headers rq) = true ->
  _safe_request P rq retries w = (x, w') ->
  exists rq' cs, sent_as rq rq' /\ calls w' = (calls w ++ rq' :: cs)%list.
Proof.
  intros Hr Hh. unfold _safe_request.
  destruct (Z.to_nat retries) as [|n] eqn:Hn; [lia|].
  cbn [safe_request_loop]. unfold bind at 1.
  destruct (send_once P rq w) as [y w0] eqn:Hs.
  assert (Hfirst : exists rq', sent_as rq rq' /\ calls w0 = (calls w ++ [rq'])%list).
  { revert Hs. unfold send_once, requests_request, ret. rewrite Hh.
    destruct (http_send P _ (ext w)) as [a e]. intros [= _ <-].
    eexists. split; [|reflexivity]. repeat split. }
  destruct Hfirst as (rq' & Hsent & Hc0).
  destruct y as [[r|msg]|e].
  - intros [= _ <-]. exists rq', []. now split.
  - destruct (1 =? retries)%Z.
    + intros [= _ <-]. exists rq', []. now split.
    + unfold bind, time_sleep. intros Hrun.
      destruct (safe_request_loop_traffic P rq retries n _ _ _ _ _ Hrun) as (cs & Hc & _).
      exists rq', cs. split; [exact Hsent|].
      cbn [calls log_sleep] in Hc. rewrite Hc, Hc0, <- app_assoc. reflexivity.
  - intros [= _ <-]. exists rq', []. now split.
Qed.

End Exchange.

(* ================================================================== *)
(** ** Compute provisioning (C7) *)
(* ================================================================== *)

Section Compute.

Context {E : Type} (P : Platform E) (cfg : Config).

Lemma auth_headers_truthy (w w' : World E) (h : value) :
  _auth_headers P w = (Ok h, w') -> truthy h = true /\ calls w' = calls w.
Proof.
  unfold _auth_headers.
  destruct (get_dbx_access_token P (ext w)) as [[tok|ex] e]; [|discriminate].
  intros [= <- <-]. split; reflexivity.
Qed.

Lemma list_resources_reads (path what key : string) :
  preserves (traffic (fun r => is_get r /\ goes_to cfg path r))
    (list_resources P cfg path what key).
Proof.
  unfold list_resources.
  traffic_step; [apply auth_headers_traffic|].
  traffic_step.
  { apply safe_request_traffic. intros r (Hm & Hu & _). split; assumption. }
  repeat traffic_step.
Qed.

Lemma get_sql_warehouse_id_reads (wh_name : string) :
  preserves (traffic (fun r => is_get r /\ goes_to cfg "/api/2.0/sql/warehouses" r))
    (get_sql_warehouse_id P cfg wh_name).
Proof.
  unfold get_sql_warehouse_id.
  traffic_step; [apply list_resources_reads|]. repeat traffic_step.
Qed.

Lemma get_policy_id_reads (policy_name : string) :
  preserves (traffic (fun r => is_get r /\ goes_to cfg "/api/2.0/policies/clusters/list" r))
    (get_policy_id P cfg policy_name).
Proof.
  unfold get_policy_id.
  traffic_step; [apply list_resources_reads|]. repeat traffic_step.
Qed.

(** What [create_sql_warehouse] does once the lookup has come back empty:
    every request is the creation POST; with a token at hand one goes out;
    an id is returned only from a 200 that carries it. *)
Lemma create_sql_warehouse_after_lookup (application_name : string) (sql_wh_size : value)
    (project_tags : list (string * value)) (w w1 w' : World E) (wh_id : value)
    (r : res value) :
  get_sql_warehouse_id P cfg (application_name ++ "_Reporting_wh") w = (Ok wh_id, w1) ->
  truthy wh_id = false ->
  create_sql_warehouse P cfg application_name sql_wh_size project_tags w = (r, w') ->
  let payload := warehouse_payload (application_name ++ "_Reporting_wh") sql_wh_size
                   project_tags in
  traffic (creates cfg "/api/2.0/sql/warehouses" payload) w1 w'
  /\ (forall (tok : string) (e : E),
         get_dbx_access_token P (ext w1) = (Ok tok, e) ->
         exists rq cs, calls w' = (calls w1 ++ rq :: cs)%list)
  /\ (forall v, r = Ok v ->
        truthy v = true
        /\ exists resp,
             exchanged P (ws_request cfg "POST" "/api/2.0/sql/warehouses" VNone payload)
               resp w1 w'
             /\ status_code resp = 200%Z
             /\ py_get (body_of resp) "id" = Ok v).
Proof.
  intros Hlook Hid. unfold create_sql_warehouse. unfold bind at 1.
  rewrite Hlook, Hid. cbv zeta. intros Hrun.
  split; [|split].
  - match type of Hrun with
    | ?m w1 = _ =>
        assert (Hp : preserves
                       (traffic (creates cfg "/api/2.0/sql/warehouses"
                                   (warehouse_payload (application_name ++ "_Reporting_wh")
                                      sql_wh_size project_tags))) m)
    end.
    { traffic_step; [apply auth_headers_traffic|].
      traffic_step.
      { apply safe_request_traffic. intros rq (Hm & Hu & _ & Hj). repeat split; assumption. }
      repeat traffic_step. }
    exact (Hp _ _ _ Hrun).
  - intros tok e Htok. revert Hrun. unfold bind at 1. unfold _auth_headers at 1.
    rewrite Htok. unfold bind at 1.
    match goal with
    | |- context [_safe_request P ?q FAST_RETRIES ?s] =>
        destruct (_safe_request P q FAST_RETRIES s) as [x w2] eqn:Hreq
    end.
    pose proof Hreq as Hsent.
    eapply safe_request_sends in Hsent as (rq' & cs & _ & Hc);
      [|unfold FAST_RETRIES; lia|reflexivity].
    cbn [calls set_ext] in Hc.
    intros Hrun. exists rq', cs. rewrite <- Hc.
    destruct x as [o|ex]; [|now injection Hrun as _ <-].
    revert Hrun. unfold bind, lift, raise, ret.
    repeat match goal with
           | |- context [match ?t with _ => _ end] => destruct t
           end; intros [= _ <-]; reflexivity.
  - intros v ->. revert Hrun. unfold bind at 1.
    destruct (_auth_headers P w1) as [[h|ex] w2] eqn:Hauth; [|discriminate].
    destruct (auth_headers_truthy _ _ _ Hauth) as (_ & Hc2).
    unfold bind at 1.
    destruct (_safe_request P _ FAST_RETRIES w2) as [[o|ex] w3] eqn:Hreq; [|discriminate].
    unfold bind at 1. unfold lift at 1.
    destruct (py_get o "status_code") as [sc|ex] eqn:Hsc; [|discriminate].
    destruct (eq_int sc 200) eqn:H200.
    + destruct (safe_request_exchange P _ _ _ _ _ _ _ Hreq Hsc H200 ltac:(lia))
        as (resp & Hex & Hst & ->).
      unfold bind at 1. unfold lift at 1. rewrite (response_body_200 _ _ Hst).
      unfold bind at 1. unfold lift at 1.
      destruct (py_get (body_of resp) "id") as [i|ex] eqn:Hi; [|discriminate].
      destruct (truthy i) eqn:Ht.
      * intros [= <- <-]. split; [exact Ht|]. exists resp.
        split; [|split; [exact Hst|first [exact Hi|reflexivity]]].
        apply (exchanged_after P _ _ w1 w2 _ []); [now rewrite app_nil_r|].
        unfold ws_request. eapply exchanged_any_headers, Hex.
      * unfold bind, lift, raise. destruct (py_get _ "body"); discriminate.
    + unfold bind, lift, raise.
      destruct (py_get o "error"); [|discriminate].
      destruct (py_get o "body"); discriminate.
Qed.

End Compute.

(* ================================================================== *)
(** ** What a look-up by name has seen *)
(* ================================================================== *)

Lemma eq_str_true (n : value) (name : string) : eq_str n name = true -> n = VStr name.
Proof. destruct n; try discriminate. cbn. intros H. apply String.eqb_eq in H. now subst. Qed.

Lemma find_named_first (name_key id_key name : string) (items : list value) (v : value) :
  find_named name_key id_key name items = Ok v ->
  first_named name_key id_key name items v
  \/ (v = VNone /\ none_named name_key name items).
Proof.
  induction items as [|item rest IH]; cbn [find_named].
  - intros [= <-]. right. split; [reflexivity|constructor].
  - destruct (py_get item name_key) as [n|e] eqn:Hn; [|discriminate].
    destruct (eq_str n name) eqn:Heq.
    + intros Hid. left. exists [], item, rest.
      apply eq_str_true in Heq. subst n. repeat split; [constructor|assumption..].
    + intros Hrest. destruct (IH Hrest) as [(pre & it & post & -> & Hpre & Hname & Hid)|(-> & Hnone)].
      * left. exists (item :: pre), it, post. repeat split; try assumption.
        constructor; [eauto|assumption].
      * right. split; [reflexivity|]. constructor; [eauto|assumption].
Qed.

Section Listings.

Context {E : Type} (P : Platform E) (cfg : Config).

Lemma list_resources_exchange (path what key : string) (w w' : World E) (lst : value) :
  list_resources P cfg path what key w = (Ok lst, w') ->
  exists resp,
    exchanged P (ws_request cfg "GET" path VNone VNone) resp w w'
    /\ status_code resp = 200%Z
    /\ py_get_default (body_of resp) key (VList []) = Ok lst
    /\ calls w <> calls w'.
Proof.
  unfold list_resources. unfold bind at 1.
  destruct (_auth_headers P w) as [[h|ex] w0] eqn:Hauth; [|discriminate].
  destruct (auth_headers_truthy P _ _ _ Hauth) as (_ & Hc0).
  unfold bind at 1.
  destruct (_safe_request P _ FAST_RETRIES w0) as [[o|ex] w1] eqn:Hreq; [|discriminate].
  unfold bind at 1. unfold lift at 1.
  destruct (py_get o "status_code") as [sc|ex] eqn:Hsc; [|discriminate].
  unfold bind at 1. unfold lift at 1.
  destruct (py_get_default o "body" (VDict [])) as [b|ex] eqn:Hb; [|discriminate].
  destruct (eq_int sc 200) eqn:H200; cbn [negb].
  - destruct (safe_request_exchange P _ _ _ _ _ _ _ Hreq Hsc H200 ltac:(lia))
      as (resp & Hex & Hst & ->).
    rewrite (response_body_200 _ _ Hst) in Hb. injection Hb as <-.
    unfold lift. intros [= Hl <-]. exists resp.
    assert (Hex' : exchanged P (ws_request cfg "GET" path VNone VNone) resp w w1).
    { apply (exchanged_after P _ _ w w0 _ []); [now rewrite app_nil_r|].
      unfold ws_request. eapply exchanged_any_headers, Hex. }
    split; [exact Hex'|]. split; [exact Hst|]. split; [exact Hl|].
    destruct Hex' as (rq' & pre & post & e & e' & _ & _ & Hc).
    rewrite Hc. intros Heq. apply (f_equal (@length request)) in Heq.
    rewrite !length_app in Heq. cbn [length] in Heq. lia.
  - unfold bind, lift, raise. destruct (py_get o "error"); discriminate.
Qed.

Lemma get_sql_warehouse_id_listed (wh_name : string) (w w' : World E) (v : value) :
  get_sql_warehouse_id P cfg wh_name w = (Ok v, w') ->
  exists items,
    listed P cfg "/api/2.0/sql/warehouses" "warehouses" items w w'
    /\ (first_named "name" "id" wh_name items v
        \/ (v = VNone /\ none_named "name" wh_name items)).
Proof.
  unfold get_sql_warehouse_id. unfold bind at 1.
  destruct (list_resources P cfg _ _ _ w) as [[lst|e] w1] eqn:Hlist; [|discriminate].
  destruct (list_resources_exchange _ _ _ _ _ _ Hlist) as (resp & Hex & Hst & Hl & _).
  unfold bind at 1. unfold lift at 1.
  destruct (py_iter lst) as [items|e] eqn:Hiter; [|discriminate].
  unfold lift. intros [= Hfind <-].
  exists items. split; [exists resp, lst; repeat split; assumption|].
  now apply find_named_first.
Qed.

Lemma get_policy_id_resolved (policy_name : string) (w w' : World E) (v : value) :
  get_policy_id P cfg policy_name w = (Ok v, w') ->
  truthy v = true /\ policy_resolved P cfg policy_name v w w'.
Proof.
  unfold get_policy_id. unfold bind at 1.
  destruct (list_resources P cfg _ _ _ w) as [[lst|e] w1] eqn:Hlist; [|discriminate].
  destruct (list_resources_exchange _ _ _ _ _ _ Hlist) as (resp & Hex & Hst & Hl & _).
  unfold bind at 1. unfold lift at 1.
  destruct (py_iter lst) as [items|e] eqn:Hiter; [|discriminate].
  unfold bind at 1. unfold lift at 1.
  destruct (find_named "name" "policy_id" policy_name items) as [found|e] eqn:Hfind;
    [|discriminate].
  destruct (truthy found) eqn:Ht; [|discriminate].
  intros [= <- <-]. split; [exact Ht|].
  exists items. split; [exists resp, lst; repeat split; assumption|].
  destruct (find_named_first _ _ _ _ _ Hfind) as [H|(-> & _)]; [exact H|discriminate].
Qed.

(** Whenever [create_sql_warehouse] returns an id, the id is not empty and
    the warehouse is provisioned under it. *)
Lemma create_sql_warehouse_provisions (application_name : string) (sql_wh_size : value)
    (project_tags : list (string * value)) (w w' : World E) (v : value) :
  create_sql_warehouse P cfg application_name sql_wh_size project_tags w = (Ok v, w') ->
  truthy v = true
  /\ warehouse_provisioned P cfg (application_name ++ "_Reporting_wh") sql_wh_size
       project_tags v w w'.
Proof.
  intros Hrun.
  destruct (get_sql_warehouse_id P cfg (application_name ++ "_Reporting_wh") w)
    as [[wh_id|ex] w1] eqn:Hlook.
  2:{ unfold create_sql_warehouse in Hrun. unfold bind at 1 in Hrun.
      rewrite Hlook in Hrun. discriminate. }
  destruct (truthy wh_id) eqn:Hid.
  - unfold create_sql_warehouse in Hrun. unfold bind at 1 in Hrun.
    rewrite Hlook, Hid in Hrun. injection Hrun as <- <-.
    split; [exact Hid|]. left.
    destruct (get_sql_warehouse_id_listed _ _ _ _ Hlook) as (items & Hl & [Hf|(-> & _)]);
      [eauto | discriminate].
  - destruct (create_sql_warehouse_after_lookup P cfg _ _ _ _ _ _ _ _ Hlook Hid Hrun)
      as (_ & _ & Hok).
    destruct (Hok v eq_refl) as (Ht & resp & Hex & Hst & Hi).
    split; [exact Ht|]. right. exists resp. split; [|now split].
    destruct (get_sql_warehouse_id_reads P cfg _ _ _ _ Hlook) as (cs & Hc & _).
    eapply exchanged_after; eassumption.
Qed.

(** [create_all_purpose_cluster] asks once: at most one request, a POST to
    the creation endpoint, no sleep; nothing is sent for a worker count that
    is not an integer; an id comes only from a 200 that holds it. *)
Lemma create_all_purpose_cluster_run (application_name : string) (policy_id : value)
    (node_type_id : string) (base_workers : option string) (environment : string)
    (project_tags : list (string * value)) (w w' : World E) (r : res value) :
  create_all_purpose_cluster P cfg application_name policy_id node_type_id base_workers
    environment project_tags w = (r, w') ->
  sleeps w' = sleeps w
  /\ (exists cs,
         calls w' = (calls w ++ cs)%list /\ (length cs <= 1)%nat
         /\ Forall (fun rq => method rq = "POST"
                              /\ goes_to cfg "/api/2.0/clusters/create" rq) cs)
  /\ (forall e, int_or_1 P base_workers = Raise e -> calls w' = calls w)
  /\ (forall v, r = Ok v ->
      exists (n : Z),
        int_or_1 P base_workers = Ok n
        /\ cluster_provisioned P cfg application_name policy_id node_type_id n
             project_tags v w w').
Proof.
  unfold create_all_purpose_cluster. unfold bind at 1.
  assert (Hsilent : forall w0 : World E, calls w0 = calls w ->
                      exists cs, calls w0 = (calls w ++ cs)%list /\ (length cs <= 1)%nat
                                 /\ Forall (fun rq => method rq = "POST"
                                              /\ goes_to cfg "/api/2.0/clusters/create" rq) cs).
  { intros w0 H. exists []. rewrite app_nil_r. repeat split; [assumption|cbn; lia|constructor]. }
  unfold _auth_headers at 1.
  destruct (get_dbx_access_token P (ext w)) as [[tok|ex] e0].
  2:{ intros [= <- <-]. cbn [sleeps calls set_ext]. repeat split; auto; discriminate. }
  unfold bind at 1. unfold lift at 1.
  destruct (int_or_1 P base_workers) as [n|e1] eqn:Hint.
  2:{ intros [= <- <-]. cbn [sleeps calls set_ext]. repeat split; auto; discriminate. }
  unfold bind at 1. unfold requests_request at 1.
  match goal with
  | |- context [http_send P ?q ?s] => destruct (http_send P q s) as [a e2] eqn:Hsend
  end.
  cbn [sleeps calls set_ext log_call ext].
  assert (Hone : forall w0 : World E,
             calls w0 = (calls w ++ [{| method := "POST";
                                        url := _ws_url cfg "/api/2.0/clusters/create";
                                        headers := VDict [("Authorization", VStr ("Bearer " ++ tok));
                                                          ("Content-Type", VStr "application/json")];
                                        params := VNone;
                                        json := cluster_payload application_name policy_id
                                                  node_type_id n project_tags;
                                        timeout := 30 |}])%list ->
             exists cs, calls w0 = (calls w ++ cs)%list /\ (length cs <= 1)%nat
                        /\ Forall (fun rq => method rq = "POST"
                                     /\ goes_to cfg "/api/2.0/clusters/create" rq) cs).
  { intros w0 H. eexists [_]. split; [exact H|]. split; [cbn; lia|].
    constructor; [|constructor]. split; reflexivity. }
  destruct a as [resp|msg].
  - destruct (status_code resp =? 200)%Z eqn:Hst.
    + destruct (json_body resp) as [b|] eqn:Hb.
      * unfold lift. intros [= <- <-]. cbn [sleeps calls].
        split; [reflexivity|]. split; [apply Hone; reflexivity|].
        split; [discriminate|]. intros v Hv.
        exists n. split; [reflexivity|]. exists resp, b. split.
        { eexists _, [], [], _, _. split; [|split; [exact Hsend|reflexivity]].
          repeat split. }
        apply Z.eqb_eq in Hst. repeat split; assumption.
      * intros [= <- <-]. cbn [sleeps calls].
        split; [reflexivity|]. split; [apply Hone; reflexivity|].
        split; discriminate.
    + intros [= <- <-]. cbn [sleeps calls].
      split; [reflexivity|]. split; [apply Hone; reflexivity|]. split; discriminate.
  - intros [= <- <-]. cbn [sleeps calls].
    split; [reflexivity|]. split; [apply Hone; reflexivity|]. split; discriminate.
Qed.

End Listings.




(* ================================================================== *)
(** ** Project onboarding branches on the cluster type (C8) *)
(* ================================================================== *)

Lemma listed_before {E} (P : Platform E) (cfg : Config) (path key : string)
    (items : list value) (w w1 w' : World E) (cs : list request) :
  listed P cfg path key items w w1 -> calls w' = (calls w1 ++ cs)%list ->
  listed P cfg path key items w w'.
Proof.
  intros (resp & lst & Hex & H) Hc. exists resp, lst. split; [|exact H].
  eapply exchanged_before; eassumption.
Qed.

Lemma warehouse_provisioned_before {E} (P : Platform E) (cfg : Config) (wh_name : string)
    (size : value) (tags : list (string * value)) (wh_id : value) (w w1 w' : World E)
    (cs : list request) :
  warehouse_provisioned P cfg wh_name size tags wh_id w w1 ->
  calls w' = (calls w1 ++ cs)%list ->
  warehouse_provisioned P cfg wh_name size tags wh_id w w'.
Proof.
  intros [(items & Hl & Hf)|(resp & Hex & H)] Hc.
  - left. exists items. split; [eapply listed_before; eassumption | exact Hf].
  - right. exists resp. split; [eapply exchanged_before; eassumption | exact H].
Qed.

Lemma cluster_provisioned_before {E} (P : Platform E) (cfg : Config) (app : string)
    (policy_id : value) (node : string) (n : Z) (tags : list (string * value))
    (cluster_id : value) (w w1 w' : World E) (cs : list request) :
  cluster_provisioned P cfg app policy_id node n tags cluster_id w w1 ->
  calls w' = (calls w1 ++ cs)%list ->
  cluster_provisioned P cfg app policy_id node n tags cluster_id w w'.
Proof.
  intros (resp & b & Hex & H) Hc. exists resp, b. split; [|exact H].
  eapply exchanged_before; eassumption.
Qed.

Section Onboarding.

Context {E : Type} (P : Platform E) (cfg : Config).

Lemma create_sql_warehouse_traffic (application_name : string) (sql_wh_size : value)
    (project_tags : list (string * value)) :
  preserves (traffic (goes_to cfg "/api/2.0/sql/warehouses"))
    (create_sql_warehouse P cfg application_name sql_wh_size project_tags).
Proof.
  unfold create_sql_warehouse.
  traffic_step.
  { eapply preserves_weaken; [|apply get_sql_warehouse_id_reads].
    intros w w'. apply traffic_mono. now intros rq (_ & Hu). }
  traffic_step; [traffic_step|].
  traffic_step; [apply auth_headers_traffic|].
  traffic_step.
  { apply safe_request_traffic. now intros rq (_ & Hu & _). }
  repeat traffic_step.
Qed.

(** The [except] clause of [onboard_project_handler]: one audit append, then
    the validation error, whatever was raised. *)
Lemma onboarding_failure (row : Row) (ex e0 : exn) (w1 : World E) :
  exists w',
    (append_audit P cfg "ONBOARD_PROJECT" "project" (VStr (app_name_of row)) "FAILED"
       (str_exn ex) VNone VNone VNone ;;
     raise e0) w1
    = (@Raise value e0, w')
    /\ audit_only w1 w'.
Proof.
  destruct (append_audit_returns P cfg "ONBOARD_PROJECT" "project"
              (VStr (app_name_of row)) "FAILED" (str_exn ex) VNone VNone VNone w1)
    as (w' & Ha & Hao).
  exists w'. split; [|exact Hao]. unfold bind, raise. now rewrite Ha.
Qed.

End Onboarding.

(** C8. With an application name given, [onboard_project_handler] branches on
    the normalised cluster type alone.  "job": every request goes to the
    warehouses endpoint, so cluster creation is never invoked, and a result
    is returned only with the id of the SQL warehouse provisioned: found by
    name in the listing, or created by a POST answered with status 200.
    "all-purpose": the requests are GETs of the policy listing followed by at
    most one POST to the cluster-creation endpoint, and a result is returned
    only when the policy "Unified-All-Purpose-Compute" resolved and the
    cluster was then created with that policy id.  Any other value: the
    handler issues no request and raises the validation error; with a
    writable disk the audit trail takes one record with the status FAILED and
    the error text; the route answers with an error result and status 500,
    still without any request.  An error in the first two branches leaves the
    handler as the same validation error. *)
Theorem onboard_project_branches_on_cluster_type :
  forall (E : Type) (P : Platform E) (cfg : Config) (row : Row) (w w' : World E)
         (r : res value),
    nonempty (app_name_of row) = true ->
    onboard_project_handler P cfg row w = (r, w') ->
    (cluster_type_of row = "job" ->
     traffic (goes_to cfg "/api/2.0/sql/warehouses") w w'
     /\ match r with
        | Ok res =>
            exists wh_id,
              res = VDict [("application_name", VStr (app_name_of row));
                           ("sql_wh_id", wh_id);
                           ("cluster_type", VStr "job");
                           ("environment", VStr (environment_of row));
                           ("status", VStr "SUCCESS")]
              /\ truthy wh_id = true
              /\ warehouse_provisioned P cfg (app_name_of row ++ "_Reporting_wh")
                   (opt_value (row_get row "sql_wh_size")) (project_tags_of row) wh_id w w'
        | Raise e => e = invalid_cluster_type row
        end)
    /\ (cluster_type_of row = "all-purpose" ->
        (exists cs1 cs2,
            calls w' = (calls w ++ cs1 ++ cs2)%list
            /\ Forall (fun rq => is_get rq
                                 /\ goes_to cfg "/api/2.0/policies/clusters/list" rq) cs1
            /\ Forall (fun rq => method rq = "POST"
                                 /\ goes_to cfg "/api/2.0/clusters/create" rq) cs2
            /\ (length cs2 <= 1)%nat)
        /\ match r with
           | Ok res =>
               exists (policy_id cluster_id : value) (n : Z) (w1 : World E),
                 res = VDict [("application_name", VStr (app_name_of row));
                              ("cluster_id", cluster_id);
                              ("cluster_type", VStr "all-purpose");
                              ("environment", VStr (environment_of row));
                              ("status", VStr "SUCCESS")]
                 /\ truthy policy_id = true
                 /\ policy_resolved P cfg "Unified-All-Purpose-Compute" policy_id w w1
                 /\ int_or_1 P (row_get row "base_workers") = Ok n
                 /\ cluster_provisioned P cfg (app_name_of row) policy_id
                      (strip (row_str row "node_type_id")) n (project_tags_of row)
                      cluster_id w1 w'
           | Raise e => e = invalid_cluster_type row
           end)
    /\ (cluster_type_of row <> "all-purpose" -> cluster_type_of row <> "job" ->
        r = Raise (invalid_cluster_type row)
        /\ calls w' = calls w
        /\ ((forall s, fs_error P s = None) ->
            took_record P cfg
              (audit_record P w "ONBOARD_PROJECT" "project" (VStr (app_name_of row))
                 "FAILED" ("Invalid cluster_type received: " ++ cluster_type_of row)
                 VNone VNone VNone) w w')
        /\ exists w'',
             onboard_project_post P cfg row w
             = (Ok (VDict [("error",
                            VStr ("Invalid cluster_type received: " ++ cluster_type_of row))],
                    500%Z), w'')
             /\ calls w'' = calls w).
Proof.
  intros E P cfg row w w' r Happ Hrun.
  split; [|split].
  - (* job *)
    intros Hct. revert Hrun.
    unfold onboard_project_handler.
    fold (app_name_of row) (cluster_type_of row) (environment_of row).
    rewrite Happ, Hct. cbn [negb String.eqb Ascii.eqb Bool.eqb].
    fold (project_tags_of row).
    unfold try_except. unfold bind at 1.
    destruct (create_sql_warehouse P cfg (app_name_of row)
                (opt_value (row_get row "sql_wh_size")) (project_tags_of row) w)
      as [[wh_id|ex] w1] eqn:Hwh;
      pose proof (create_sql_warehouse_traffic P cfg _ _ _ _ _ _ Hwh) as Htr.
    + destruct (append_audit_returns P cfg "ONBOARD_PROJECT" "sql_warehouse"
                  (VStr (app_name_of row)) "SUCCESS"
                  ("SQL Warehouse created: " ++ py_str P wh_id) VNone VNone VNone w1)
        as (w2 & Ha & Hao).
      unfold bind at 1. rewrite Ha. unfold ret. intros [= <- <-].
      destruct (create_sql_warehouse_provisions P cfg _ _ _ _ _ _ Hwh) as (Ht & Hprov).
      split.
      * eapply traffic_trans; [exact Htr|]. apply silent_traffic, (proj1 Hao).
      * exists wh_id. split; [reflexivity|]. split; [exact Ht|].
        apply (warehouse_provisioned_before P cfg _ _ _ _ w w1 w2 []); [exact Hprov|].
        rewrite app_nil_r. exact (proj1 Hao).
    + cbv beta.
      match goal with
      | |- bind _ (fun _ => raise ?e0) w1 = _ -> _ =>
          destruct (onboarding_failure P cfg row ex e0 w1) as (w2 & Hf & Hao)
      end.
      rewrite Hf. intros [= <- <-].
      split; [|unfold invalid_cluster_type; now rewrite Hct].
      eapply traffic_trans; [exact Htr|]. apply silent_traffic, (proj1 Hao).
  - (* all-purpose *)
    intros Hct. revert Hrun.
    unfold onboard_project_handler.
    fold (app_name_of row) (cluster_type_of row) (environment_of row).
    rewrite Happ, Hct. cbn [negb String.eqb Ascii.eqb Bool.eqb].
    fold (project_tags_of row).
    unfold try_except. unfold bind at 1.
    destruct (get_policy_id P cfg "Unified-All-Purpose-Compute" w)
      as [[policy_id|ex] w1] eqn:Hpol;
      destruct (get_policy_id_reads P cfg _ _ _ _ Hpol) as (cs1 & Hc1 & HF1).
    + unfold bind at 1.
      destruct (create_all_purpose_cluster P cfg (app_name_of row) policy_id
                  (strip (row_str row "node_type_id")) (row_get row "base_workers")
                  (environment_of row) (project_tags_of row) w1)
        as [[cluster_id|ex] w2] eqn:Hcl;
        destruct (create_all_purpose_cluster_run P cfg _ _ _ _ _ _ _ _ _ Hcl)
          as (_ & (cs2 & Hc2 & Hlen & HF2) & _ & Hok).
      * destruct (append_audit_returns P cfg "ONBOARD_PROJECT" "cluster"
                    (VStr (app_name_of row)) "SUCCESS"
                    ("All-purpose cluster created: " ++ py_str P cluster_id)
                    VNone VNone VNone w2) as (w3 & Ha & Hao).
        unfold bind at 1. rewrite Ha. unfold ret. intros [= <- <-].
        split.
        { exists cs1, cs2. rewrite (proj1 Hao), Hc2, Hc1, <- app_assoc.
          repeat split; assumption. }
        destruct (get_policy_id_resolved P cfg _ _ _ _ Hpol) as (Ht & Hres).
        destruct (Hok _ eq_refl) as (n & Hn & Hprov).
        exists policy_id, cluster_id, n, w1.
        split; [reflexivity|]. split; [exact Ht|]. split; [exact Hres|].
        split; [exact Hn|].
        apply (cluster_provisioned_before P cfg _ _ _ _ _ _ w1 w2 w3 []); [exact Hprov|].
        rewrite app_nil_r. exact (proj1 Hao).
      * cbv beta.
        match goal with
        | |- bind _ (fun _ => raise ?e0) w2 = _ -> _ =>
            destruct (onboarding_failure P cfg row ex e0 w2) as (w3 & Hf & Hao)
        end.
        rewrite Hf. intros [= <- <-].
        split; [|unfold invalid_cluster_type; now rewrite Hct].
        exists cs1, cs2. rewrite (proj1 Hao), Hc2, Hc1, <- app_assoc.
        repeat split; assumption.
    + cbv beta.
      match goal with
      | |- bind _ (fun _ => raise ?e0) w1 = _ -> _ =>
          destruct (onboarding_failure P cfg row ex e0 w1) as (w3 & Hf & Hao)
      end.
      rewrite Hf. intros [= <- <-].
      split; [|unfold invalid_cluster_type; now rewrite Hct].
      exists cs1, []. rewrite (proj1 Hao), Hc1, app_nil_r.
      repeat split; [assumption|constructor|cbn; lia].
  - (* any other value *)
    intros Hap Hjob.
    assert (Hh : onboard_project_handler P cfg row w
                 = (append_audit P cfg "ONBOARD_PROJECT" "project" (VStr (app_name_of row))
                      "FAILED" ("Invalid cluster_type received: " ++ cluster_type_of row)
                      VNone VNone VNone ;;
                    raise (invalid_cluster_type row)) w).
    { apply String.eqb_neq in Hap, Hjob.
      unfold onboard_project_handler.
      fold (app_name_of row) (cluster_type_of row) (environment_of row).
      rewrite Happ, Hap, Hjob. reflexivity. }
    rewrite Hh in Hrun.
    destruct (append_audit P cfg "ONBOARD_PROJECT" "project" (VStr (app_name_of row))
                "FAILED" ("Invalid cluster_type received: " ++ cluster_type_of row)
                VNone VNone VNone w) as [x w1] eqn:Ha.
    destruct (append_audit_returns P cfg "ONBOARD_PROJECT" "project"
                (VStr (app_name_of row)) "FAILED"
                ("Invalid cluster_type received: " ++ cluster_type_of row)
                VNone VNone VNone w) as (w1' & Ha' & Hao).
    rewrite Ha in Ha'. injection Ha' as -> <-.
    unfold bind in Hrun. rewrite Ha in Hrun. unfold raise in Hrun.
    injection Hrun as <- <-.
    split; [reflexivity|]. split; [exact (proj1 Hao)|]. split.
    + intros Hdisk. eapply append_audit_takes; eassumption.
    + destruct (append_audit_returns P cfg "ONBOARD_PROJECT" "project"
                  (VStr (match opt_or (row_get row "application_name")
                                 (Some "unknown_project") with
                         | Some s => s
                         | None => EmptyString
                         end)) "FAILED"
                  ("Invalid cluster_type received: " ++ cluster_type_of row)
                  VNone VNone VNone w1) as (w2 & Ha2 & Hao2).
      exists w2. split.
      * unfold onboard_project_post, try_except. unfold bind at 1. rewrite Hh.
        unfold bind at 1. rewrite Ha. unfold raise.
        unfold invalid_cluster_type. cbn [str_exn]. unfold bind. now rewrite Ha2.
      * rewrite (proj1 Hao2). exact (proj1 Hao).
Qed.

(** The three branches on examples.  "widget", with the flat file as audit
    store: no request, an error result with status 500, and the FAILED record
    as the first record of the audit file.  "job": the warehouse is created
    by one POST after the lookup and its id returned.  "all-purpose": the policy is read, then the
    cluster is asked for with the policy id found. *)
Lemma onboard_project_rejects_widget :
  nonempty (app_name_of widget_row) = true
  /\ (exists w' w'',
         onboard_project_handler Script.platform file_cfg widget_row
           (Script.world_of [])
         = (Raise (ValueError "Invalid cluster_type received: widget"), w')
         /\ calls w' = []
         /\ records (audit_file w')
            = [[VStr ""; VStr "2025-01-01T00:00:00Z"; VStr ""; VStr ""; VStr "";
                VStr "ONBOARD_PROJECT"; VStr "project"; VStr "ledger"; VStr "FAILED";
                VStr "Invalid cluster_type received: widget"; VStr ""; VStr ""; VStr ""]]
         /\ onboard_project_post Script.platform file_cfg widget_row
              (Script.world_of [])
            = (Ok (VDict [("error", VStr "Invalid cluster_type received: widget")], 500%Z),
               w'')
         /\ calls w'' = [])
  /\ (exists w',
         onboard_project_handler (Sim.platform Sim.cfg0) Sim.cfg0 four_worker_job_row
           (Sim.world_of Sim.d0)
         = (Ok (VDict [("application_name", VStr "ledger"); ("sql_wh_id", VStr "iw1");
                       ("cluster_type", VStr "job"); ("environment", VStr "dev");
                       ("status", VStr "SUCCESS")]), w')
         /\ map (fun rq => (method rq, url rq)) (calls w')
            = [("GET", Some "https://ws.example/api/2.0/sql/warehouses");
               ("POST", Some "https://ws.example/api/2.0/sql/warehouses")]
         /\ warehouse_provisioned (Sim.platform Sim.cfg0) Sim.cfg0 "ledger_Reporting_wh"
              (VStr "Small") (project_tags_of four_worker_job_row) (VStr "iw1")
              (Sim.world_of Sim.d0) w')
  /\ (exists w',
         onboard_project_handler (Sim.platform Sim.cfg0) Sim.cfg0 all_purpose_row
           (Sim.world_of Sim.d0)
         = (Ok (VDict [("application_name", VStr "ledger"); ("cluster_id", VStr "ic1");
                       ("cluster_type", VStr "all-purpose"); ("environment", VStr "dev");
                       ("status", VStr "SUCCESS")]), w')
         /\ map (fun rq => (method rq, url rq)) (calls w')
            = [("GET", Some "https://ws.example/api/2.0/policies/clusters/list");
               ("POST", Some "https://ws.example/api/2.0/clusters/create")]).
Proof.
  split; [reflexivity|]. split; [|split].
  - run_as Hrun (onboard_project_handler Script.platform file_cfg widget_row
                   (Script.world_of [])).
    destruct (onboard_project_branches_on_cluster_type _ Script.platform file_cfg
                widget_row (Script.world_of []) _ _ eq_refl Hrun) as (_ & _ & H).
    destruct H as (_ & Hc & Htook & w'' & Hp & Hc2).
    + intros H. vm_compute in H. discriminate H.
    + intros H. vm_compute in H. discriminate H.
    + eexists _, w''. split; [exact Hrun|]. split; [exact Hc|]. split.
      * destruct (Htook (fun _ => eq_refl)) as [(Hsel & _)|Hrec];
          [discriminate Hsel | exact Hrec].
      * split; [exact Hp | exact Hc2].
  - run_as Hrun (onboard_project_handler (Sim.platform Sim.cfg0) Sim.cfg0
                   four_worker_job_row (Sim.world_of Sim.d0)).
    destruct (onboard_project_branches_on_cluster_type _ (Sim.platform Sim.cfg0) Sim.cfg0
                four_worker_job_row (Sim.world_of Sim.d0) _ _ eq_refl Hrun) as (H & _ & _).
    destruct (H eq_refl) as (_ & wh_id & Hres & _ & Hprov).
    injection Hres as <-.
    eexists. split; [exact Hrun|]. split; [reflexivity|exact Hprov].
  - run_as Hrun (onboard_project_handler (Sim.platform Sim.cfg0) Sim.cfg0
                   all_purpose_row (Sim.world_of Sim.d0)).
    eexists. split; [exact Hrun|]. reflexivity.
Defined.

(* ================================================================== *)
(** ** The per-row boundary lets a naming error through (C9) *)
(* ================================================================== *)

(** C9 fails on the code. For the row [others_without_override] the handler
    raises the naming error, and the [except] clause of [process_row] calls
    [construct_group_name] again to find an identifier: the same error is
    raised inside the clause and leaves [process_row], with no audit record
    written and no result returned. *)
Theorem process_row_lets_naming_error_escape :
  forall (E : Type) (P : Platform E) (cfg : Config) (ix : value) (w : World E),
    process_row P cfg ix others_without_override w
    = (Raise (ValueError "other_type is required when bu is 'Others'"), w).
Proof. intros. vm_compute. reflexivity. Qed.

(** With the action in lower case the error is audited and turned into an
    error result first, and then raised again while the returned mapping is
    built. *)
Lemma process_row_raises_while_building_the_result (E : Type) (P : Platform E)
    (cfg : Config) (ix : value) (w : World E) :
  fst (process_row P cfg ix others_without_override_lowercase w)
  = Raise (ValueError "other_type is required when bu is 'Others'").
Proof.
  unfold process_row.
  change (upper (strip (row_str others_without_override_lowercase "action")))
    with "CREATE_GROUP".
  cbn [String.eqb Ascii.eqb Bool.eqb].
  unfold bind at 1. unfold try_except.
  change (create_group_handler P cfg others_without_override_lowercase w)
    with (@Raise value (ValueError "other_type is required when bu is 'Others'"), w).
  change (row_get others_without_override_lowercase "action") with (Some "create_group").
  cbn [str_in existsb String.eqb Ascii.eqb Bool.eqb orb].
  unfold bind at 1. unfold ret at 1. unfold bind at 1. cbn [str_exn].
  destruct (append_audit_returns P cfg "CREATE_GROUP" "error" (VStr EmptyString) "FAILED"
              "other_type is required when bu is 'Others'" VNone VNone VNone w)
    as (w' & -> & _).
  reflexivity.
Qed.

(* ================================================================== *)
(** ** User creation is idempotent (C1) *)
(* ================================================================== *)

(** *** Normalising an e-mail twice changes nothing *)

Lemma is_space_lower_char (c : ascii) : is_space (lower_char c) = is_space c.
Proof. destruct c as [[] [] [] [] [] [] [] []]; reflexivity. Qed.

Lemma lower_char_idem (c : ascii) : lower_char (lower_char c) = lower_char c.
Proof. destruct c as [[] [] [] [] [] [] [] []]; reflexivity. Qed.

Lemma lower_idem (s : string) : lower (lower s) = lower s.
Proof.
  induction s as [|c s IH]; [reflexivity|].
  cbn. now rewrite lower_char_idem; f_equal.
Qed.

Lemma lstrip_lower (s : string) : lstrip (lower s) = lower (lstrip s).
Proof.
  induction s as [|c s IH]; [reflexivity|].
  cbn. rewrite is_space_lower_char. now destruct (is_space c).
Qed.

Lemma rstrip_lower (s : string) : rstrip (lower s) = lower (rstrip s).
Proof.
  induction s as [|c s IH]; [reflexivity|].
  cbn. fold (lower s). rewrite IH, is_space_lower_char.
  destruct (rstrip s); cbn; [now destruct (is_space c)|reflexivity].
Qed.

Lemma strip_lower (s : string) : strip (lower s) = lower (strip s).
Proof. unfold strip. now rewrite rstrip_lower, lstrip_lower. Qed.

Lemma lstrip_idem (s : string) : lstrip (lstrip s) = lstrip s.
Proof.
  induction s as [|c s IH]; [reflexivity|].
  cbn. destruct (is_space c) eqn:Hc; [exact IH|]. cbn. now rewrite Hc.
Qed.

Lemma rstrip_idem (s : string) : rstrip (rstrip s) = rstrip s.
Proof.
  induction s as [|c s IH]; [reflexivity|].
  cbn. destruct (rstrip s) as [|d r] eqn:Hr.
  - destruct (is_space c) eqn:Hc; [reflexivity|]. cbn. now rewrite Hc.
  - cbn [rstrip]. change (match rstrip r with
                          | EmptyString => if is_space d then EmptyString
                                           else String d EmptyString
                          | String a s0 => String d (String a s0)
                          end) with (rstrip (String d r)).
    now rewrite IH.
Qed.

Lemma rstrip_fixed_tail (c : ascii) (s : string) :
  rstrip (String c s) = String c s -> rstrip s = s.
Proof.
  cbn. destruct (rstrip s) as [|d r] eqn:Hr.
  - destruct (is_space c); [discriminate|]. now intros [= <-].
  - now intros [= <-].
Qed.

Lemma rstrip_lstrip_fixed (s : string) : rstrip s = s -> rstrip (lstrip s) = lstrip s.
Proof.
  induction s as [|c s IH]; [reflexivity|].
  intros H. cbn [lstrip]. destruct (is_space c); [|exact H].
  apply IH. eapply rstrip_fixed_tail, H.
Qed.

Lemma strip_idem (s : string) : strip (strip s) = strip s.
Proof.
  unfold strip.
  rewrite (rstrip_lstrip_fixed (rstrip s)) by apply rstrip_idem.
  apply lstrip_idem.
Qed.

Lemma normalise_idem (s : string) : lower (strip (lower (strip s))) = lower (strip s).
Proof. now rewrite strip_lower, strip_idem, lower_idem. Qed.

(** *** The reference directory, step by step *)

Lemma append_length (a b : string) :
  String.length (a ++ b) = (String.length a + String.length b)%nat.
Proof. induction a as [|c a IH]; cbn; [reflexivity|now rewrite IH]. Qed.

Lemma concat_length_ge (x : string) (l : list string) :
  In x l -> (String.length x <= String.length (String.concat EmptyString l))%nat.
Proof.
  induction l as [|t ts IH]; [intros []|].
  destruct ts as [|t' ts'].
  - intros [<-|[]]. cbn. lia.
  - change (String.concat EmptyString (t :: t' :: ts'))
      with (t ++ EmptyString ++ String.concat EmptyString (t' :: ts')).
    rewrite !append_length. cbn [String.length].
    intros [<-|Hin]; [lia|]. specialize (IH Hin). lia.
Qed.

Lemma fresh_id_longer (taken : list string) (x : string) :
  In x taken -> (String.length x < String.length (Sim.fresh_id taken))%nat.
Proof.
  intros H. apply concat_length_ge in H. unfold Sim.fresh_id. cbn [String.length]. lia.
Qed.

Lemma fresh_id_fresh (taken : list string) : ~ In (Sim.fresh_id taken) taken.
Proof. intros H. apply fresh_id_longer in H. lia. Qed.

Lemma unquote_tail_dq (s : string) : Sim.unquote_tail (s ++ dq) = Some s.
Proof.
  induction s as [|c s IH]; [reflexivity|].
  cbn [String.append Sim.unquote_tail]. rewrite IH.
  destruct s; reflexivity.
Qed.

Lemma filter_value_userName (v : string) :
  Sim.filter_value "userName" ("userName eq " ++ dq ++ v ++ dq) = Some v.
Proof. unfold Sim.filter_value. cbn. apply unquote_tail_dq. Qed.

Lemma filter_value_userName_alt (v : string) :
  Sim.filter_value "userName" ("emails.value eq " ++ dq ++ v ++ dq) = None.
Proof. reflexivity. Qed.

Lemma filter_value_emails (v : string) :
  Sim.filter_value "emails.value" ("emails.value eq " ++ dq ++ v ++ dq) = Some v.
Proof. unfold Sim.filter_value. cbn. apply unquote_tail_dq. Qed.

Lemma filter_none {A} (f : A -> bool) (l : list A) :
  (forall x, In x l -> f x = false) -> filter f l = [].
Proof.
  induction l as [|x l IH]; [reflexivity|]. intros H. cbn.
  rewrite (H x (or_introl eq_refl)). apply IH. intros y Hy. apply H. now right.
Qed.

Lemma absent_by_name (email : string) (d : Sim.state) :
  absent email d ->
  filter (Sim.user_matches ("userName eq " ++ dq ++ email ++ dq)) (Sim.users d) = [].
Proof.
  intros H. apply filter_none. intros u Hu. unfold Sim.user_matches.
  rewrite filter_value_userName. apply H, Hu.
Qed.

Lemma absent_by_email (email : string) (d : Sim.state) :
  absent email d ->
  filter (Sim.user_matches ("emails.value eq " ++ dq ++ email ++ dq)) (Sim.users d) = [].
Proof.
  intros H. apply filter_none. intros u Hu. unfold Sim.user_matches.
  rewrite filter_value_userName_alt, filter_value_emails. apply H, Hu.
Qed.

Section SimFacts.

Context (cfg : Config) (inst : string).
Hypothesis Hinst : INSTANCE cfg = Some inst.

Lemma settled_refl (w : World Sim.state) : settled w w.
Proof. now split. Qed.

Lemma settled_trans (w1 w2 w3 : World Sim.state) :
  settled w1 w2 -> settled w2 w3 -> settled w1 w3.
Proof. intros (a1 & b1) (a2 & b2). split; congruence. Qed.

Lemma sim_safe_request (rq : request) (w : World Sim.state) (r : response)
    (d' : Sim.state) :
  Sim.outages (ext w) = 0%nat ->
  truthy (headers rq) = false ->
  Sim.handle cfg (with_bearer rq) (ext w) = (Done r, d') ->
  _safe_request (Sim.platform cfg) rq FAST_RETRIES w
  = (Ok (outcome_of_response rq r), log_call (with_bearer rq) (set_ext d' w)).
Proof.
  intros Hout Hh Hhandle.
  destruct w as [d cs sl ctx f]. cbn [ext] in Hout, Hhandle.
  unfold _safe_request. change (Z.to_nat FAST_RETRIES) with 2%nat.
  cbn [safe_request_loop]. unfold bind at 1.
  unfold send_once. rewrite Hh.
  unfold _auth_headers, requests_request.
  cbn [get_dbx_access_token http_send Sim.platform ext set_ext].
  unfold Sim.serve. rewrite Hout.
  change (Sim.handle cfg _ d) with (Sim.handle cfg (with_bearer rq) d).
  rewrite Hhandle. reflexivity.
Qed.

Lemma users_url_is (rq : request) :
  url rq = Some (rstrip_char "/" inst ++ users_path cfg) ->
  Sim.url_is rq (Sim.account_url cfg (users_path cfg)) = true.
Proof.
  intros Hu. unfold Sim.url_is, Sim.account_url, _url. rewrite Hinst, Hu.
  apply String.eqb_refl.
Qed.

Lemma sim_list_users (f : string) (w : World Sim.state) :
  Sim.outages (ext w) = 0%nat ->
  nonempty f = true ->
  exists w',
    scim_list_users (Sim.platform cfg) cfg f w
    = (Ok (VDict [("status_code", VInt 200);
                  ("body", Sim.listing (map Sim.user_json
                                          (filter (Sim.user_matches f) (Sim.users (ext w)))))]),
       w')
    /\ ext w' = ext w.
Proof.
  intros Hout Hf. unfold scim_list_users, _url. rewrite Hinst, Hf.
  unfold bind, lift.
  set (rq := mk_request "GET" (Some (rstrip_char "/" inst ++ users_path cfg))
               VNone (VDict [("filter", VStr f)]) VNone).
  assert (Hh : Sim.handle cfg (with_bearer rq) (ext w)
               = (Sim.answer 200
                    (Sim.listing (map Sim.user_json
                                    (filter (Sim.user_matches f) (Sim.users (ext w))))),
                  ext w)).
  { unfold Sim.handle. rewrite users_url_is by reflexivity. reflexivity. }
  rewrite (sim_safe_request rq w _ _ Hout eq_refl Hh).
  eexists. split; [reflexivity|]. now destruct w.
Qed.

Lemma sim_find_absent (email : string) (w : World Sim.state) :
  Sim.outages (ext w) = 0%nat ->
  nonempty email = true ->
  absent email (ext w) ->
  exists w',
    _find_user_by_email (Sim.platform cfg) cfg email w = (Ok VNone, w')
    /\ ext w' = ext w.
Proof.
  intros Hout Hne Habs. unfold _find_user_by_email. rewrite Hne. cbn [negb].
  unfold try_except. unfold bind at 1.
  destruct (sim_list_users ("userName eq " ++ dq ++ email ++ dq) w Hout eq_refl)
    as (w1 & -> & He1).
  rewrite absent_by_name by exact Habs.
  cbn [map]. unfold bind at 1.
  change (listed_resources (VDict [("status_code", VInt 200); ("body", Sim.listing [])]) w1)
    with (@Ok (option value) (Some (VList [])), w1).
  cbn [truthy]. unfold bind at 1.
  destruct (sim_list_users ("emails.value eq " ++ dq ++ email ++ dq) w1
              ltac:(now rewrite He1) eq_refl) as (w2 & -> & He2).
  rewrite He1, absent_by_email by exact Habs.
  cbn [map]. unfold bind at 1.
  change (listed_resources (VDict [("status_code", VInt 200); ("body", Sim.listing [])]) w2)
    with (@Ok (option value) (Some (VList [])), w2).
  cbn [truthy]. unfold ret.
  eexists. split; [reflexivity|]. congruence.
Qed.

Lemma sim_execute_settled (sql_text : string) (ps : list (string * value)) :
  preserves settled (execute (Sim.platform cfg) cfg sql_text ps).
Proof.
  unfold execute, get_sql_connection.
  apply (preserves_bind _ settled_refl settled_trans).
  - apply (preserves_try _ settled_refl settled_trans).
    + apply (preserves_if _ settled_refl settled_trans).
      * apply preserves_raise; [apply settled_refl | apply settled_trans].
      * intros w r w'. cbn [sql_connect Sim.platform]. intros [= _ <-]. now split.
    + intros e. apply preserves_raise; [apply settled_refl | apply settled_trans].
  - intros _ w r w'. cbn [sql_execute Sim.platform]. intros [= _ <-]. now split.
Qed.

Lemma sim_append_audit_settled (action principal : string) (identifier : value)
    (status details : string) (rc rb rp : value) :
  preserves settled
    (append_audit (Sim.platform cfg) cfg action principal identifier status details rc rb rp).
Proof.
  assert (Hfile : forall row, preserves settled
                                (_append_to_file (Sim.platform cfg) row ;; ret tt)).
  { intros row. apply (preserves_bind _ settled_refl settled_trans).
    - intros w r w'. unfold _append_to_file.
      destruct (fs_error (Sim.platform cfg) (ext w)); intros [= _ <-]; now split.
    - intros _. apply preserves_ret; [apply settled_refl | apply settled_trans]. }
  intros w. unfold append_audit.
  set (row := audit_row _ _ _ _ _ _ _ _ _ _ _).
  destruct (String.eqb (AUDIT_MODE cfg) "delta" && _is_databricks_env cfg).
  - refine (preserves_try _ settled_refl settled_trans _ _ _ _ w).
    + apply (preserves_bind _ settled_refl settled_trans).
      * unfold ensure_audit_table_sql.
        apply (preserves_try _ settled_refl settled_trans).
        -- apply (preserves_bind _ settled_refl settled_trans);
             [apply sim_execute_settled | intros _; apply sim_execute_settled].
        -- intros e. apply preserves_raise; [apply settled_refl | apply settled_trans].
      * intros _. apply sim_execute_settled.
    + intros e. apply Hfile.
  - apply Hfile.
Qed.

Lemma sim_append_audit (action principal : string) (identifier : value)
    (status details : string) (rc rb rp : value) (w : World Sim.state) :
  exists w',
    append_audit (Sim.platform cfg) cfg action principal identifier status details rc rb rp w
    = (Ok tt, w')
    /\ ext w' = ext w /\ calls w' = calls w.
Proof.
  destruct (append_audit_returns (Sim.platform cfg) cfg action principal identifier status
              details rc rb rp w) as (w' & H & _).
  exists w'. split; [exact H|]. eapply sim_append_audit_settled, H.
Qed.

Lemma sim_create_user (email display : string) (w : World Sim.state) :
  Sim.outages (ext w) = 0%nat ->
  absent email (ext w) ->
  exists w',
    scim_create_user (Sim.platform cfg) cfg (user_payload email display) w
    = (Ok (VDict [("status_code", VInt 201);
                  ("body", Sim.user_json (new_user email (ext w)))]), w')
    /\ ext w' = Sim.with_users (Sim.users (ext w) ++ [new_user email (ext w)])%list (ext w)
    /\ calls w' = (calls w ++ [with_bearer
                                 (mk_request "POST"
                                    (Some (rstrip_char "/" inst ++ users_path cfg)%string)
                                    VNone VNone (user_payload email display))])%list.
Proof.
  intros Hout Habs. unfold scim_create_user, _url. rewrite Hinst.
  unfold bind, lift.
  set (rq := mk_request "POST" (Some (rstrip_char "/" inst ++ users_path cfg))
               VNone VNone (user_payload email display)).
  assert (Hh : Sim.handle cfg (with_bearer rq) (ext w)
               = (Sim.answer 201 (Sim.user_json (new_user email (ext w))),
                  Sim.with_users (Sim.users (ext w) ++ [new_user email (ext w)])%list (ext w))).
  { unfold Sim.handle. rewrite users_url_is by reflexivity.
    cbn [method with_bearer rq mk_request String.eqb Ascii.eqb Bool.eqb andb json].
    assert (Hname : Sim.string_field (user_payload email display) "userName" = Some email).
    { unfold user_payload. now destruct (split_once " " display) as [g [f|]]. }
    rewrite Hname.
    assert (Hex : existsb (fun u => String.eqb (Sim.u_name u) email) (Sim.users (ext w))
                  = false).
    { apply not_true_is_false. intros Hex. apply existsb_exists in Hex as (u & Hu & He).
      destruct (Habs u Hu) as (Hn & _). congruence. }
    rewrite Hex. reflexivity. }
  rewrite (sim_safe_request rq w _ _ Hout eq_refl Hh).
  eexists. split; [reflexivity|]. destruct w. split; reflexivity.
Qed.

(** Looking up [email] right after the directory created its user. *)
Lemma sim_find_created (email : string) (d : Sim.state) (w : World Sim.state) :
  Sim.outages (ext w) = 0%nat ->
  nonempty email = true ->
  absent email d ->
  Sim.users (ext w) = (Sim.users d ++ [new_user email d])%list ->
  exists w',
    _find_user_by_email (Sim.platform cfg) cfg email w
    = (Ok (Sim.user_json (new_user email d)), w')
    /\ ext w' = ext w
    /\ traffic is_get w w'.
Proof.
  intros Hout Hne Habs Husers.
  destruct (_find_user_by_email (Sim.platform cfg) cfg email w) as [r w'] eqn:Hrun.
  pose proof (find_user_reads (Sim.platform cfg) cfg email _ _ _ Hrun) as Hreads.
  revert Hrun. unfold _find_user_by_email. rewrite Hne. cbn [negb].
  unfold try_except. unfold bind at 1.
  destruct (sim_list_users ("userName eq " ++ dq ++ email ++ dq) w Hout eq_refl)
    as (w1 & -> & He1).
  rewrite Husers, filter_app, absent_by_name by exact Habs.
  cbn [filter app]. unfold Sim.user_matches at 1. rewrite filter_value_userName.
  cbn [Sim.u_name new_user]. rewrite String.eqb_refl.
  cbn [map]. unfold bind at 1.
  change (listed_resources
            (VDict [("status_code", VInt 200);
                    ("body", Sim.listing [Sim.user_json (new_user email d)])]) w1)
    with (@Ok (option value) (Some (VList [Sim.user_json (new_user email d)])), w1).
  cbn [truthy py_index0 lift]. intros [= <- <-].
  exists w1. repeat split; assumption.
Qed.

End SimFacts.

(** C1. Against the reference directory, reachable and not yet holding the
    user: for every row whose normalised user_email is not empty, the first
    call of [create_user_handler] returns "created" with an id no user of the
    directory had, and a second call with the same row returns "skipped" with
    the same id, issues GET requests only and leaves the directory as it
    was. *)
Theorem create_user_is_idempotent :
  forall (cfg : Config) (inst : string) (row : Row) (w : World Sim.state),
    INSTANCE cfg = Some inst ->
    Sim.outages (ext w) = 0%nat ->
    nonempty (lower (strip (row_str row "user_email"))) = true ->
    absent (lower (strip (row_str row "user_email"))) (ext w) ->
    exists (id : string) (resp : value) (w1 w2 : World Sim.state),
      create_user_handler (Sim.platform cfg) cfg row w
      = (Ok (VDict [("status", VStr "created"); ("id", VStr id); ("resp", resp)]), w1)
      /\ ~ In id (map Sim.u_id (Sim.users (ext w)))
      /\ create_user_handler (Sim.platform cfg) cfg row w1
         = (Ok (VDict [("status", VStr "skipped"); ("id", VStr id)]), w2)
      /\ traffic is_get w1 w2
      /\ ext w2 = ext w1.
Proof.
  intros cfg inst row w Hinst Hout Hne Habs.
  set (email := lower (strip (row_str row "user_email"))) in *.
  (* first call: two lookups that find nothing, then the creation *)
  destruct (sim_find_absent cfg inst Hinst email w Hout Hne Habs) as (wa & Hfa & Hea).
  destruct (sim_find_absent cfg inst Hinst email wa ltac:(now rewrite Hea) Hne
              ltac:(now rewrite Hea)) as (wb & Hfb & Heb).
  assert (Hdb : ext wb = ext w) by congruence.
  set (display := strip (if nonempty
                              (if nonempty (strip (row_str row "first_name"))
                                  || nonempty (strip (row_str row "last_name"))
                               then compose_name (strip (row_str row "first_name"))
                                      (strip (row_str row "last_name"))
                               else email)
                         then (if nonempty (strip (row_str row "first_name"))
                                  || nonempty (strip (row_str row "last_name"))
                               then compose_name (strip (row_str row "first_name"))
                                      (strip (row_str row "last_name"))
                               else email)
                         else email)).
  destruct (sim_create_user cfg inst Hinst email display wb ltac:(now rewrite Hdb)
              ltac:(now rewrite Hdb)) as (wc & Hcreate & Hec & _).
  rewrite Hdb in Hcreate, Hec.
  set (resp := VDict [("status_code", VInt 201);
                      ("body", Sim.user_json (new_user email (ext w)))]) in *.
  destruct (sim_append_audit cfg "CREATE_USER" "user" (VStr email) "SUCCESS" "created"
              (VInt 201) resp (user_payload email display) wc) as (w1 & Haud & He1 & _).
  assert (Hfirst : create_user_handler (Sim.platform cfg) cfg row w
                   = (Ok (VDict [("status", VStr "created");
                                 ("id", VStr (Sim.u_id (new_user email (ext w))));
                                 ("resp", resp)]), w1)).
  { unfold create_user_handler. fold email. rewrite Hne. cbn [negb].
    unfold bind at 1. rewrite Hfa. cbn [truthy].
    unfold bind at 1. unfold ensure_user.
    assert (Hnorm : lower (strip email) = email) by apply normalise_idem.
    rewrite !Hnorm, Hne. cbn [negb].
    unfold bind at 1. rewrite Hfb. cbn [truthy].
    fold display. unfold try_except. unfold bind at 1. rewrite Hcreate.
    unfold resp at 1 2 3.
    cbn [lift py_get py_get_default assoc String.eqb Ascii.eqb Bool.eqb not_in2 eq_int
         Z.eqb Pos.eqb orb negb bind ret py_or truthy Sim.user_json].
    fold resp. unfold bind at 1. rewrite Haud. reflexivity. }
  (* second call: the lookup finds the user just created *)
  assert (Hout1 : Sim.outages (ext w1) = 0%nat) by (rewrite He1, Hec; exact Hout).
  assert (Husers1 : Sim.users (ext w1) = (Sim.users (ext w) ++ [new_user email (ext w)])%list)
    by (rewrite He1, Hec; reflexivity).
  destruct (sim_find_created cfg inst Hinst email (ext w) w1 Hout1 Hne Habs Husers1)
    as (wd & Hfd & Hed & Hreads).
  destruct (sim_append_audit cfg "CREATE_USER" "user" (VStr email) "SKIPPED"
              "already_exists" VNone VNone VNone wd) as (w2 & Haud2 & He2 & Hc2).
  exists (Sim.u_id (new_user email (ext w))), resp, w1, w2.
  split; [exact Hfirst|]. split; [apply fresh_id_fresh|]. split; [|split].
  - unfold create_user_handler. fold email. rewrite Hne. cbn [negb].
    unfold bind at 1. rewrite Hfd. cbn [truthy Sim.user_json].
    unfold bind at 1. rewrite Haud2. reflexivity.
  - eapply traffic_trans; [exact Hreads|]. apply silent_traffic, Hc2.
  - congruence.
Qed.

Lemma create_user_twice_for_a_new_address :
  nonempty (lower (strip (row_str cat_row "user_email"))) = true
  /\ exists (id : string) (resp : value) (w1 w2 : World Sim.state),
       create_user_handler (Sim.platform Sim.cfg0) Sim.cfg0 cat_row (Sim.world_of Sim.d0)
       = (Ok (VDict [("status", VStr "created"); ("id", VStr id); ("resp", resp)]), w1)
       /\ create_user_handler (Sim.platform Sim.cfg0) Sim.cfg0 cat_row w1
          = (Ok (VDict [("status", VStr "skipped"); ("id", VStr id)]), w2)
       /\ traffic is_get w1 w2.
Proof.
  split; [reflexivity|].
  assert (Habs : absent (lower (strip (row_str cat_row "user_email")))
                   (ext (Sim.world_of Sim.d0))).
  { intros u [<-|[<-|[]]]; split; reflexivity. }
  destruct (create_user_is_idempotent Sim.cfg0 "https://accounts.example/" cat_row
              (Sim.world_of Sim.d0) eq_refl eq_refl eq_refl Habs)
    as (id & resp & w1 & w2 & H1 & _ & H2 & Ht & _).
  exists id, resp, w1, w2. repeat split; assumption.
Defined.

(* ================================================================== *)
(** ** Group creation fails before any mutation (C3) *)
(* ================================================================== *)

Lemma append_inj_l (a b c : string) : a ++ b = a ++ c -> b = c.
Proof. induction a as [|x a IH]; cbn; [trivial|]. intros [= H]. now apply IH. Qed.

Lemma members_are_normal (csv m : string) :
  In m (_split_members csv) -> lower (strip m) = m.
Proof.
  unfold _split_members.
  destruct (nonempty csv); cbn [negb]; [|intros []].
  assert (Hparts : forall sep,
             In m (map (fun p => lower (strip p))
                     (filter (fun p => nonempty (strip p)) (split_char sep (strip csv)))) ->
             lower (strip m) = m).
  { intros sep Hin. apply in_map_iff in Hin as (p & <- & _). apply normalise_idem. }
  destruct (contains_char "," (strip csv)); [apply Hparts|].
  destruct (contains_char ";" (strip csv)); [apply Hparts|].
  destruct (nonempty (strip csv)); [|intros []].
  intros [<-|[]]. now rewrite strip_lower, strip_idem, lower_idem.
Qed.

Lemma filter_value_displayName (v : string) :
  Sim.filter_value "displayName" ("displayName eq " ++ dq ++ v ++ dq) = Some v.
Proof. unfold Sim.filter_value. cbn. apply unquote_tail_dq. Qed.

Lemma listed_resources_listing {E} (items : list value) (w : World E) :
  listed_resources (VDict [("status_code", VInt 200); ("body", Sim.listing items)]) w
  = (Ok (Some (VList items)), w).
Proof. now destruct items. Qed.

Section SimGroups.

Context (cfg : Config) (inst : string).
Hypothesis Hinst : INSTANCE cfg = Some inst.

Lemma groups_url_is (rq : request) :
  url rq = Some (rstrip_char "/" inst ++ groups_path cfg) ->
  Sim.url_is rq (Sim.account_url cfg (groups_path cfg)) = true
  /\ Sim.url_is rq (Sim.account_url cfg (users_path cfg)) = false.
Proof.
  intros Hu. unfold Sim.url_is, Sim.account_url, _url. rewrite Hinst, Hu.
  split; [apply String.eqb_refl|].
  apply String.eqb_neq. intros H.
  apply append_inj_l in H. unfold groups_path, users_path in H.
  apply append_inj_l in H. apply append_inj_l in H. discriminate H.
Qed.

Lemma sim_list_groups (f : string) (w : World Sim.state) :
  Sim.outages (ext w) = 0%nat ->
  nonempty f = true ->
  exists w',
    scim_list_groups (Sim.platform cfg) cfg f w
    = (Ok (VDict [("status_code", VInt 200);
                  ("body", Sim.listing (map Sim.group_json
                                          (filter (Sim.group_matches f) (Sim.groups (ext w)))))]),
       w')
    /\ ext w' = ext w.
Proof.
  intros Hout Hf. unfold scim_list_groups, _url. rewrite Hinst, Hf.
  unfold bind, lift.
  set (rq := mk_request "GET" (Some (rstrip_char "/" inst ++ groups_path cfg))
               VNone (VDict [("filter", VStr f)]) VNone).
  assert (Hh : Sim.handle cfg (with_bearer rq) (ext w)
               = (Sim.answer 200
                    (Sim.listing (map Sim.group_json
                                    (filter (Sim.group_matches f) (Sim.groups (ext w))))),
                  ext w)).
  { unfold Sim.handle. destruct (groups_url_is (with_bearer rq) eq_refl) as (-> & ->).
    reflexivity. }
  rewrite (sim_safe_request cfg rq w _ _ Hout eq_refl Hh).
  eexists. split; [reflexivity|]. now destruct w.
Qed.

(** The existence check against the reference directory: it finds a group
    exactly when the directory holds one of that display name. *)
Lemma sim_find_group (name : string) (w : World Sim.state) :
  Sim.outages (ext w) = 0%nat ->
  nonempty name = true ->
  exists g w',
    _find_group_by_display_name (Sim.platform cfg) cfg name w = (Ok g, w')
    /\ ext w' = ext w
    /\ (group_exists name (ext w) -> truthy g = true)
    /\ (~ group_exists name (ext w) -> g = VNone).
Proof.
  intros Hout Hne. unfold _find_group_by_display_name. rewrite Hne. cbn [negb].
  unfold try_except. unfold bind at 1.
  destruct (sim_list_groups ("displayName eq " ++ dq ++ name ++ dq) w Hout eq_refl)
    as (w1 & -> & He1).
  cbn [truthy negb]. unfold bind at 1. unfold lift at 1.
  cbn [py_get py_get_default assoc String.eqb Ascii.eqb Bool.eqb eq_int Z.eqb Pos.eqb negb].
  unfold bind at 1. unfold lift at 1.
  cbn [py_get py_get_default assoc String.eqb Ascii.eqb Bool.eqb].
  unfold bind at 1. unfold lift at 1.
  cbn [py_or truthy Sim.listing py_get py_get_default assoc String.eqb Ascii.eqb Bool.eqb].
  assert (Hmatch : forall g, Sim.group_matches ("displayName eq " ++ dq ++ name ++ dq) g
                             = String.eqb (snd g) name).
  { intros g. unfold Sim.group_matches. now rewrite filter_value_displayName. }
  destruct (filter (Sim.group_matches ("displayName eq " ++ dq ++ name ++ dq))
              (Sim.groups (ext w))) as [|g0 rest] eqn:Hfilter.
  - cbn. eexists _, _. split; [reflexivity|]. split; [exact He1|]. split; [|reflexivity].
    intros (gid & Hin).
    assert (Hin' : In (gid, name)
                     (filter (Sim.group_matches ("displayName eq " ++ dq ++ name ++ dq))
                        (Sim.groups (ext w)))).
    { apply filter_In. split; [exact Hin|]. rewrite Hmatch. apply String.eqb_refl. }
    rewrite Hfilter in Hin'. destruct Hin'.
  - cbn. eexists _, _. split; [reflexivity|]. split; [exact He1|]. split; [reflexivity|].
    intros Hno. exfalso. apply Hno.
    assert (Hin : In g0 (filter (Sim.group_matches ("displayName eq " ++ dq ++ name ++ dq))
                           (Sim.groups (ext w)))) by (rewrite Hfilter; now left).
    apply filter_In in Hin as (Hin & Hm). rewrite Hmatch in Hm.
    apply String.eqb_eq in Hm. exists (fst g0). rewrite <- Hm. now destruct g0.
Qed.

(** A look-up of a user against the reference directory: it returns, changes
    nothing, and finds nothing for an address the directory does not hold. *)
Lemma sim_get_user_id (m : string) (w : World Sim.state) :
  Sim.outages (ext w) = 0%nat ->
  nonempty m = true ->
  lower (strip m) = m ->
  exists uid w',
    get_user_id_by_email (Sim.platform cfg) cfg m w = (Ok uid, w')
    /\ ext w' = ext w
    /\ (absent m (ext w) -> uid = VNone).
Proof.
  intros Hout Hne Hnorm. unfold get_user_id_by_email. rewrite Hnorm.
  unfold bind at 1.
  assert (Hfind : exists u w',
             _find_user_by_email (Sim.platform cfg) cfg m w = (Ok u, w')
             /\ ext w' = ext w
             /\ (u = VNone \/ exists usr, u = Sim.user_json usr)
             /\ (absent m (ext w) -> u = VNone)).
  { unfold _find_user_by_email. rewrite Hne. cbn [negb].
    unfold try_except. unfold bind at 1.
    destruct (sim_list_users cfg inst Hinst ("userName eq " ++ dq ++ m ++ dq) w Hout eq_refl)
      as (w1 & -> & He1).
    unfold bind at 1. rewrite listed_resources_listing.
    destruct (filter (Sim.user_matches ("userName eq " ++ dq ++ m ++ dq))
                (Sim.users (ext w))) as [|u1 rest1] eqn:Hf1.
    - cbn [map truthy]. unfold bind at 1.
      destruct (sim_list_users cfg inst Hinst ("emails.value eq " ++ dq ++ m ++ dq) w1
                  ltac:(now rewrite He1) eq_refl) as (w2 & -> & He2).
      unfold bind at 1. rewrite listed_resources_listing. rewrite He1.
      destruct (filter (Sim.user_matches ("emails.value eq " ++ dq ++ m ++ dq))
                  (Sim.users (ext w))) as [|u2 rest2] eqn:Hf2.
      + cbn. eexists _, _. split; [reflexivity|]. split; [congruence|].
        split; [now left | reflexivity].
      + cbn. eexists _, _. split; [reflexivity|]. split; [congruence|].
        split; [right; eauto|].
        intros Habs. rewrite (absent_by_email m (ext w) Habs) in Hf2. discriminate.
    - cbn. eexists _, _. split; [reflexivity|]. split; [exact He1|].
      split; [right; eauto|].
      intros Habs. rewrite (absent_by_name m (ext w) Habs) in Hf1. discriminate. }
  destruct Hfind as (u & w' & -> & He & Hshape & Habs).
  destruct Hshape as [->|(usr & ->)].
  - cbn. eexists _, _. split; [reflexivity|]. split; [exact He|reflexivity].
  - cbn. eexists _, _. split; [reflexivity|]. split; [exact He|].
    intros H. specialize (Habs H). discriminate.
Qed.

(** Resolving the members against the reference directory: it returns,
    changes nothing, and every member the directory does not hold is among
    the missing ones. *)
Lemma sim_resolve_members (members : list string) :
  Forall (fun m => nonempty m = true /\ lower (strip m) = m) members ->
  forall (objs : list value) (missing : list string) (w : World Sim.state),
    Sim.outages (ext w) = 0%nat ->
    exists objs' missing' w',
      resolve_members (Sim.platform cfg) cfg members objs missing w
      = (Ok (objs', missing'), w')
      /\ ext w' = ext w
      /\ (forall m, In m missing -> In m missing')
      /\ (forall m, In m members -> absent m (ext w) -> In m missing').
Proof.
  induction 1 as [|m ms (Hne & Hnorm) Hms IH]; intros objs missing w Hout;
    cbn [resolve_members].
  - eexists _, _, _. split; [reflexivity|]. split; [reflexivity|]. split; [auto|].
    intros m [].
  - unfold bind at 1.
    destruct (sim_get_user_id m w Hout Hne Hnorm) as (uid & w1 & -> & He1 & Habs).
    destruct (truthy uid) eqn:Ht.
    + destruct (IH (py_append objs (VDict [("value", uid)])) missing w1
                  ltac:(now rewrite He1)) as (o' & m' & w' & -> & He & Hkeep & Hnew).
      eexists _, _, _. split; [reflexivity|]. split; [congruence|]. split; [exact Hkeep|].
      intros x [<-|Hin] Hx.
      * rewrite (Habs Hx) in Ht. discriminate.
      * apply Hnew; [exact Hin|]. now rewrite He1.
    + destruct (IH objs (py_append missing m) w1 ltac:(now rewrite He1))
        as (o' & m' & w' & -> & He & Hkeep & Hnew).
      eexists _, _, _. split; [reflexivity|]. split; [congruence|]. split.
      * intros x Hx. apply Hkeep. unfold py_append. apply in_or_app. now left.
      * intros x [<-|Hin] Hx.
        -- apply Hkeep. unfold py_append. apply in_or_app. right. now left.
        -- apply Hnew; [exact Hin|]. now rewrite He1.
Qed.

End SimGroups.

(** C3. Against the reference directory, reachable: for every row whose
    constructed group name is the display name of a group the directory
    holds, [create_group_handler] raises the conflict error ("Group already
    exists. ...", a [ValueError]), issues GET requests only and leaves the
    directory as it was; and for every row whose group does not exist yet and
    whose member list holds an address the directory does not hold, it raises
    naming that address among the missing users, again with GET requests only
    and the directory as it was: no group is created. *)
Theorem create_group_fails_atomically :
  forall (cfg : Config) (inst : string) (row : Row) (name : string)
         (w : World Sim.state),
    INSTANCE cfg = Some inst ->
    Sim.outages (ext w) = 0%nat ->
    construct_group_name row = Ok name ->
    (group_exists name (ext w) ->
     exists w',
       create_group_handler (Sim.platform cfg) cfg row w
       = (Raise (ValueError group_exists_msg), w')
       /\ traffic is_get w w'
       /\ ext w' = ext w)
    /\ (~ group_exists name (ext w) ->
        forall m : string,
          In m (_split_members (row_str row "group_members")) ->
          absent m (ext w) ->
          exists (missing : list string) (w' : World Sim.state),
            In m missing
            /\ create_group_handler (Sim.platform cfg) cfg row w
               = (Raise (ValueError ("Cannot create group. These users do not exist: "
                                     ++ join ", " missing)), w')
            /\ traffic is_get w w'
            /\ ext w' = ext w).
Proof.
  intros cfg inst row name w Hinst Hout Hname.
  pose proof (construct_group_name_nonempty row name Hname) as Hne.
  destruct (sim_find_group cfg inst Hinst name w Hout Hne)
    as (g & w1 & Hfind & He1 & Hyes & Hno).
  destruct (create_group_stops_at_its_checks (Sim.platform cfg) cfg row name w w1 g
              Hname Hfind) as (Hfound & Hmissing).
  split.
  - intros Hex. destruct (Hfound (Hyes Hex)) as (w' & Hrun & Hao & Ht).
    exists w'. split; [exact Hrun|]. split; [exact Ht|].
    assert (Hw : settled w1 w').
    { revert Hrun. unfold create_group_handler, bind, lift, raise.
      rewrite Hname, Hne. cbn [negb]. rewrite Hfind, (Hyes Hex).
      destruct (append_audit (Sim.platform cfg) cfg "CREATE_GROUP" "group" (VStr name)
                  "FAILED" group_exists_msg VNone VNone VNone w1) as [x w3] eqn:Hx.
      pose proof (sim_append_audit_settled cfg _ _ _ _ _ _ _ _ _ _ _ Hx) as Hs.
      destruct x; intros H; inversion H; subst; exact Hs. }
    destruct Hw as (Hw & _). congruence.
  - intros Hnone m Hin Habs.
    assert (Hms : Forall (fun m => nonempty m = true /\ lower (strip m) = m)
                    (_split_members (row_str row "group_members"))).
    { apply Forall_forall. intros x Hx.
      split; [eapply split_members_nonempty, Hx | eapply members_are_normal, Hx]. }
    destruct (sim_resolve_members cfg inst Hinst _ Hms [] [] w1 ltac:(now rewrite He1))
      as (objs & missing & w2 & Hres & He2 & _ & Hnew).
    assert (Hm : In m missing) by (apply Hnew; [exact Hin | now rewrite He1]).
    destruct missing as [|m0 missing]; [destruct Hm|].
    assert (Hg : truthy g = false) by (now rewrite (Hno Hnone)).
    destruct (Hmissing Hg objs m0 missing w2 Hres) as (w' & Hrun & Hao & Ht).
    exists (m0 :: missing), w'. split; [exact Hm|]. split; [exact Hrun|].
    split; [exact Ht|].
    assert (Hw : settled w2 w').
    { revert Hrun. unfold create_group_handler, bind, lift, raise.
      rewrite Hname, Hne. cbn [negb]. rewrite Hfind, Hg, Hres.
      match goal with
      | |- context [append_audit ?p ?c ?a ?b ?i ?s ?d ?x ?y ?z w2] =>
          destruct (append_audit p c a b i s d x y z w2) as [r w3] eqn:Hx;
          pose proof (sim_append_audit_settled cfg _ _ _ _ _ _ _ _ _ _ _ Hx) as Hs
      end.
      destruct r; intros H; inversion H; subst; exact Hs. }
    destruct Hw as (Hw & _). congruence.
Qed.

(** The reference directory holds the group of [existing_group_row], and not
    the member zed@x.io of [unknown_member_row]. *)
Lemma create_group_fails_atomically_on_examples :
  (exists w',
      create_group_handler (Sim.platform Sim.cfg0) Sim.cfg0 existing_group_row
        (Sim.world_of Sim.d0)
      = (Raise (ValueError group_exists_msg), w')
      /\ traffic is_get (Sim.world_of Sim.d0) w'
      /\ ext w' = Sim.d0)
  /\ (exists missing w',
         In "zed@x.io" missing
         /\ create_group_handler (Sim.platform Sim.cfg0) Sim.cfg0 unknown_member_row
              (Sim.world_of Sim.d0)
            = (Raise (ValueError ("Cannot create group. These users do not exist: "
                                  ++ join ", " missing)), w')
         /\ traffic is_get (Sim.world_of Sim.d0) w'
         /\ ext w' = Sim.d0).
Proof.
  split.
  - destruct (create_group_fails_atomically Sim.cfg0 "https://accounts.example/"
                existing_group_row "nprod_TMX_App1_readers" (Sim.world_of Sim.d0)
                eq_refl eq_refl eq_refl) as (H & _).
    apply H. exists "g1". now left.
  - destruct (create_group_fails_atomically Sim.cfg0 "https://accounts.example/"
                unknown_member_row "prod_TMFinance_Ledger_admins" (Sim.world_of Sim.d0)
                eq_refl eq_refl eq_refl) as (_ & H).
    apply H.
    + intros (gid & [Hg|[]]). discriminate Hg.
    + right. now left.
    + intros u [<-|[<-|[]]]; split; reflexivity.
Defined.

(* ================================================================== *)
(** ** Member lists, chunks and environment names *)
(* ================================================================== *)

Lemma strip_normalised (p : string) : strip (lower (strip p)) = lower (strip p).
Proof. now rewrite strip_lower, strip_idem. Qed.

(** X1. Every member [_split_members] returns is in normal form: not empty,
    without surrounding white space and in lower case, whatever the text and
    whichever separator it uses. *)
Theorem split_members_are_normalised :
  forall csv : string,
    Forall (fun m => m <> EmptyString /\ strip m = m /\ lower m = m) (_split_members csv).
Proof.
  intros csv. apply Forall_forall. intros m Hin.
  split; [apply nonempty_neq, (split_members_nonempty csv), Hin|].
  revert Hin. unfold _split_members.
  destruct (nonempty csv); cbn [negb]; [|intros []].
  assert (Hparts : forall sep,
             In m (map (fun p => lower (strip p))
                     (filter (fun p => nonempty (strip p)) (split_char sep (strip csv)))) ->
             strip m = m /\ lower m = m).
  { intros sep Hin. apply in_map_iff in Hin as (p & <- & _).
    split; [apply strip_normalised | apply lower_idem]. }
  destruct (contains_char "," (strip csv)); [apply Hparts|].
  destruct (contains_char ";" (strip csv)); [apply Hparts|].
  destruct (nonempty (strip csv)); [|intros []].
  intros [<-|[]]. split; [apply strip_normalised | apply lower_idem].
Qed.

Lemma range_from_chunks {A} (l : list A) (n : nat) :
  (0 < n)%nat ->
  forall fuel start,
    (length l - start <= fuel)%nat ->
    concat (map (fun i => firstn n (skipn i l)) (range_from fuel start (length l) n))
    = skipn start l.
Proof.
  intros Hn. induction fuel as [|fuel IH]; intros start Hfuel; cbn [range_from].
  - cbn. symmetry. apply skipn_all2. lia.
  - destruct (start <? length l)%nat eqn:Hlt.
    + cbn [map concat]. rewrite IH by (apply Nat.ltb_lt in Hlt; lia).
      replace (start + n)%nat with (n + start)%nat by lia.
      rewrite <- skipn_skipn. apply firstn_skipn.
    + cbn. symmetry. apply skipn_all2. apply Nat.ltb_ge in Hlt. lia.
Qed.

Lemma range_from_below (fuel start stop step : nat) :
  Forall (fun i => (i < stop)%nat) (range_from fuel start stop step).
Proof.
  revert start. induction fuel as [|fuel IH]; intros start; cbn [range_from].
  - constructor.
  - destruct (start <? stop)%nat eqn:Hlt; [|constructor].
    constructor; [now apply Nat.ltb_lt | apply IH].
Qed.

(** X2. For a positive size [_chunked] loses and reorders nothing: the
    chunks it yields, put end to end, are the list it was given, and each chunk
    holds at least one and at most [size] items. *)
Theorem chunked_partitions_the_list :
  forall (A : Type) (l : list A) (size : Z),
    (0 < size)%Z ->
    exists chunks,
      _chunked l size = Ok chunks
      /\ concat chunks = l
      /\ Forall (fun c => (1 <= length c <= Z.to_nat size)%nat) chunks.
Proof.
  intros A l size Hsize. unfold _chunked.
  replace (size =? 0)%Z with false by (symmetry; apply Z.eqb_neq; lia).
  replace (size <? 0)%Z with false by (symmetry; apply Z.ltb_ge; lia).
  eexists. split; [reflexivity|]. split.
  - rewrite range_from_chunks by lia. reflexivity.
  - apply Forall_map. eapply Forall_impl; [|apply range_from_below].
    intros i Hi. cbv beta in Hi |- *. rewrite length_firstn, length_skipn. lia.
Qed.

Lemma chunked_in_threes :
  (0 < 3)%Z
  /\ exists chunks,
       _chunked ["a"; "b"; "c"; "d"; "e"; "f"; "g"] 3 = Ok chunks
       /\ concat chunks = ["a"; "b"; "c"; "d"; "e"; "f"; "g"]
       /\ Forall (fun c => (1 <= length c <= Z.to_nat 3)%nat) chunks.
Proof. split; [lia | apply chunked_partitions_the_list; lia]. Defined.

(** X3. [_get_env_config] accepts the two environments "dev" and "prod"
    only, in any letter case and with surrounding blanks: whenever it returns,
    the key is the trimmed lower-case text, the modifiers are those of "dev"
    ("nonprod", "d") or of "prod" ("prod", "p"), and the returned key is
    accepted again with the same result. *)
Theorem get_env_config_accepts_dev_and_prod :
  forall (environment k s3 cat : string),
    _get_env_config environment = Ok (k, s3, cat) ->
    k = lower (strip environment)
    /\ ((k, s3, cat) = ("dev", "nonprod", "d") \/ (k, s3, cat) = ("prod", "prod", "p"))
    /\ _get_env_config k = Ok (k, s3, cat).
Proof.
  intros environment k s3 cat. unfold _get_env_config at 1.
  destruct (String.eqb (lower (strip environment)) "dev") eqn:Hdev.
  - apply String.eqb_eq in Hdev. rewrite Hdev. intros [= <- <- <-]. auto.
  - destruct (String.eqb (lower (strip environment)) "prod") eqn:Hprod; [|discriminate].
    apply String.eqb_eq in Hprod. rewrite Hprod. intros [= <- <- <-]. auto.
Qed.

Lemma get_env_config_accepts_padded_upper_case :
  _get_env_config "  DEV " = Ok ("dev", "nonprod", "d")
  /\ _get_env_config "dev" = Ok ("dev", "nonprod", "d").
Proof.
  destruct (get_env_config_accepts_dev_and_prod "  DEV " "dev" "nonprod" "d" eq_refl)
    as (_ & _ & H).
  split; [reflexivity | exact H].
Defined.

(** X4. [build_group_name] gives three names, one per role, and no two of
    them are the same, whatever the organisation, department, application
    and environment. *)
Theorem build_group_name_gives_three_distinct_names :
  forall organization_name department application_name environment : string,
    length (build_group_name organization_name department application_name environment)
    = 3%nat
    /\ NoDup (build_group_name organization_name department application_name environment).
Proof.
  intros o d a e. split; [reflexivity|].
  unfold build_group_name. cbn [map].
  set (p := if String.eqb (lower e) "dev" then "nprod" else "prod").
  set (b := o ++ "_" ++ d ++ "_" ++ a).
  assert (Hne : forall r1 r2, r1 <> r2 ->
                   p ++ "_" ++ b ++ "_" ++ r1 <> p ++ "_" ++ b ++ "_" ++ r2).
  { intros r1 r2 Hr H. apply append_inj_l in H. injection H as H.
    apply append_inj_l in H. injection H as H. contradiction. }
  repeat constructor; cbn [In]; intros H;
    repeat match goal with
           | H : _ \/ _ |- _ => destruct H as [H|H]
           | H : False |- _ => destruct H
           | H : _ ++ _ = _ ++ _ |- _ => revert H; apply Hne; discriminate
           end.
Qed.

(* ================================================================== *)
(** ** The executor bounds its traffic *)
(* ================================================================== *)

Section ExecutorBound.

Context {E : Type} (P : Platform E).

(** One attempt sends at most one request and does not sleep, whether it
    comes back or raises. *)
Lemma send_once_effect (rq : request) (w w' : World E) (a : res (attempt response)) :
  send_once P rq w = (a, w') ->
  sleeps w' = sleeps w
  /\ exists cs, calls w' = (calls w ++ cs)%list
                /\ (length cs <= 1)%nat /\ Forall (sent_as rq) cs.
Proof.
  unfold send_once, _auth_headers, requests_request, ret.
  destruct (truthy (headers rq)).
  - destruct (http_send P _ (ext w)) as [x e]. intros [= _ <-].
    split; [reflexivity|]. eexists [_]. split; [reflexivity|]. split; [cbn; lia|].
    constructor; [|constructor]. repeat split.
  - destruct (get_dbx_access_token P (ext w)) as [[tok|ex] e].
    + destruct (http_send P _ _) as [x e']. intros [= _ <-].
      split; [reflexivity|]. eexists [_]. split; [reflexivity|]. split; [cbn; lia|].
      constructor; [|constructor]. repeat split.
    + destruct ex; intros [= _ <-]; (split; [reflexivity|]); exists []; cbn;
        (split; [now rewrite app_nil_r|]); (split; [lia|constructor]).
Qed.

Lemma loop_bounded (rq : request) (retries : Z) (n : nat) :
  forall (a d : Z) (w w' : World E) (r : res value),
    (a + Z.of_nat n = retries)%Z ->
    safe_request_loop P (S n) a d retries rq w = (r, w') ->
    exists cs ds,
      calls w' = (calls w ++ cs)%list /\ sleeps w' = (sleeps w ++ ds)%list
      /\ Forall (sent_as rq) cs
      /\ (length cs <= length ds + 1)%nat
      /\ (length ds <= n)%nat
      /\ ds = backoff (length ds) d.
Proof.
  induction n as [|n IH]; intros a d w w' r Ha.
  - cbn [safe_request_loop]. unfold bind.
    destruct (send_once P rq w) as [x w0] eqn:Hs.
    destruct (send_once_effect rq w w0 x Hs) as (Hsl & cs & Hc & Hlen & HF).
    replace (a =? retries)%Z with true by (symmetry; apply Z.eqb_eq; lia).
    intros Hrun.
    assert (Hw : w' = w0) by (destruct x as [[?|?]|?]; now injection Hrun as _ <-).
    subst w'. exists cs, []. rewrite app_nil_r. cbn. repeat split; auto; lia.
  - change (safe_request_loop P (S (S n)) a d retries rq w) with
      (bind (send_once P rq)
         (fun x => match x with
                   | Done r => ret (outcome_of_response rq r)
                   | Failed msg =>
                       if (a =? retries)%Z then ret (outcome_of_failure rq retries msg)
                       else bind (time_sleep d)
                              (fun _ => safe_request_loop P (S n) (a + 1) (d * 2) retries rq)
                   end) w).
    unfold bind at 1.
    destruct (send_once P rq w) as [x w0] eqn:Hs.
    destruct (send_once_effect rq w w0 x Hs) as (Hsl & cs & Hc & Hlen & HF).
    destruct x as [[resp|msg]|ex].
    3:{ intros [= _ <-]. exists cs, []. rewrite app_nil_r. cbn. repeat split; auto; lia. }
    + intros [= _ <-]. exists cs, []. rewrite app_nil_r. cbn. repeat split; auto; lia.
    + replace (a =? retries)%Z with false by (symmetry; apply Z.eqb_neq; lia).
      unfold bind, time_sleep. intros Hrun.
      destruct (IH (a + 1)%Z (d * 2)%Z (log_sleep d w0) w' r ltac:(lia) Hrun)
        as (cs' & ds' & Hc' & Hs' & HF' & Hl1 & Hl2 & Hb).
      exists (cs ++ cs')%list, (d :: ds'). cbn [calls sleeps log_sleep] in Hc', Hs'.
      rewrite Hc', Hc, Hs', Hsl, length_app, <- !app_assoc. cbn [length backoff app].
      repeat split; try lia.
      * apply Forall_app. now split.
      * now rewrite <- Hb.
Qed.

End ExecutorBound.

(** X5. [_safe_request] bounds its traffic on every run: it sends at most
    [retries] requests, each of them the request it was asked to send; it
    sleeps only between attempts, at most [retries - 1] times, and the delays
    are 2, 4, 8, ... seconds in this order.  With [retries <= 0] it sends
    nothing. *)
Theorem safe_request_traffic_is_bounded :
  forall (E : Type) (P : Platform E) (rq : request) (retries : Z)
         (w w' : World E) (r : res value),
    _safe_request P rq retries w = (r, w') ->
    exists (cs : list request) (ds : list Z),
      calls w' = (calls w ++ cs)%list
      /\ sleeps w' = (sleeps w ++ ds)%list
      /\ Forall (sent_as rq) cs
      /\ (Z.of_nat (length cs) <= Z.max 0 retries)%Z
      /\ (length cs <= length ds + 1)%nat
      /\ (Z.of_nat (length ds) <= Z.max 0 (retries - 1))%Z
      /\ ds = backoff (length ds) 2.
Proof.
  intros E P rq retries w w' r. unfold _safe_request.
  destruct (Z.to_nat retries) as [|n] eqn:Hn.
  - cbn. intros [= _ <-]. exists [], []. rewrite !app_nil_r. cbn.
    repeat split; auto; lia.
  - intros Hrun.
    destruct (loop_bounded P rq retries n 1 2 w w' r ltac:(lia) Hrun)
      as (cs & ds & Hc & Hs & HF & Hl1 & Hl2 & Hb).
    exists cs, ds. repeat split; auto; lia.
Qed.

(** One time-out, then a 500: two requests, one wait of 2 seconds, and no
    third attempt although three are allowed. *)
Lemma safe_request_stops_at_the_first_response :
  exists (cs : list request) (ds : list Z) (w' : World (list (attempt response))),
    fst (_safe_request Script.platform Script.get_me 3
           (Script.world_of [Script.timed_out;
                             Done {| status_code := 500; json_body := None;
                                     text := "boom" |};
                             Done (Script.ok_200 (VDict []))]))
    = Ok (VDict [("status_code", VInt 500);
                 ("body", VDict [("error", VStr "boom")]);
                 ("error", VStr "GET https://ws.example/api/2.0/preview/scim/v2/Me failed: 500")])
    /\ calls w' = cs /\ sleeps w' = ds
    /\ length cs = 2%nat /\ ds = [2%Z].
Proof.
  run_as Hrun (_safe_request Script.platform Script.get_me 3
                 (Script.world_of [Script.timed_out;
                                   Done {| status_code := 500; json_body := None;
                                           text := "boom" |};
                                   Done (Script.ok_200 (VDict []))])).
  destruct (safe_request_traffic_is_bounded _ Script.platform Script.get_me 3 _ _ _ Hrun)
    as (cs & ds & Hc & Hs & _).
  exists cs, ds. eexists. rewrite Hrun. cbn [fst].
  split; [reflexivity|]. split; [exact Hc|]. split; [exact Hs|].
  cbn in Hc, Hs. subst cs ds. split; reflexivity.
Defined.

(* ================================================================== *)
(** ** The directory look-ups contain every error *)
(* ================================================================== *)

(** X6. [_find_user_by_email] and [_find_group_by_display_name] never raise
    and only read: on every input and against every platform they return a
    value, and every request they issue is a GET.  A failure of the look-up
    itself is reported as [None], as "not found" is: with no account host
    configured, both return [None] without a single request. *)
Theorem directory_lookups_never_raise :
  forall (E : Type) (P : Platform E) (cfg : Config) (s : string) (w : World E),
    (exists v w', _find_user_by_email P cfg s w = (Ok v, w') /\ traffic is_get w w')
    /\ (exists v w', _find_group_by_display_name P cfg s w = (Ok v, w')
                     /\ traffic is_get w w')
    /\ (INSTANCE cfg = None ->
        _find_user_by_email P cfg s w = (Ok VNone, w)
        /\ _find_group_by_display_name P cfg s w = (Ok VNone, w)).
Proof.
  intros E P cfg s w. split; [|split].
  - destruct (_find_user_by_email P cfg s w) as [[v|e] w'] eqn:Hrun.
    + exists v, w'. split; [reflexivity|]. eapply find_user_reads, Hrun.
    + exfalso. revert Hrun. unfold _find_user_by_email.
      destruct (nonempty s); cbn [negb]; [|discriminate].
      unfold try_except.
      match goal with
      | |- match ?m with _ => _ end = _ -> _ => destruct m as [[a|e'] w1]
      end; discriminate.
  - destruct (_find_group_by_display_name P cfg s w) as [[v|e] w'] eqn:Hrun.
    + exists v, w'. split; [reflexivity|]. eapply find_group_reads, Hrun.
    + exfalso. revert Hrun. unfold _find_group_by_display_name.
      destruct (nonempty s); cbn [negb]; [|discriminate].
      unfold try_except.
      match goal with
      | |- match ?m with _ => _ end = _ -> _ => destruct m as [[a|e'] w1]
      end; discriminate.
  - intros Hi. unfold _find_user_by_email, _find_group_by_display_name,
      scim_list_users, scim_list_groups, _url. rewrite Hi.
    destruct (nonempty s); split; reflexivity.
Qed.

Lemma directory_lookups_without_account_host :
  _find_user_by_email (Sim.platform Sim.cfg0)
    {| INSTANCE := None; WORKSPACE_INSTANCE := Some "https://ws.example";
       ACCOUNT := Some "acc-1"; WORKSPACE_TOKEN := Some "wt";
       DATABRICKS_HTTP_PATH := None; AUDIT_MODE := "file";
       AUDIT_FILE_PATH := "./logs/audit_log.csv"; AUDIT_DELTA_TABLE := "t" |}
    "ann@x.io" (Sim.world_of Sim.d0)
  = (Ok VNone, Sim.world_of Sim.d0).
Proof.
  destruct (directory_lookups_never_raise _ (Sim.platform Sim.cfg0)
              {| INSTANCE := None; WORKSPACE_INSTANCE := Some "https://ws.example";
                 ACCOUNT := Some "acc-1"; WORKSPACE_TOKEN := Some "wt";
                 DATABRICKS_HTTP_PATH := None; AUDIT_MODE := "file";
                 AUDIT_FILE_PATH := "./logs/audit_log.csv"; AUDIT_DELTA_TABLE := "t" |}
              "ann@x.io" (Sim.world_of Sim.d0)) as (_ & _ & H).
  exact (proj1 (H eq_refl)).
Defined.

(** X7. E-mail addresses are compared in normal form.  Looking up a user id
    and ensuring a user give the same result, on every platform and in every
    state, for an address and for its trimmed lower-case form: letter case and
    surrounding blanks never make two users out of one address. *)
Theorem email_lookups_ignore_case_and_blanks :
  forall (E : Type) (P : Platform E) (cfg : Config) (email display_name : string)
         (w : World E),
    get_user_id_by_email P cfg email w
    = get_user_id_by_email P cfg (lower (strip email)) w
    /\ ensure_user P cfg email display_name w
       = ensure_user P cfg (lower (strip email)) display_name w.
Proof.
  intros E P cfg email display_name w.
  unfold get_user_id_by_email, ensure_user.
  now rewrite !normalise_idem.
Qed.

(* ================================================================== *)
(** ** Group membership: failing early and doing nothing *)
(* ================================================================== *)

(** X8. [add_members_to_group_handler] fails before any mutation.  For a row
    with members whose group name can be built: when the look-up of the group
    finds nothing it raises "group not found"; when the group is found and at
    least one member e-mail does not resolve it raises naming the unresolved
    members.  In both cases every request it issued is a GET: the group was
    not patched. *)
Theorem add_members_fails_before_any_mutation :
  forall (E : Type) (P : Platform E) (cfg : Config) (row : Row) (name : string)
         (m : string) (ms : list string) (w w1 : World E) (g : value),
    construct_group_name row = Ok name ->
    _split_members (row_str row "group_members") = m :: ms ->
    _find_group_by_display_name P cfg name w = (Ok g, w1) ->
    (truthy g = false ->
     exists w',
       add_members_to_group_handler P cfg row w = (Raise (ValueError "group not found"), w')
       /\ calls w' = calls w1
       /\ traffic is_get w w')
    /\ (truthy g = true ->
        forall (gid : value) (objs : list value) (x : string) (missing : list string)
               (w2 : World E),
          py_get g "id" = Ok gid ->
          resolve_members P cfg (m :: ms) [] [] w1 = (Ok (objs, x :: missing), w2) ->
          exists w',
            add_members_to_group_handler P cfg row w
            = (Raise (ValueError ("Cannot add members. These users do not exist: "
                                  ++ join ", " (x :: missing))), w')
            /\ calls w' = calls w2
            /\ traffic is_get w w').
Proof.
  intros E P cfg row name m ms w w1 g Hname Hmem Hfind.
  pose proof (construct_group_name_nonempty row name Hname) as Hne.
  pose proof (find_group_reads P cfg name w _ _ Hfind) as Hreads.
  split.
  - intros Hg.
    destruct (append_audit_returns P cfg "ADD_TO_GROUP" "group" (VStr name) "NOT_FOUND"
                "group not found" VNone VNone VNone w1) as (w' & Ha & Hc & _).
    exists w'. split; [|split].
    + unfold add_members_to_group_handler, bind, lift, raise.
      rewrite Hname, Hne, Hmem. cbn [negb]. rewrite Hfind, Hg. cbn [negb].
      rewrite Ha. reflexivity.
    + exact Hc.
    + eapply traffic_trans; [exact Hreads|]. apply silent_traffic, Hc.
  - intros Hg gid objs x missing w2 Hid Hres.
    pose proof (resolve_members_reads P cfg _ _ _ _ _ _ Hres) as Hreads2.
    destruct (append_audit_returns P cfg "ADD_TO_GROUP" "group" (VStr name) "FAILED"
                ("Cannot add members. These users do not exist: "
                 ++ join ", " (x :: missing)) VNone VNone VNone w2) as (w' & Ha & Hc & _).
    exists w'. split; [|split].
    + unfold add_members_to_group_handler, bind, lift, raise.
      rewrite Hname, Hne, Hmem. cbn [negb]. rewrite Hfind, Hg. cbn [negb].
      rewrite Hid, Hres, Ha. reflexivity.
    + exact Hc.
    + eapply traffic_trans; [exact Hreads|].
      eapply traffic_trans; [exact Hreads2|]. apply silent_traffic, Hc.
Qed.

Lemma add_members_fails_before_any_mutation_on_examples :
  (exists w',
      add_members_to_group_handler (Sim.platform Sim.cfg0) Sim.cfg0 add_to_missing_group_row
        (Sim.world_of Sim.d0)
      = (Raise (ValueError "group not found"), w')
      /\ traffic is_get (Sim.world_of Sim.d0) w')
  /\ (exists w',
         add_members_to_group_handler (Sim.platform Sim.cfg0) Sim.cfg0 add_unknown_member_row
           (Sim.world_of Sim.d0)
         = (Raise (ValueError "Cannot add members. These users do not exist: zed@x.io"), w')
         /\ traffic is_get (Sim.world_of Sim.d0) w').
Proof.
  split.
  - run_as Hfind (_find_group_by_display_name (Sim.platform Sim.cfg0) Sim.cfg0
                    "prod_TMFinance_Ledger_admins" (Sim.world_of Sim.d0)).
    destruct (add_members_fails_before_any_mutation _ (Sim.platform Sim.cfg0) Sim.cfg0
                add_to_missing_group_row "prod_TMFinance_Ledger_admins" _ _ _ _ _
                eq_refl eq_refl Hfind) as (H & _).
    destruct (H eq_refl) as (w' & Hrun & _ & Ht). exists w'. split; assumption.
  - run_as Hfind (_find_group_by_display_name (Sim.platform Sim.cfg0) Sim.cfg0
                    "nprod_TMX_App1_readers" (Sim.world_of Sim.d0)).
    destruct (add_members_fails_before_any_mutation _ (Sim.platform Sim.cfg0) Sim.cfg0
                add_unknown_member_row "nprod_TMX_App1_readers" _ _ _ _ _
                eq_refl eq_refl Hfind) as (_ & H).
    match type of Hfind with
    | _ = (_, ?w1) =>
        run_as Hres (resolve_members (Sim.platform Sim.cfg0) Sim.cfg0
                       ["ann@x.io"; "zed@x.io"] [] [] w1)
    end.
    destruct (H eq_refl _ _ _ _ _ eq_refl Hres) as (w' & Hrun & _ & Ht).
    exists w'. split; assumption.
Defined.

(** X9. A row without members is a no-op for both membership handlers: when
    the group name can be built and the member list is empty, they answer
    "noop" without issuing any request, not even the look-up of the group. *)
Theorem no_members_is_a_noop_without_requests :
  forall (E : Type) (P : Platform E) (cfg : Config) (row : Row) (name : string)
         (w : World E),
    construct_group_name row = Ok name ->
    _split_members (row_str row "group_members") = [] ->
    (exists w',
        add_members_to_group_handler P cfg row w = (Ok (VDict [("status", VStr "noop")]), w')
        /\ calls w' = calls w)
    /\ (exists w',
           remove_members_from_group_handler P cfg row w
           = (Ok (VDict [("status", VStr "noop")]), w')
           /\ calls w' = calls w).
Proof.
  intros E P cfg row name w Hname Hmem.
  pose proof (construct_group_name_nonempty row name Hname) as Hne.
  split.
  - destruct (append_audit_returns P cfg "ADD_TO_GROUP" "group" (VStr name) "NOOP"
                "no members specified" VNone VNone VNone w) as (w' & Ha & Hc & _).
    exists w'. split; [|exact Hc].
    unfold add_members_to_group_handler, bind, lift, ret.
    rewrite Hname, Hne, Hmem. cbn [negb]. rewrite Ha. reflexivity.
  - destruct (append_audit_returns P cfg "REMOVE_FROM_GROUP" "group" (VStr name) "NOOP"
                "no members specified" VNone VNone VNone w) as (w' & Ha & Hc & _).
    exists w'. split; [|exact Hc].
    unfold remove_members_from_group_handler, bind, lift, ret.
    rewrite Hname, Hne, Hmem. cbn [negb]. rewrite Ha. reflexivity.
Qed.

Lemma separators_only_is_a_noop :
  exists w',
    add_members_to_group_handler (Sim.platform Sim.cfg0) Sim.cfg0 separators_only_row
      (Sim.world_of Sim.d0)
    = (Ok (VDict [("status", VStr "noop")]), w')
    /\ calls w' = [].
Proof.
  destruct (no_members_is_a_noop_without_requests _ (Sim.platform Sim.cfg0) Sim.cfg0
              separators_only_row "prod_TMFinance_Ledger_admins" (Sim.world_of Sim.d0)
              eq_refl eq_refl) as ((w' & Hrun & Hc) & _).
  exists w'. split; [exact Hrun | exact Hc].
Defined.

(* ================================================================== *)
(** ** The user handlers *)
(* ================================================================== *)

Section UserHandlers.

Context {E : Type} (P : Platform E) (cfg : Config).

Lemma token_error_contained (e : exn) :
  token_provider_contained P -> token_error P e -> False.
Proof.
  intros Hc ((s & s' & Hs) & Hne). destruct (Hc _ _ _ Hs) as (msg & ->).
  now apply (Hne msg).
Qed.

(** With the two attempts of the fast calls [_safe_request] returns an
    outcome or raises an error of the token provider. *)
Lemma safe_request_fast (rq : request) (w w' : World E) (x : res value) :
  _safe_request P rq FAST_RETRIES w = (x, w') ->
  match x with
  | Ok o => is_outcome rq FAST_RETRIES o
  | Raise e => token_error P e
  end.
Proof.
  intros Hrun.
  pose proof (loop_outcome_or_token_error P rq FAST_RETRIES 1 1 2 w w' x eq_refl Hrun) as H.
  destruct x; [exact H | exact (proj2 H)].
Qed.

Lemma scim_delete_user_run (inst : string) (uid : string) (w w' : World E)
    (x : res value) :
  INSTANCE cfg = Some inst ->
  scim_delete_user P cfg (VStr uid) w = (x, w') ->
  traffic (deletes_user cfg inst uid) w w'
  /\ forall e, x = Raise e -> token_error P e.
Proof.
  intros Hi. unfold scim_delete_user, _url. rewrite Hi. unfold bind, lift. intros Hrun.
  split.
  - revert Hrun. apply safe_request_traffic. intros r0 (Hm & Hu & _). split; assumption.
  - intros e ->. exact (safe_request_fast _ _ _ _ Hrun).
Qed.

Lemma scim_patch_user_run (inst : string) (uid patch : value) (w w' : World E)
    (x : res value) :
  INSTANCE cfg = Some inst ->
  scim_patch_user P cfg uid patch w = (x, w') ->
  traffic (patches_user cfg inst (py_str P uid) patch) w w'
  /\ forall e, x = Raise e -> token_error P e.
Proof.
  intros Hi. unfold scim_patch_user, _url. rewrite Hi. unfold bind, lift. intros Hrun.
  split.
  - revert Hrun. apply safe_request_traffic. intros r0 (Hm & Hu & _ & Hj).
    repeat split; assumption.
  - intros e ->. exact (safe_request_fast _ _ _ _ Hrun).
Qed.

End UserHandlers.

(** X10. A deletion by explicit id is reported as done whatever the platform
    answers.  With the account host configured and a non-blank user_id in the
    row, [delete_user_handler] makes no look-up and sends only DELETE
    requests for that id.  It returns status "deleted" with the id whatever
    came back: a 404, a 500 or a transport failure does not change the
    result.  It raises only an error of the token provider that is not a
    request exception; with a token provider that fails with request
    exceptions only it returns "deleted" on every run. *)
Theorem delete_by_id_reports_deleted_whatever_the_answer :
  forall (E : Type) (P : Platform E) (cfg : Config) (inst : string) (row : Row)
         (w w' : World E) (r : res value),
    INSTANCE cfg = Some inst ->
    nonempty (strip (row_str row "user_id")) = true ->
    delete_user_handler P cfg row w = (r, w') ->
    traffic (deletes_user cfg inst (strip (row_str row "user_id"))) w w'
    /\ match r with
       | Ok res => res = VDict [("status", VStr "deleted");
                                ("id", VStr (strip (row_str row "user_id")))]
       | Raise e => token_error P e
       end
    /\ (token_provider_contained P ->
        r = Ok (VDict [("status", VStr "deleted");
                       ("id", VStr (strip (row_str row "user_id")))])).
Proof.
  intros E P cfg inst row w w' r Hi Hid.
  unfold delete_user_handler. rewrite Hid. cbn [negb].
  unfold bind at 1. unfold ret at 1. unfold try_except. unfold bind at 1.
  destruct (scim_delete_user P cfg (VStr (strip (row_str row "user_id"))) w)
    as [[o|ex] w1] eqn:Hdel;
    destruct (scim_delete_user_run P cfg inst _ _ _ _ Hi Hdel) as (Ht & Herr).
  - destruct (append_audit_returns P cfg "DELETE_USER" "user"
                (VStr (strip (row_str row "user_id"))) "SUCCESS" "deleted" (VInt 204)
                VNone VNone w1) as (w2 & Ha & Hao).
    unfold bind at 1. rewrite Ha. unfold ret. intros [= <- <-].
    split; [|split; reflexivity].
    eapply traffic_trans; [exact Ht|]. apply silent_traffic, (proj1 Hao).
  - destruct (append_audit_returns P cfg "DELETE_USER" "user"
                (VStr (strip (row_str row "user_id"))) "FAILED" (str_exn ex)
                VNone VNone VNone w1) as (w2 & Ha & Hao).
    unfold bind at 1. rewrite Ha. unfold raise. intros [= <- <-].
    split; [|split].
    + eapply traffic_trans; [exact Ht|]. apply silent_traffic, (proj1 Hao).
    + exact (Herr ex eq_refl).
    + intros Hc. destruct (token_error_contained P ex Hc (Herr ex eq_refl)).
Qed.

(** The directory answers 404 to the deletion of an id it does not have; the
    handler still reports "deleted". *)
Lemma delete_of_an_unknown_id_reports_deleted :
  nonempty (strip (row_str delete_unknown_id_row "user_id")) = true
  /\ (exists w',
         delete_user_handler (Sim.platform Sim.cfg0) Sim.cfg0 delete_unknown_id_row
           (Sim.world_of Sim.d0)
         = (Ok (VDict [("status", VStr "deleted"); ("id", VStr "nope")]), w')
         /\ map method (calls w') = ["DELETE"]
         /\ Sim.users (ext w') = Sim.users Sim.d0)
  /\ fst (scim_delete_user (Sim.platform Sim.cfg0) Sim.cfg0 (VStr "nope")
            (Sim.world_of Sim.d0))
     = Ok (VDict [("status_code", VInt 404);
                  ("body", VDict [("error", VStr "not found")]);
                  ("error",
                   VStr "DELETE https://accounts.example/api/2.1/accounts/acc-1/scim/v2/Users/nope failed: 404")]).
Proof.
  split; [reflexivity|]. split.
  - destruct (delete_user_handler (Sim.platform Sim.cfg0) Sim.cfg0 delete_unknown_id_row
                (Sim.world_of Sim.d0)) as [r w'] eqn:Hrun.
    destruct (delete_by_id_reports_deleted_whatever_the_answer _ (Sim.platform Sim.cfg0)
                Sim.cfg0 "https://accounts.example/" delete_unknown_id_row
                (Sim.world_of Sim.d0) w' r eq_refl eq_refl Hrun) as (_ & _ & Hok).
    rewrite Hok.
    2:{ intros s e s' H. discriminate H. }
    exists w'. split; [reflexivity|].
    run_as Hc (delete_user_handler (Sim.platform Sim.cfg0) Sim.cfg0 delete_unknown_id_row
                 (Sim.world_of Sim.d0)).
    rewrite Hc in Hrun. injection Hrun as _ <-. split; reflexivity.
  - vm_compute. reflexivity.
Defined.

(** X11. An update that names nothing to change patches nothing.  When the
    user is found and the row has neither attributes_json nor a first or last
    name, [update_user_handler] answers "noop" and issues no request beyond
    the GETs of the look-up. *)
Theorem update_with_nothing_to_change_is_a_noop :
  forall (E : Type) (P : Platform E) (cfg : Config) (row : Row)
         (w w1 : World E) (existing uid : value),
    nonempty (lower (strip (row_str row "user_email"))) = true ->
    _find_user_by_email P cfg (lower (strip (row_str row "user_email"))) w
    = (Ok existing, w1) ->
    truthy existing = true ->
    py_get existing "id" = Ok uid ->
    strip (row_str row "attributes_json") = EmptyString ->
    strip (row_str row "first_name") = EmptyString ->
    strip (row_str row "last_name") = EmptyString ->
    exists w',
      update_user_handler P cfg row w = (Ok (VDict [("status", VStr "noop")]), w')
      /\ calls w' = calls w1
      /\ traffic is_get w w'.
Proof.
  intros E P cfg row w w1 existing uid Hne Hfind Hex Hid Hattrs Hfirst Hlast.
  pose proof (find_user_reads P cfg _ w _ _ Hfind) as Hreads.
  destruct (append_audit_returns P cfg "UPDATE_USER" "user"
              (VStr (lower (strip (row_str row "user_email")))) "NOOP" "nothing to update"
              VNone VNone VNone w1) as (w' & Ha & Hc & _).
  exists w'. split; [|split].
  - unfold update_user_handler. rewrite Hne. cbn [negb].
    unfold bind at 1. rewrite Hfind, Hex. cbn [negb].
    unfold bind at 1. unfold lift at 1. rewrite Hid.
    rewrite Hattrs, Hfirst, Hlast. cbn [nonempty orb andb].
    unfold bind at 1. unfold ret at 1. unfold bind at 1. rewrite Ha. reflexivity.
  - exact Hc.
  - eapply traffic_trans; [exact Hreads|]. apply silent_traffic, Hc.
Qed.

Lemma update_with_nothing_to_change_for_ann :
  exists w',
    update_user_handler (Sim.platform Sim.cfg0) Sim.cfg0 empty_update_row
      (Sim.world_of Sim.d0)
    = (Ok (VDict [("status", VStr "noop")]), w')
    /\ traffic is_get (Sim.world_of Sim.d0) w'.
Proof.
  run_as Hfind (_find_user_by_email (Sim.platform Sim.cfg0) Sim.cfg0 "ann@x.io"
                  (Sim.world_of Sim.d0)).
  destruct (update_with_nothing_to_change_is_a_noop _ (Sim.platform Sim.cfg0) Sim.cfg0
              empty_update_row (Sim.world_of Sim.d0) _ _ (VStr "u1")
              eq_refl Hfind eq_refl eq_refl eq_refl eq_refl eq_refl)
    as (w' & Hrun & _ & Ht).
  exists w'. split; assumption.
Defined.

(** X12. The user handlers validate before they talk to the platform.  A row
    whose user_email is blank makes [create_user_handler] and
    [update_user_handler] raise "user_email required"; when user_id and email
    are blank as well, [delete_user_handler] raises "user_id or user_email
    required".  None of them issues a request. *)
Theorem user_handlers_require_an_identifier :
  forall (E : Type) (P : Platform E) (cfg : Config) (row : Row) (w : World E),
    strip (row_str row "user_email") = EmptyString ->
    (exists w',
        create_user_handler P cfg row w = (Raise (ValueError "user_email required"), w')
        /\ calls w' = calls w)
    /\ (exists w',
           update_user_handler P cfg row w = (Raise (ValueError "user_email required"), w')
           /\ calls w' = calls w)
    /\ (strip (row_str row "user_id") = EmptyString ->
        strip (row_str row "email") = EmptyString ->
        exists w',
          delete_user_handler P cfg row w
          = (Raise (ValueError "user_id or user_email required"), w')
          /\ calls w' = calls w).
Proof.
  intros E P cfg row w Hemail. split; [|split].
  - destruct (append_audit_returns P cfg "CREATE_USER" "user" (VStr "") "FAILED"
                "user_email missing" VNone VNone VNone w) as (w' & Ha & Hc & _).
    exists w'. split; [|exact Hc].
    unfold create_user_handler. rewrite Hemail. cbn [lower map_chars nonempty negb].
    unfold bind, raise. rewrite Ha. reflexivity.
  - destruct (append_audit_returns P cfg "UPDATE_USER" "user" (VStr "") "FAILED"
                "user_email required" VNone VNone VNone w) as (w' & Ha & Hc & _).
    exists w'. split; [|exact Hc].
    unfold update_user_handler. rewrite Hemail. cbn [lower map_chars nonempty negb].
    unfold bind, raise. rewrite Ha. reflexivity.
  - intros Hid Halt.
    destruct (append_audit_returns P cfg "DELETE_USER" "user" (VStr "") "FAILED"
                "user_id or user_email required" VNone VNone VNone w)
      as (w' & Ha & Hc & _).
    exists w'. split; [|exact Hc].
    unfold delete_user_handler. rewrite Hid. cbn [nonempty negb].
    assert (Hnone : lower (strip (match opt_or (row_get row "user_email")
                                               (row_get row "email") with
                                  | Some s => s
                                  | None => EmptyString
                                  end)) = EmptyString).
    { unfold opt_or, env_truthy. revert Hemail Halt. unfold row_str.
      destruct (row_get row "user_email") as [[|c s]|];
        destruct (row_get row "email") as [t|]; cbn [nonempty];
        intros H1 H2; rewrite ?H1, ?H2; reflexivity. }
    rewrite Hnone. cbn [nonempty negb].
    unfold bind, raise. rewrite Ha. reflexivity.
Qed.

Lemma user_handlers_reject_a_blank_address :
  strip (row_str no_identifier_row "user_email") = EmptyString
  /\ (exists w',
         create_user_handler (Sim.platform Sim.cfg0) Sim.cfg0 no_identifier_row
           (Sim.world_of Sim.d0)
         = (Raise (ValueError "user_email required"), w')
         /\ calls w' = [])
  /\ (exists w',
         delete_user_handler (Sim.platform Sim.cfg0) Sim.cfg0 no_identifier_row
           (Sim.world_of Sim.d0)
         = (Raise (ValueError "user_id or user_email required"), w')
         /\ calls w' = []).
Proof.
  split; [reflexivity|].
  destruct (user_handlers_require_an_identifier _ (Sim.platform Sim.cfg0) Sim.cfg0
              no_identifier_row (Sim.world_of Sim.d0) eq_refl) as (Hc & _ & Hd).
  split; [exact Hc | exact (Hd eq_refl eq_refl)].
Defined.

(** X13. What [create_user_handler] returns.  Whenever it returns at all, the
    result is either "skipped" with the id of the user that was found, or
    "created" with an id that is not empty; a creation that produced no id is
    never reported as "created" (it raises instead). *)
Theorem create_user_returns_skipped_or_created_with_an_id :
  forall (E : Type) (P : Platform E) (cfg : Config) (row : Row)
         (w w' : World E) (r : value),
    create_user_handler P cfg row w = (Ok r, w') ->
    (exists i, r = VDict [("status", VStr "skipped"); ("id", i)])
    \/ (exists i resp,
           r = VDict [("status", VStr "created"); ("id", i); ("resp", resp)]
           /\ truthy i = true).
Proof.
  intros E P cfg row w w' r. unfold create_user_handler.
  destruct (nonempty (lower (strip (row_str row "user_email")))); cbn [negb].
  - unfold bind at 1.
    destruct (_find_user_by_email P cfg _ w) as [[existing|e] w1]; [|discriminate].
    destruct (truthy existing).
    + unfold bind at 1.
      destruct (append_audit_returns P cfg "CREATE_USER" "user"
                  (VStr (lower (strip (row_str row "user_email")))) "SKIPPED"
                  "already_exists" VNone VNone VNone w1) as (w2 & -> & _).
      unfold bind, lift, ret.
      destruct (py_get existing "id") as [i|e]; [|discriminate].
      intros [= <- <-]. left. eauto.
    + unfold bind at 1.
      destruct (ensure_user P cfg _ _ w1) as [[result|e] w2]; [|discriminate].
      unfold bind at 1. unfold lift at 1.
      destruct (py_get result "id") as [i|e]; [|discriminate].
      destruct (truthy i) eqn:Hi.
      * unfold bind, lift, ret.
        destruct (py_get result "resp") as [resp|e]; [|discriminate].
        intros [= <- <-]. right. eauto.
      * unfold bind, lift, raise.
        destruct (py_get result "error"); discriminate.
  - unfold bind, raise.
    destruct (append_audit P cfg _ _ _ _ _ _ _ _ w) as [[[]|e] w1]; discriminate.
Qed.

Lemma create_user_returns_created_for_a_new_address :
  exists i resp w',
    create_user_handler (Sim.platform Sim.cfg0) Sim.cfg0 cat_row (Sim.world_of Sim.d0)
    = (Ok (VDict [("status", VStr "created"); ("id", i); ("resp", resp)]), w')
    /\ truthy i = true.
Proof.
  run_as Hrun (create_user_handler (Sim.platform Sim.cfg0) Sim.cfg0 cat_row
                 (Sim.world_of Sim.d0)).
  destruct (create_user_returns_skipped_or_created_with_an_id _ _ _ _ _ _ _ Hrun)
    as [(i & Hr)|(i & resp & Hr & Hi)]; [discriminate Hr|].
  injection Hr as <- <-. eexists _, _, _. split; [exact Hrun | exact Hi].
Defined.

(** X14. A change of name is reported as done whatever the platform answers.
    When the user is found and the row gives a first or last name and no
    attributes_json, [update_user_handler] sends, after the GETs of the
    look-up, only PATCH requests for that user carrying the one operation
    that replaces name.formatted.  It returns status "updated" together with
    the outcome: the status of the answer is not looked at.  It raises only
    an error of the token provider that is not a request exception; with a
    token provider that fails with request exceptions only it returns
    "updated" on every run. *)
Theorem update_reports_updated_whatever_the_answer :
  forall (E : Type) (P : Platform E) (cfg : Config) (inst : string) (row : Row)
         (w w1 w' : World E) (existing uid : value) (r : res value),
    INSTANCE cfg = Some inst ->
    nonempty (lower (strip (row_str row "user_email"))) = true ->
    _find_user_by_email P cfg (lower (strip (row_str row "user_email"))) w
    = (Ok existing, w1) ->
    truthy existing = true ->
    py_get existing "id" = Ok uid ->
    strip (row_str row "attributes_json") = EmptyString ->
    nonempty (strip (row_str row "first_name")) || nonempty (strip (row_str row "last_name"))
    = true ->
    nonempty (compose_name (strip (row_str row "first_name"))
                (strip (row_str row "last_name"))) = true ->
    update_user_handler P cfg row w = (r, w') ->
    traffic is_get w w1
    /\ traffic (patches_user cfg inst (py_str P uid)
                  (rename_patch (compose_name (strip (row_str row "first_name"))
                                   (strip (row_str row "last_name"))))) w1 w'
    /\ match r with
       | Ok res => exists resp, res = VDict [("status", VStr "updated"); ("resp", resp)]
       | Raise e => token_error P e
       end
    /\ (token_provider_contained P ->
        exists resp, r = Ok (VDict [("status", VStr "updated"); ("resp", resp)])).
Proof.
  intros E P cfg inst row w w1 w' existing uid r Hi Hne Hfind Hex Hid Hattrs Hany Hcomp.
  pose proof (find_user_reads P cfg _ w _ _ Hfind) as Hreads.
  set (composed := compose_name (strip (row_str row "first_name"))
                     (strip (row_str row "last_name"))) in *.
  unfold update_user_handler. rewrite Hne. cbn [negb].
  unfold bind at 1. rewrite Hfind, Hex. cbn [negb].
  unfold bind at 1. unfold lift at 1. rewrite Hid.
  rewrite Hattrs. cbn [nonempty]. unfold bind at 1. unfold ret at 1.
  rewrite Hany. fold composed. rewrite Hcomp.
  cbn [existsb negb andb py_append app].
  unfold try_except. unfold bind at 1.
  fold (rename_patch composed).
  destruct (scim_patch_user P cfg uid (rename_patch composed) w1) as [[resp|ex] w2] eqn:Hpatch;
    destruct (scim_patch_user_run P cfg inst _ _ _ _ _ Hi Hpatch) as (Ht & Herr).
  - destruct (append_audit_returns P cfg "UPDATE_USER" "user"
                (VStr (lower (strip (row_str row "user_email")))) "SUCCESS" "patched"
                (VInt 200) resp (rename_patch composed) w2) as (w3 & Ha & Hc & _).
    unfold bind at 1. rewrite Ha. unfold ret. intros [= <- <-].
    split; [exact Hreads|]. split; [|split; eauto].
    eapply traffic_trans; [exact Ht|]. apply silent_traffic, Hc.
  - destruct (append_audit_returns P cfg "UPDATE_USER" "user"
                (VStr (lower (strip (row_str row "user_email")))) "FAILED" (str_exn ex)
                VNone VNone (rename_patch composed) w2) as (w3 & Ha & Hc & _).
    unfold bind at 1. rewrite Ha. unfold raise. intros [= <- <-].
    split; [exact Hreads|]. split; [|split].
    + eapply traffic_trans; [exact Ht|]. apply silent_traffic, Hc.
    + exact (Herr ex eq_refl).
    + intros Hcon. destruct (token_error_contained P ex Hcon (Herr ex eq_refl)).
Qed.

(** The reference directory has ann: one GET for the look-up, one PATCH, and
    the result is "updated". *)
Lemma rename_of_ann_is_reported_as_updated :
  exists resp w',
    update_user_handler (Sim.platform Sim.cfg0) Sim.cfg0 rename_ann_row (Sim.world_of Sim.d0)
    = (Ok (VDict [("status", VStr "updated"); ("resp", resp)]), w')
    /\ map method (calls w') = ["GET"; "PATCH"].
Proof.
  run_as Hfind (_find_user_by_email (Sim.platform Sim.cfg0) Sim.cfg0 "ann@x.io"
                  (Sim.world_of Sim.d0)).
  destruct (update_user_handler (Sim.platform Sim.cfg0) Sim.cfg0 rename_ann_row
              (Sim.world_of Sim.d0)) as [r w'] eqn:Hrun.
  destruct (update_reports_updated_whatever_the_answer _ (Sim.platform Sim.cfg0) Sim.cfg0
              "https://accounts.example/" rename_ann_row (Sim.world_of Sim.d0) _ w'
              _ (VStr "u1") r
              eq_refl eq_refl Hfind eq_refl eq_refl eq_refl eq_refl eq_refl Hrun)
    as (_ & _ & _ & Hok).
  destruct Hok as (resp & ->).
  { intros s e s' H. discriminate H. }
  exists resp, w'. split; [reflexivity|].
  run_as Hv (update_user_handler (Sim.platform Sim.cfg0) Sim.cfg0 rename_ann_row
               (Sim.world_of Sim.d0)).
  rewrite Hv in Hrun. injection Hrun as _ <-. reflexivity.
Defined.

(* ================================================================== *)
(** ** The per-row boundary, exactly *)
(* ================================================================== *)

(** Evaluate the comparisons of two literal strings in the goal. *)
Ltac eval_eqb :=
  repeat match goal with
         | |- context [String.eqb ?a ?b] =>
             let v := eval vm_compute in (String.eqb a b) in
             progress change (String.eqb a b) with v
         end.

Lemma raw_group_action (row : Row) (raw : string) :
  row_get row "action" = Some raw ->
  str_in raw ["CREATE_GROUP"; "ADD_TO_GROUP"; "REMOVE_FROM_GROUP"; "UPDATE_GROUP"] = true ->
  action_of row = "UPDATE_GROUP"
  \/ str_in (action_of row) ["CREATE_GROUP"; "ADD_TO_GROUP"; "REMOVE_FROM_GROUP"] = true.
Proof.
  intros Hraw H. unfold action_of, row_str. rewrite Hraw.
  unfold str_in in H. cbn [existsb] in H.
  repeat (apply orb_true_iff in H as [H|H]); try discriminate;
    apply String.eqb_eq in H; subst raw; vm_compute; auto.
Qed.

Lemma group_action_cases (a : string) :
  str_in a ["CREATE_GROUP"; "ADD_TO_GROUP"; "REMOVE_FROM_GROUP"] = true ->
  a = "CREATE_GROUP" \/ a = "ADD_TO_GROUP" \/ a = "REMOVE_FROM_GROUP".
Proof.
  unfold str_in. cbn [existsb]. intros H.
  repeat (apply orb_true_iff in H as [H|H]); try discriminate;
    apply String.eqb_eq in H; auto.
Qed.

Section Dispatcher.

Context {E : Type} (P : Platform E) (cfg : Config).

(** The three group handlers start by building the group name. *)
Lemma group_handlers_start_with_the_name (row : Row) (e : exn) (w : World E) :
  construct_group_name row = Raise e ->
  create_group_handler P cfg row w = (Raise e, w)
  /\ add_members_to_group_handler P cfg row w = (Raise e, w)
  /\ remove_members_from_group_handler P cfg row w = (Raise e, w).
Proof.
  intros H.
  unfold create_group_handler, add_members_to_group_handler,
    remove_members_from_group_handler, bind, lift.
  rewrite H. repeat split.
Qed.

(** The identifier of the returned mapping can be computed unless the row is
    named by its group and the name cannot be built. *)
Lemma final_identifier_returns (row : Row) (w : World E) :
  (named_by_group row = true -> exists name, construct_group_name row = Ok name) ->
  exists ident,
    (if env_truthy (row_get row "user_email") then ret (row_str row "user_email")
     else
       name <- (if str_in (action_of row) ["CREATE_GROUP"; "ADD_TO_GROUP"; "REMOVE_FROM_GROUP"]
                then lift (construct_group_name row) else ret EmptyString) ;;
       if nonempty name then ret name
       else ret (match opt_or (row_get row "admin") (Some EmptyString) with
                 | Some s => s
                 | None => EmptyString
                 end)) w
    = (@Ok string ident, w).
Proof.
  intros Hguard. unfold named_by_group in Hguard.
  destruct (env_truthy (row_get row "user_email")); [eexists; reflexivity|].
  destruct (str_in (action_of row) _).
  - destruct (Hguard eq_refl) as (name & Hname).
    unfold bind, lift. rewrite Hname. destruct (nonempty name); eexists; reflexivity.
  - unfold bind, ret. cbn [nonempty]. eexists; reflexivity.
Qed.

End Dispatcher.

(** X15. [process_row] raises exactly on a naming error.  A row is named by
    its group when its action is a group action and it has no user_email.
    Unless such a row's group name cannot be built, [process_row] returns
    its mapping (row, action, principal_type, identifier, result) on every
    platform: whatever the handler raised is in the result.  When the row is
    named by its group and [construct_group_name] raises, that error leaves
    [process_row]. *)
Theorem process_row_raises_exactly_on_a_naming_error :
  forall (E : Type) (P : Platform E) (cfg : Config) (ix : value) (row : Row)
         (w : World E),
    ((named_by_group row = true -> exists name, construct_group_name row = Ok name) ->
     exists (resp : value) (ident : string) (w' : World E),
       process_row P cfg ix row w = (Ok (row_result ix row ident resp), w'))
    /\ (forall e : exn,
           named_by_group row = true ->
           construct_group_name row = Raise e ->
           exists w', process_row P cfg ix row w = (Raise e, w')).
Proof.
  intros E P cfg ix row w. split.
  - intros Hguard. unfold process_row, row_result.
    change (upper (strip (row_str row "action"))) with (action_of row).
    unfold bind at 1.
    match goal with
    | |- context [try_except ?body ?handler w] =>
        destruct (try_except body handler w) as [[resp|e] w1] eqn:Htry
    end.
    + destruct (final_identifier_returns row w1 Hguard) as (ident & Hident).
      unfold bind at 1. rewrite Hident. eexists _, _, _. reflexivity.
    + exfalso. revert Htry. unfold try_except.
      match goal with
      | |- match ?body w with _ => _ end = _ -> _ =>
          destruct (body w) as [[a|e0] w0] eqn:Hbody
      end; [discriminate|].
      assert (Hid : exists ident,
                 (if match row_get row "action" with
                     | Some a => str_in a ["CREATE_GROUP"; "ADD_TO_GROUP";
                                           "REMOVE_FROM_GROUP"; "UPDATE_GROUP"]
                     | None => false
                     end
                  then
                    if env_truthy (row_get row "user_email")
                    then ret (row_str row "user_email")
                    else lift (construct_group_name row)
                  else ret EmptyString) w0 = (@Ok string ident, w0)).
      { destruct (row_get row "action") as [raw|] eqn:Hraw; [|eexists; reflexivity].
        destruct (str_in raw _) eqn:Hin; [|eexists; reflexivity].
        destruct (env_truthy (row_get row "user_email")) eqn:Hem; [eexists; reflexivity|].
        destruct (raw_group_action row raw Hraw Hin) as [Hupd|Hgrp].
        - exfalso. revert Hbody. rewrite Hupd. eval_eqb. unfold bind, ret.
          destruct (append_audit_returns P cfg "UPDATE_GROUP" "unknown" (VStr "") "FAILED"
                      "unknown action" VNone VNone VNone w) as (w2 & -> & _).
          discriminate.
        - destruct Hguard as (name & Hname).
          { unfold named_by_group. now rewrite Hgrp, Hem. }
          unfold lift. rewrite Hname. eexists; reflexivity. }
      destruct Hid as (ident & Hid).
      unfold bind at 1. rewrite Hid. unfold bind at 1.
      destruct (append_audit_returns P cfg (action_of row) "error" (VStr ident) "FAILED"
                  (str_exn e0) VNone VNone VNone w0) as (w2 & -> & _).
      discriminate.
  - intros e Hnamed Hname. unfold named_by_group in Hnamed.
    apply andb_true_iff in Hnamed as (Hgrp & Hem). apply negb_true_iff in Hem.
    destruct (group_handlers_start_with_the_name P cfg row e w Hname) as (Hc & Ha & Hr).
    unfold process_row.
    change (upper (strip (row_str row "action"))) with (action_of row).
    rewrite Hem, Hgrp.
    assert (Hbody :
              (if String.eqb (action_of row) "CREATE_USER" then create_user_handler P cfg row
               else if String.eqb (action_of row) "DELETE_USER"
                    then delete_user_handler P cfg row
               else if String.eqb (action_of row) "UPDATE_USER"
                    then update_user_handler P cfg row
               else if String.eqb (action_of row) "CREATE_GROUP"
                    then create_group_handler P cfg row
               else if String.eqb (action_of row) "ADD_TO_GROUP"
                    then add_members_to_group_handler P cfg row
               else if String.eqb (action_of row) "REMOVE_FROM_GROUP"
                    then remove_members_from_group_handler P cfg row
               else
                 append_audit P cfg (action_of row) "unknown" (VStr "") "FAILED"
                   "unknown action" VNone VNone VNone ;;
                 ret (VDict [("error", VStr ("unknown action: " ++ action_of row))])) w
              = (Raise e, w)).
    { destruct (group_action_cases _ Hgrp) as [->|[->| ->]]; eval_eqb; assumption. }
    unfold bind at 1. unfold try_except. rewrite Hbody.
    destruct (match row_get row "action" with
              | Some a => str_in a ["CREATE_GROUP"; "ADD_TO_GROUP"; "REMOVE_FROM_GROUP";
                                    "UPDATE_GROUP"]
              | None => false
              end).
    + unfold bind at 1. unfold lift at 1. rewrite Hname. eexists; reflexivity.
    + unfold bind at 1. unfold ret at 1. unfold bind at 1.
      destruct (append_audit_returns P cfg (action_of row) "error" (VStr EmptyString)
                  "FAILED" (str_exn e) VNone VNone VNone w) as (w2 & -> & _).
      unfold ret at 1. unfold bind at 1. unfold bind at 1. unfold lift at 1.
      rewrite Hname. eexists; reflexivity.
Qed.

(** A group row with an unknown member: the handler's error is in the result.
    The same row without a unit override: the naming error leaves
    [process_row]. *)
Lemma process_row_contains_a_handler_error :
  (exists w',
      process_row (Sim.platform Sim.cfg0) Sim.cfg0 (VInt 0) unknown_member_row
        (Sim.world_of Sim.d0)
      = (Ok (row_result (VInt 0) unknown_member_row "prod_TMFinance_Ledger_admins"
               (VDict [("error",
                        VStr "Cannot create group. These users do not exist: zed@x.io")])),
         w'))
  /\ (exists w',
         process_row (Sim.platform Sim.cfg0) Sim.cfg0 (VInt 0) others_without_override
           (Sim.world_of Sim.d0)
         = (Raise (ValueError "other_type is required when bu is 'Others'"), w')).
Proof.
  split.
  - destruct (process_row_raises_exactly_on_a_naming_error _ (Sim.platform Sim.cfg0) Sim.cfg0
                (VInt 0) unknown_member_row (Sim.world_of Sim.d0)) as (H & _).
    destruct H as (resp & ident & w' & Hrun).
    { intros _. eexists. reflexivity. }
    exists w'. rewrite Hrun.
    run_as Hc (process_row (Sim.platform Sim.cfg0) Sim.cfg0 (VInt 0) unknown_member_row
                 (Sim.world_of Sim.d0)).
    rewrite Hc in Hrun. injection Hrun as <- <- <-. reflexivity.
  - destruct (process_row_raises_exactly_on_a_naming_error _ (Sim.platform Sim.cfg0) Sim.cfg0
                (VInt 0) others_without_override (Sim.world_of Sim.d0)) as (_ & H).
    exact (H _ eq_refl eq_refl).
Defined.

(** X16. An action [process_row] does not know is answered, not executed: the
    result is the error "unknown action: <ACTION>", no handler runs and no
    request is issued. *)
Theorem unknown_action_is_reported_without_requests :
  forall (E : Type) (P : Platform E) (cfg : Config) (ix : value) (row : Row)
         (w : World E),
    str_in (action_of row) known_actions = false ->
    exists (ident : string) (w' : World E),
      process_row P cfg ix row w
      = (Ok (row_result ix row ident
               (VDict [("error", VStr ("unknown action: " ++ action_of row))])), w')
      /\ calls w' = calls w.
Proof.
  intros E P cfg ix row w Hunknown.
  unfold known_actions, str_in in Hunknown. cbn [existsb] in Hunknown.
  apply orb_false_iff in Hunknown as (H1 & Hunknown).
  apply orb_false_iff in Hunknown as (H2 & Hunknown).
  apply orb_false_iff in Hunknown as (H3 & Hunknown).
  apply orb_false_iff in Hunknown as (H4 & Hunknown).
  apply orb_false_iff in Hunknown as (H5 & Hunknown).
  apply orb_false_iff in Hunknown as (H6 & _).
  unfold process_row, row_result.
  change (upper (strip (row_str row "action"))) with (action_of row).
  rewrite H1, H2, H3, H4, H5, H6.
  unfold bind at 1. unfold try_except. unfold bind at 1.
  destruct (append_audit_returns P cfg (action_of row) "unknown" (VStr "") "FAILED"
              "unknown action" VNone VNone VNone w) as (w1 & -> & Hc & _).
  unfold ret at 1.
  assert (Hgrp : str_in (action_of row) ["CREATE_GROUP"; "ADD_TO_GROUP"; "REMOVE_FROM_GROUP"]
                 = false).
  { unfold str_in. cbn [existsb]. now rewrite H4, H5, H6. }
  destruct (final_identifier_returns row w1) as (ident & Hident).
  { unfold named_by_group. rewrite Hgrp. discriminate. }
  unfold bind at 1. rewrite Hident. exists ident, w1. split; [reflexivity | exact Hc].
Qed.

Lemma rename_is_an_unknown_action :
  str_in (action_of rename_row) known_actions = false
  /\ exists w',
       process_row (Sim.platform Sim.cfg0) Sim.cfg0 (VInt 7) rename_row (Sim.world_of Sim.d0)
       = (Ok (VDict [("row", VInt 7);
                     ("action", VStr "RENAME_USER");
                     ("principal_type", VStr "user");
                     ("identifier", VStr "ann@x.io");
                     ("result", VDict [("error", VStr "unknown action: RENAME_USER")])]),
          w')
       /\ calls w' = [].
Proof.
  split; [reflexivity|].
  destruct (unknown_action_is_reported_without_requests _ (Sim.platform Sim.cfg0) Sim.cfg0
              (VInt 7) rename_row (Sim.world_of Sim.d0) eq_refl) as (ident & w' & Hrun & Hc).
  exists w'. split; [|exact Hc]. rewrite Hrun.
  run_as Hv (process_row (Sim.platform Sim.cfg0) Sim.cfg0 (VInt 7) rename_row
               (Sim.world_of Sim.d0)).
  rewrite Hv in Hrun. injection Hrun as <- <-. reflexivity.
Defined.

(* ================================================================== *)
(** ** The onboarding route always answers *)
(* ================================================================== *)

(** X17. The onboarding route never raises.  On every form and platform
    [onboard_project_post] returns either the handler's result with status
    200 or an error mapping with status 500.  A form whose application name
    is blank is answered with 500 and "Application name is required", and no
    request is issued. *)
Theorem onboarding_route_always_answers :
  forall (E : Type) (P : Platform E) (cfg : Config) (form_data : Row) (w : World E),
    (exists (results : value) (code : Z) (w' : World E),
        onboard_project_post P cfg form_data w = (Ok (results, code), w')
        /\ (code = 200%Z
            \/ (code = 500%Z /\ exists msg, results = VDict [("error", VStr msg)])))
    /\ (app_name_of form_data = EmptyString ->
        exists w',
          onboard_project_post P cfg form_data w
          = (Ok (VDict [("error", VStr "Application name is required")], 500%Z), w')
          /\ calls w' = calls w).
Proof.
  intros E P cfg form_data w. split.
  - unfold onboard_project_post, try_except. unfold bind at 1.
    destruct (onboard_project_handler P cfg form_data w) as [[results|e] w1].
    + eexists _, _, _. split; [reflexivity|]. now left.
    + unfold bind.
      match goal with
      | |- context [append_audit P cfg ?a ?p ?i ?s ?d ?rc ?rb ?rp w1] =>
          destruct (append_audit_returns P cfg a p i s d rc rb rp w1) as (w2 & -> & _)
      end.
      eexists _, _, _. split; [reflexivity|]. right. split; [reflexivity|]. eauto.
  - intros Hname. unfold app_name_of in Hname.
    unfold onboard_project_post, try_except. unfold bind at 1.
    unfold onboard_project_handler. rewrite Hname. cbn [nonempty negb].
    unfold raise at 1. unfold bind. cbn [str_exn].
    match goal with
    | |- context [append_audit P cfg ?a ?p ?i ?s ?d ?rc ?rb ?rp w] =>
        destruct (append_audit_returns P cfg a p i s d rc rb rp w) as (w2 & -> & Hc & _)
    end.
    exists w2. split; [reflexivity | exact Hc].
Qed.

Lemma onboarding_of_a_nameless_form :
  app_name_of nameless_form = EmptyString
  /\ exists w',
       onboard_project_post (Sim.platform Sim.cfg0) Sim.cfg0 nameless_form
         (Sim.world_of Sim.d0)
       = (Ok (VDict [("error", VStr "Application name is required")], 500%Z), w')
       /\ calls w' = [].
Proof.
  split; [reflexivity|].
  destruct (onboarding_route_always_answers _ (Sim.platform Sim.cfg0) Sim.cfg0 nameless_form
              (Sim.world_of Sim.d0)) as (_ & H).
  exact (H eq_refl).
Defined.

(* ================================================================== *)
(** ** The audit trail: shape, stores and context *)
(* ================================================================== *)

Section AuditShape.

Context {E : Type} (P : Platform E) (cfg : Config).

Lemma audit_row_columns (ts : string) (ctx : list (string * value))
    (action principal : string) (identifier : value) (status details : string)
    (rc rb rp : value) :
  map fst (audit_row P ts ctx action principal identifier status details rc rb rp)
  = EXPECTED_COLUMNS.
Proof. reflexivity. Qed.

Lemma csv_append_well_formed (f : option (list csv_line)) (row : list (string * value)) :
  map fst row = EXPECTED_COLUMNS ->
  well_formed_audit_file f ->
  well_formed_audit_file (csv_append f row).
Proof.
  intros Hcols Hf. destruct f as [ls|]; cbn [csv_append well_formed_audit_file] in *.
  - destruct Hf as (rows & -> & Hrows).
    exists (rows ++ [map snd row])%list. split.
    + now rewrite map_app.
    + apply Forall_app. split; [assumption|].
      constructor; [|constructor]. now rewrite length_map, <- Hcols, length_map.
  - exists [map snd row]. split; [now rewrite Hcols|].
    constructor; [|constructor]. now rewrite length_map, <- Hcols, length_map.
Qed.

Lemma append_to_file_well_formed (row : list (string * value)) :
  map fst row = EXPECTED_COLUMNS ->
  forall (w w' : World E) (r : res bool),
    _append_to_file P row w = (r, w') ->
    well_formed_audit_file (audit_file w) ->
    well_formed_audit_file (audit_file w').
Proof.
  intros Hcols w w' r. unfold _append_to_file.
  destruct (fs_error P (ext w)); intros [= _ <-]; [trivial|].
  cbn [audit_file set_audit_file]. now apply csv_append_well_formed.
Qed.

End AuditShape.

(** X18. The audit file keeps its shape.  A file that is absent, or that
    starts with the header of [EXPECTED_COLUMNS] and holds one cell per
    column in every record, is still of that shape after any call of
    [append_audit], whichever store the record went to. *)
Theorem append_audit_keeps_the_file_well_formed :
  forall (E : Type) (P : Platform E) (cfg : Config)
         (action principal : string) (identifier : value) (status details : string)
         (rc rb rp : value) (w w' : World E) (r : res unit),
    well_formed_audit_file (audit_file w) ->
    append_audit P cfg action principal identifier status details rc rb rp w = (r, w') ->
    well_formed_audit_file (audit_file w').
Proof.
  intros E P cfg action principal identifier status details rc rb rp w w' r Hwf.
  unfold append_audit.
  set (row := audit_row _ _ _ _ _ _ _ _ _ _ _).
  assert (Hcols : map fst row = EXPECTED_COLUMNS) by apply audit_row_columns.
  assert (Hfile : forall w0 w1 (x : res unit),
             (_append_to_file P row ;; ret tt) w0 = (x, w1) ->
             well_formed_audit_file (audit_file w0) ->
             well_formed_audit_file (audit_file w1)).
  { intros w0 w1 x. unfold bind.
    destruct (_append_to_file P row w0) as [[b|e] w2] eqn:Hf; intros [= _ <-];
      eapply append_to_file_well_formed; eassumption. }
  destruct (String.eqb (AUDIT_MODE cfg) "delta" && _is_databricks_env cfg).
  - unfold try_except.
    destruct ((ensure_audit_table_sql P cfg ;; insert_audit_sql P cfg row) w)
      as [[[]|e] w1] eqn:Hp;
      pose proof (primary_write_only_ext P cfg _ _ _ _ Hp) as (_ & _ & _ & Hsame).
    + intros [= _ <-]. now rewrite Hsame.
    + intros Hrun. eapply Hfile; [exact Hrun|]. now rewrite Hsame.
  - intros Hrun. eapply Hfile; eassumption.
Qed.

(** The first record of a run that has the file store only: the file is
    created with the header and one record of thirteen cells. *)
Lemma first_record_creates_a_well_formed_file :
  well_formed_audit_file (audit_file (Sim.world_of Sim.d0))
  /\ exists w' cells,
       append_audit (Sim.platform Sim.cfg0)
         {| INSTANCE := Some "https://accounts.example/"; WORKSPACE_INSTANCE := None;
            ACCOUNT := Some "acc-1"; WORKSPACE_TOKEN := None; DATABRICKS_HTTP_PATH := None;
            AUDIT_MODE := "delta"; AUDIT_FILE_PATH := "./logs/audit_log.csv";
            AUDIT_DELTA_TABLE := "t" |}
         "CREATE_USER" "user" (VStr "ann@x.io") "SKIPPED" "already_exists"
         VNone VNone VNone (Sim.world_of Sim.d0) = (Ok tt, w')
       /\ audit_file w' = Some [Header EXPECTED_COLUMNS; Data cells]
       /\ length cells = 13%nat
       /\ well_formed_audit_file (audit_file w').
Proof.
  split; [exact I|].
  run_as Hrun (append_audit (Sim.platform Sim.cfg0)
         {| INSTANCE := Some "https://accounts.example/"; WORKSPACE_INSTANCE := None;
            ACCOUNT := Some "acc-1"; WORKSPACE_TOKEN := None; DATABRICKS_HTTP_PATH := None;
            AUDIT_MODE := "delta"; AUDIT_FILE_PATH := "./logs/audit_log.csv";
            AUDIT_DELTA_TABLE := "t" |}
         "CREATE_USER" "user" (VStr "ann@x.io") "SKIPPED" "already_exists"
         VNone VNone VNone (Sim.world_of Sim.d0)).
  pose proof (append_audit_keeps_the_file_well_formed _ _ _ _ _ _ _ _ _ _ _
                (Sim.world_of Sim.d0) _ _ I Hrun)
    as Hwf.
  eexists _, _. split; [exact Hrun|]. split; [reflexivity|]. split; [reflexivity|exact Hwf].
Defined.

(** X19. One record, one store.  When the primary store is selected and its
    write succeeds, [append_audit] leaves the audit file alone.  When it is
    not selected, the SQL endpoint is not contacted and the record goes to the
    file if the file can be written.  When the primary write raises and the
    file cannot be written either, the record is dropped: the call still
    returns normally and the file is as it was. *)
Theorem append_audit_writes_to_one_store :
  forall (E : Type) (P : Platform E) (cfg : Config)
         (action principal : string) (identifier : value) (status details : string)
         (rc rb rp : value) (w : World E),
    (primary_selected cfg = true ->
     forall w1 : World E,
       (ensure_audit_table_sql P cfg ;;
        insert_audit_sql P cfg
          (audit_row P (utcnow P (ext w) ++ "Z") (audit_context w) action principal
             identifier status details rc rb rp)) w = (Ok tt, w1) ->
       append_audit P cfg action principal identifier status details rc rb rp w = (Ok tt, w1)
       /\ audit_file w1 = audit_file w)
    /\ (primary_selected cfg = false ->
        exists w',
          append_audit P cfg action principal identifier status details rc rb rp w
          = (Ok tt, w')
          /\ ext w' = ext w
          /\ audit_file w'
             = match fs_error P (ext w) with
               | None => csv_append (audit_file w)
                           (audit_row P (utcnow P (ext w) ++ "Z") (audit_context w) action
                              principal identifier status details rc rb rp)
               | Some _ => audit_file w
               end)
    /\ (primary_selected cfg = true ->
        forall (e : exn) (w1 : World E),
          (ensure_audit_table_sql P cfg ;;
           insert_audit_sql P cfg
             (audit_row P (utcnow P (ext w) ++ "Z") (audit_context w) action principal
                identifier status details rc rb rp)) w = (Raise e, w1) ->
          fs_error P (ext w1) <> None ->
          append_audit P cfg action principal identifier status details rc rb rp w
          = (Ok tt, w1)
          /\ audit_file w1 = audit_file w).
Proof.
  intros E P cfg action principal identifier status details rc rb rp w.
  unfold primary_selected. split; [|split].
  - intros Hmode w1 Hprim.
    pose proof (primary_write_only_ext P cfg _ _ _ _ Hprim) as (_ & _ & _ & Hfile).
    unfold append_audit. rewrite Hmode. unfold try_except. rewrite Hprim. split; trivial.
  - intros Hmode. unfold append_audit. rewrite Hmode.
    unfold bind, _append_to_file.
    destruct (fs_error P (ext w)); eexists; repeat split.
  - intros Hmode e w1 Hprim Hfs.
    pose proof (primary_write_only_ext P cfg _ _ _ _ Hprim) as (_ & _ & _ & Hfile).
    unfold append_audit. rewrite Hmode. unfold try_except. rewrite Hprim.
    unfold bind, _append_to_file.
    destruct (fs_error P (ext w1)); [|congruence]. split; trivial.
Qed.

(** The SQL endpoint refuses the connection and the disk is read-only: the
    call returns and no file exists afterwards. *)
Lemma append_audit_drops_the_record_without_a_store :
  primary_selected Sim.cfg0 = true
  /\ exists w1,
       append_audit (Sim.platform Sim.cfg0) Sim.cfg0 "CREATE_USER" "user" (VStr "ann@x.io")
         "SKIPPED" "already_exists" VNone VNone VNone (Sim.world_of d_no_store)
       = (Ok tt, w1)
       /\ audit_file w1 = None.
Proof.
  split; [reflexivity|].
  destruct (append_audit_writes_to_one_store _ (Sim.platform Sim.cfg0) Sim.cfg0
              "CREATE_USER" "user" (VStr "ann@x.io") "SKIPPED" "already_exists"
              VNone VNone VNone (Sim.world_of d_no_store)) as (_ & _ & H).
  run_as Hprim ((ensure_audit_table_sql (Sim.platform Sim.cfg0) Sim.cfg0 ;;
                 insert_audit_sql (Sim.platform Sim.cfg0) Sim.cfg0
                   (audit_row (Sim.platform Sim.cfg0)
                      (utcnow (Sim.platform Sim.cfg0) (ext (Sim.world_of d_no_store)) ++ "Z")
                      (audit_context (Sim.world_of d_no_store)) "CREATE_USER" "user"
                      (VStr "ann@x.io") "SKIPPED" "already_exists" VNone VNone VNone))
                  (Sim.world_of d_no_store)).
  destruct (H eq_refl _ _ Hprim ltac:(discriminate)) as (Hrun & Hfile).
  eexists. split; [exact Hrun | exact Hfile].
Defined.

Lemma dict_set_keys {A} (k : string) (v : A) (d : list (string * A)) :
  map fst (dict_set k v d) = map fst d.
Proof.
  induction d as [|[k' v'] d IH]; [reflexivity|].
  cbn [dict_set]. destruct (String.eqb k' k); cbn [map fst]; [reflexivity|now rewrite IH].
Qed.

Lemma dict_set_unknown {A} (k : string) (v : A) (d : list (string * A)) :
  assoc k d = None -> dict_set k v d = d.
Proof.
  induction d as [|[k' v'] d IH]; [reflexivity|].
  cbn [assoc dict_set]. destruct (String.eqb k' k); [discriminate|].
  intros H. now rewrite IH.
Qed.

Lemma set_context_keys (kwargs : list (string * value)) :
  forall ctx,
    map fst (fold_left (fun c kv => dict_set (fst kv) (snd kv) c) kwargs ctx) = map fst ctx.
Proof.
  induction kwargs as [|kv kwargs IH]; intros ctx; [reflexivity|].
  cbn [fold_left]. now rewrite IH, dict_set_keys.
Qed.

Lemma set_context_unknown (kwargs : list (string * value)) :
  forall ctx,
    Forall (fun kv => assoc (fst kv) ctx = None) kwargs ->
    fold_left (fun c kv => dict_set (fst kv) (snd kv) c) kwargs ctx = ctx.
Proof.
  induction kwargs as [|kv kwargs IH]; intros ctx Hall; [reflexivity|].
  inversion Hall as [|? ? Hkv Hrest]; subst.
  cbn [fold_left]. rewrite dict_set_unknown by assumption. now apply IH.
Qed.

(** X20. The audit context has a fixed set of keys.  [set_audit_context]
    never adds a key: the keys after the call are the keys before it, and
    keyword arguments that are not keys of the context (such as the [run_by]
    and [action] the routes pass) change nothing.  [clear_audit_context]
    resets every key to [None], whatever was set before. *)
Theorem audit_context_keeps_its_keys :
  forall (E : Type) (kwargs : list (string * value)) (w : World E),
    map fst (audit_context (snd (set_audit_context kwargs w))) = map fst (audit_context w)
    /\ (Forall (fun kv => assoc (fst kv) (audit_context w) = None) kwargs ->
        set_audit_context kwargs w = (Ok tt, w))
    /\ audit_context (snd (clear_audit_context (snd (set_audit_context kwargs w))))
       = map (fun k => (k, VNone)) (map fst (audit_context w)).
Proof.
  intros E kwargs w. unfold set_audit_context, clear_audit_context.
  cbn [snd audit_context set_context]. split; [|split].
  - apply set_context_keys.
  - intros Hall. rewrite set_context_unknown by assumption. now destruct w.
  - rewrite <- (set_context_keys kwargs (audit_context w)). now rewrite map_map.
Qed.

(** Arguments that are not keys of the context are dropped: of the run id and
    the [run_by] the upload route passes, only the run id is kept. *)
Lemma run_by_is_not_recorded :
  set_audit_context [("run_by", VStr "ann@x.io"); ("action", VStr "ONBOARD_PROJECT")]
    (Sim.world_of Sim.d0)
  = (Ok tt, Sim.world_of Sim.d0)
  /\ audit_context (snd (set_audit_context [("run_id", VStr "sync_1");
                                            ("run_by", VStr "ann@x.io")]
                           (Sim.world_of Sim.d0)))
     = [("run_id", VStr "sync_1"); ("admin", VNone); ("file_path", VNone);
        ("row_id", VNone); ("request_payload", VNone); ("response_code", VNone);
        ("response_body", VNone)].
Proof.
  destruct (audit_context_keeps_its_keys _
              [("run_by", VStr "ann@x.io"); ("action", VStr "ONBOARD_PROJECT")]
              (Sim.world_of Sim.d0)) as (_ & H & _).
  split; [|reflexivity].
  apply H. repeat constructor.
Defined.

(** X21. A failure of the SQL store loses its cause.  The [except] clauses of
    [get_sql_connection] and [ensure_audit_table_sql] name an exception class
    the module never defines, so whatever goes wrong inside them (missing
    connection settings, a refused connection, a failing statement) is raised
    as the [NameError] for "AuthenticationError"; [ensure_audit_table_sql]
    does not swallow the failure. *)
Theorem sql_failures_surface_as_name_errors :
  forall (E : Type) (P : Platform E) (cfg : Config) (w w' : World E) (e : exn),
    (get_sql_connection P cfg w = (Raise e, w') -> e = undefined_AuthenticationError)
    /\ (ensure_audit_table_sql P cfg w = (Raise e, w') -> e = undefined_AuthenticationError).
Proof.
  intros E P cfg w w' e. split.
  - unfold get_sql_connection, try_except, raise.
    match goal with
    | |- match ?m with _ => _ end = _ -> _ => destruct m as [[[]|e0] w0]
    end; [discriminate|]. now intros [= <- _].
  - unfold ensure_audit_table_sql, try_except, raise.
    match goal with
    | |- match ?m with _ => _ end = _ -> _ => destruct m as [[[]|e0] w0]
    end; [discriminate|]. now intros [= <- _].
Qed.

Lemma refused_connection_surfaces_as_a_name_error :
  get_sql_connection (Sim.platform Sim.cfg0) Sim.cfg0 (Sim.world_of d_no_store)
  = (Raise (NameError "name 'AuthenticationError' is not defined"), Sim.world_of d_no_store)
  /\ undefined_AuthenticationError = NameError "name 'AuthenticationError' is not defined".
Proof.
  run_as Hrun (get_sql_connection (Sim.platform Sim.cfg0) Sim.cfg0 (Sim.world_of d_no_store)).
  destruct (sql_failures_surface_as_name_errors _ (Sim.platform Sim.cfg0) Sim.cfg0
              (Sim.world_of d_no_store) (Sim.world_of d_no_store)
              (NameError "name 'AuthenticationError' is not defined")) as (H & _).
  split; [exact Hrun | exact (eq_sym (H Hrun))].
Defined.

(* ================================================================== *)
(** ** Success means the platform said so *)
(* ================================================================== *)

Section Origin.

Context {E : Type} (P : Platform E).

Lemma send_once_origin (rq : request) (w w' : World E) (r : response) :
  send_once P rq w = (Ok (Done r), w') -> answered P rq r.
Proof.
  unfold send_once, _auth_headers, requests_request, ret.
  destruct (truthy (headers rq)).
  - match goal with
    | |- context [http_send P ?q ?s] => destruct (http_send P q s) as [x e] eqn:Hs
    end.
    intros [= -> _]. eexists _, _, _. split; [|exact Hs]. repeat split.
  - destruct (get_dbx_access_token P (ext w)) as [[tok|ex] e];
      [|destruct ex; discriminate].
    match goal with
    | |- context [http_send P ?q ?s] => destruct (http_send P q s) as [x e'] eqn:Hs
    end.
    intros [= -> _]. eexists _, _, _. split; [|exact Hs]. repeat split.
Qed.

Lemma loop_origin (rq : request) (retries : Z) (n : nat) :
  forall (a d : Z) (w w' : World E) (o : value),
    safe_request_loop P n a d retries rq w = (Ok o, w') ->
    o = VNone
    \/ (exists msg, o = outcome_of_failure rq retries msg)
    \/ (exists r, answered P rq r /\ o = outcome_of_response rq r).
Proof.
  induction n as [|n IH]; intros a d w w' o; cbn [safe_request_loop].
  - intros [= <- _]. now left.
  - unfold bind at 1.
    destruct (send_once P rq w) as [[[r|msg]|e] w0] eqn:Hs; [| |discriminate].
    + intros [= <- _]. right. right. exists r. split; [|reflexivity].
      eapply send_once_origin, Hs.
    + destruct (a =? retries)%Z.
      * intros [= <- _]. right. left. eauto.
      * unfold bind, time_sleep. apply IH.
Qed.

(** An outcome with a status other than 0 is the outcome of a response the
    platform gave. *)
Lemma safe_request_status (rq : request) (retries : Z) (w w' : World E)
    (o sc : value) (n : Z) :
  _safe_request P rq retries w = (Ok o, w') ->
  py_get o "status_code" = Ok sc ->
  eq_int sc n = true ->
  n <> 0%Z ->
  exists r, answered P rq r /\ status_code r = n /\ o = outcome_of_response rq r.
Proof.
  intros Hrun Hsc Hn Hnz.
  destruct (loop_origin rq retries _ _ _ _ _ _ Hrun) as [->|[(msg & ->)|(r & Hr & ->)]].
  - discriminate.
  - cbn in Hsc. injection Hsc as <-. unfold eq_int in Hn. apply Z.eqb_eq in Hn. congruence.
  - rewrite response_status in Hsc. injection Hsc as <-. unfold eq_int in Hn.
    apply Z.eqb_eq in Hn. eauto.
Qed.

Lemma answered_any_headers (m : string) (u : option string) (h p j : value) (r : response) :
  answered P (mk_request m u h p j) r -> answered P (mk_request m u VNone p j) r.
Proof. intros (rq' & e & e' & Hs & Hr). exists rq', e, e'. split; assumption. Qed.

End Origin.

Section Workspace.

Context {E : Type} (P : Platform E) (cfg : Config).

Lemma put_access_control_list_needs_a_200 (path : string) (acl_list : value) (what : string)
    (w w' : World E) (v : value) :
  put_access_control_list P cfg path acl_list what w = (Ok v, w') ->
  v = VNone
  /\ exists r,
       answered P (ws_request cfg "PUT" path VNone (VDict [("access_control_list", acl_list)])) r
       /\ status_code r = 200%Z.
Proof.
  unfold put_access_control_list. unfold bind at 1.
  destruct (_auth_headers P w) as [[h|e] w0]; [|discriminate].
  unfold bind at 1.
  destruct (_safe_request P _ FAST_RETRIES w0) as [[o|e] w1] eqn:Hreq; [|discriminate].
  unfold bind at 1. unfold lift at 1.
  destruct (py_get o "status_code") as [sc|e] eqn:Hsc; [|discriminate].
  destruct (eq_int sc 200) eqn:H200.
  - intros [= <- _]. split; [reflexivity|].
    destruct (safe_request_status P _ _ _ _ _ _ _ Hreq Hsc H200 ltac:(lia))
      as (r & Hr & Hst & _).
    exists r. split; [|exact Hst]. eapply answered_any_headers, Hr.
  - unfold bind, lift, raise.
    destruct (py_get o "error"); [|discriminate].
    destruct (py_get o "body"); discriminate.
Qed.

Lemma first_resource_id_traffic (Q : request -> Prop) (body : value) :
  preserves (traffic Q) (@first_resource_id E body).
Proof. unfold first_resource_id. repeat traffic_step. Qed.

Lemma get_object_id_truthy (object_name : string) (w w' : World E) (v : value) :
  get_object_id P cfg object_name w = (Ok v, w') -> truthy v = true.
Proof.
  unfold get_object_id. unfold bind at 1.
  destruct (_auth_headers P w) as [[h|e] w0]; [|discriminate].
  unfold bind at 1.
  destruct (_safe_request P _ FAST_RETRIES w0) as [[o|e] w1]; [|discriminate].
  unfold bind at 1. unfold lift at 1.
  destruct (py_get o "status_code") as [sc|e]; [|discriminate].
  unfold bind at 1. unfold lift at 1.
  destruct (py_get_default o "body" (VDict [])) as [b|e]; [|discriminate].
  destruct (eq_int sc 200).
  - unfold bind at 1. unfold lift at 1.
    destruct (py_get b "object_id") as [i|e]; [|discriminate].
    destruct (truthy i) eqn:Hi; [|discriminate]. now intros [= <- _].
  - unfold bind, lift, raise.
    destruct (py_get o "error"); [|discriminate].
    destruct (eq_int sc 404); discriminate.
Qed.

End Workspace.

(** X22. The cluster and warehouse permission setters skip a missing id
    silently and otherwise succeed on a 200 only.  With a falsy id (None or
    the empty string) they return without any request and without an error.
    With an id, whenever one of them returns normally the platform answered
    the PUT of the whole access-control list to the permissions endpoint of
    that id with status 200; any other answer, a 201 or 204 included, does
    not count as success. *)
Theorem permission_setters_skip_or_need_a_200 :
  forall (E : Type) (P : Platform E) (cfg : Config) (id acl_list : value) (w : World E),
    (truthy id = false ->
     set_all_cluster_permissions P cfg id acl_list w = (Ok VNone, w)
     /\ set_all_sql_warehouse_permissions P cfg id acl_list w = (Ok VNone, w))
    /\ (truthy id = true ->
        forall (v : value) (w' : World E),
          (set_all_cluster_permissions P cfg id acl_list w = (Ok v, w') ->
           exists r,
             answered P (ws_request cfg "PUT" ("/api/2.0/permissions/clusters/" ++ py_str P id)
                           VNone (VDict [("access_control_list", acl_list)])) r
             /\ status_code r = 200%Z)
          /\ (set_all_sql_warehouse_permissions P cfg id acl_list w = (Ok v, w') ->
              exists r,
                answered P (ws_request cfg "PUT"
                              ("/api/2.0/permissions/sql/warehouses/" ++ py_str P id)
                              VNone (VDict [("access_control_list", acl_list)])) r
                /\ status_code r = 200%Z)).
Proof.
  intros E P cfg id acl_list w.
  unfold set_all_cluster_permissions, set_all_sql_warehouse_permissions.
  split; intros Hid; rewrite Hid; cbn [negb].
  - split; reflexivity.
  - intros v w'. split; intros Hrun;
      apply put_access_control_list_needs_a_200 in Hrun as (_ & Hr); exact Hr.
Qed.

(** The platform answers 204 to the PUT: the setter raises.  No id: the setter
    returns at once. *)
Lemma permission_setter_on_examples :
  set_all_cluster_permissions Script.platform Sim.cfg0 (VStr "") (VList [])
    (Script.world_of [])
  = (Ok VNone, Script.world_of [])
  /\ (exists r,
         answered Script.platform
           (ws_request Sim.cfg0 "PUT" "/api/2.0/permissions/clusters/c1" VNone
              (VDict [("access_control_list", VList [])])) r
         /\ status_code r = 200%Z)
  /\ fst (set_all_cluster_permissions Script.platform Sim.cfg0 (VStr "c1") (VList [])
            (Script.world_of [Sim.no_content]))
     = Raise (RuntimeError "Failed to set cluster permissions for 'c1'. API Error: {}").
Proof.
  destruct (permission_setters_skip_or_need_a_200 _ Script.platform Sim.cfg0 (VStr "")
              (VList []) (Script.world_of [])) as (Hskip & _).
  destruct (permission_setters_skip_or_need_a_200 _ Script.platform Sim.cfg0 (VStr "c1")
              (VList []) (Script.world_of [Done (Script.ok_200 (VDict []))])) as (_ & Hput).
  split; [exact (proj1 (Hskip eq_refl))|]. split.
  - run_as Hrun (set_all_cluster_permissions Script.platform Sim.cfg0 (VStr "c1") (VList [])
                   (Script.world_of [Done (Script.ok_200 (VDict []))])).
    exact (proj1 (Hput eq_refl _ _) Hrun).
  - vm_compute. reflexivity.
Defined.

(** X23. Folder permissions are never skipped silently.  [get_object_id]
    returns only ids that are not empty (it raises otherwise), so whenever
    [set_all_folder_permissions] returns normally, the look-up returned an id
    and the platform answered the PUT of the access-control list for that id
    with status 200. *)
Theorem folder_permissions_are_never_skipped :
  forall (E : Type) (P : Platform E) (cfg : Config) (folder_path : string)
         (acl_list : value) (w w' : World E) (v : value),
    set_all_folder_permissions P cfg folder_path acl_list w = (Ok v, w') ->
    exists (id : value) (w1 : World E) (r : response),
      get_object_id P cfg folder_path w = (Ok id, w1)
      /\ truthy id = true
      /\ answered P (ws_request cfg "PUT" ("/api/2.0/permissions/directories/" ++ py_str P id)
                       VNone (VDict [("access_control_list", acl_list)])) r
      /\ status_code r = 200%Z.
Proof.
  intros E P cfg folder_path acl_list w w' v.
  unfold set_all_folder_permissions. unfold bind at 1.
  destruct (get_object_id P cfg folder_path w) as [[id|e] w1] eqn:Hid; [|discriminate].
  rewrite (get_object_id_truthy P cfg _ _ _ _ Hid). cbn [negb].
  intros Hrun. apply put_access_control_list_needs_a_200 in Hrun as (_ & r & Hr & Hst).
  exists id, w1, r. repeat split; try assumption.
  eapply get_object_id_truthy, Hid.
Qed.

Lemma folder_permissions_on_an_example :
  exists (id : value) (r : response),
    truthy id = true
    /\ answered Script.platform
         (ws_request Sim.cfg0 "PUT" ("/api/2.0/permissions/directories/"
                                     ++ py_str Script.platform id)
            VNone (VDict [("access_control_list", VList [])])) r
    /\ status_code r = 200%Z.
Proof.
  run_as Hrun (set_all_folder_permissions Script.platform Sim.cfg0 "/Workspace/ledger"
                 (VList [])
                 (Script.world_of [Done (Script.ok_200 (VDict [("object_id", VInt 42)]));
                                   Done (Script.ok_200 (VDict []))])).
  destruct (folder_permissions_are_never_skipped _ _ _ _ _ _ _ _ Hrun)
    as (id & w1 & r & _ & Hid & Hr & Hst).
  exists id, r. repeat split; assumption.
Defined.

Section Groups.

Context {E : Type} (P : Platform E) (cfg : Config).

Lemma get_group_id_reads (group_name : string) :
  preserves (traffic (fun r => is_get r /\ goes_to cfg "/api/2.0/preview/scim/v2/Groups" r))
    (get_group_id P cfg group_name).
Proof.
  unfold get_group_id.
  traffic_step; [apply auth_headers_traffic|].
  traffic_step.
  { apply safe_request_traffic. intros r (Hm & Hu & _). split; assumption. }
  repeat first [ apply first_resource_id_traffic | traffic_step ].
Qed.

Lemma get_user_id_ws_reads (user_email : string) :
  preserves (traffic (fun r => is_get r /\ goes_to cfg "/api/2.0/preview/scim/v2/Users" r))
    (get_user_id P cfg user_email).
Proof.
  unfold get_user_id.
  traffic_step; [apply auth_headers_traffic|].
  traffic_step.
  { apply safe_request_traffic. intros r (Hm & Hu & _). split; assumption. }
  repeat first [ apply first_resource_id_traffic | traffic_step ].
Qed.

(** What [create_project_groups] does once the look-up has come back empty. *)
Lemma create_project_groups_after_lookup (name : string) (w w1 w' : World E)
    (gid : value) (r : res value) :
  get_group_id P cfg name w = (Ok gid, w1) ->
  truthy gid = false ->
  create_project_groups P cfg name w = (r, w') ->
  traffic (creates cfg "/api/2.0/preview/scim/v2/Groups" (group_payload name)) w1 w'
  /\ forall v, r = Ok v ->
       truthy v = true
       /\ exists resp,
            answered P (ws_request cfg "POST" "/api/2.0/preview/scim/v2/Groups" VNone
                          (group_payload name)) resp
            /\ (status_code resp = 200 \/ status_code resp = 201)%Z.
Proof.
  intros Hlook Hid. unfold create_project_groups. unfold bind at 1.
  rewrite Hlook, Hid. intros Hrun. split.
  - match type of Hrun with
    | ?m w1 = _ =>
        assert (Hp : preserves
                       (traffic (creates cfg "/api/2.0/preview/scim/v2/Groups"
                                   (group_payload name))) m)
    end.
    { traffic_step; [apply auth_headers_traffic|].
      traffic_step.
      { apply safe_request_traffic. intros rq (Hm & Hu & _ & Hj). repeat split; assumption. }
      repeat traffic_step. }
    exact (Hp _ _ _ Hrun).
  - intros v ->. revert Hrun. unfold bind at 1.
    destruct (_auth_headers P w1) as [[h|e] w0]; [|discriminate].
    unfold bind at 1.
    destruct (_safe_request P _ FAST_RETRIES w0) as [[o|e] w2] eqn:Hreq; [|discriminate].
    unfold bind at 1. unfold lift at 1.
    destruct (py_get o "status_code") as [sc|e] eqn:Hsc; [|discriminate].
    unfold bind at 1. unfold lift at 1.
    destruct (py_get_default o "body" (VDict [])) as [b|e]; [|discriminate].
    destruct (eq_int sc 200) eqn:H200; [|destruct (eq_int sc 201) eqn:H201]; cbn [orb].
    + unfold bind at 1. unfold lift at 1.
      destruct (py_get b "id") as [i|e]; [|discriminate].
      destruct (truthy i) eqn:Hi; [|discriminate]. intros [= <- _].
      split; [exact Hi|].
      destruct (safe_request_status P _ _ _ _ _ _ _ Hreq Hsc H200 ltac:(lia))
        as (resp & Hr & Hst & _).
      exists resp. split; [eapply answered_any_headers, Hr | now left].
    + unfold bind at 1. unfold lift at 1.
      destruct (py_get b "id") as [i|e]; [|discriminate].
      destruct (truthy i) eqn:Hi; [|discriminate]. intros [= <- _].
      split; [exact Hi|].
      destruct (safe_request_status P _ _ _ _ _ _ _ Hreq Hsc H201 ltac:(lia))
        as (resp & Hr & Hst & _).
      exists resp. split; [eapply answered_any_headers, Hr | now right].
    + unfold bind, lift, raise. destruct (py_get o "error"); discriminate.
Qed.

End Groups.

(** X24. [create_project_groups] is idempotent by look-up.  When the look-up
    of the group by display name finds an id, that id is returned and nothing
    is sent beyond the GETs of the look-up.  When it finds none, every
    further request is the POST that creates the group under that name, and
    the function returns only an id that is not empty, taken from a response
    the platform gave with status 200 or 201. *)
Theorem create_project_groups_is_idempotent_by_lookup :
  forall (E : Type) (P : Platform E) (cfg : Config) (name : string)
         (w w1 : World E) (gid : value),
    get_group_id P cfg name w = (Ok gid, w1) ->
    traffic (fun r => is_get r /\ goes_to cfg "/api/2.0/preview/scim/v2/Groups" r) w w1
    /\ (truthy gid = true -> create_project_groups P cfg name w = (Ok gid, w1))
    /\ (truthy gid = false ->
        forall (r : res value) (w' : World E),
          create_project_groups P cfg name w = (r, w') ->
          traffic (creates cfg "/api/2.0/preview/scim/v2/Groups" (group_payload name)) w1 w'
          /\ forall v, r = Ok v ->
               truthy v = true
               /\ exists resp,
                    answered P (ws_request cfg "POST" "/api/2.0/preview/scim/v2/Groups" VNone
                                  (group_payload name)) resp
                    /\ (status_code resp = 200 \/ status_code resp = 201)%Z).
Proof.
  intros E P cfg name w w1 gid Hlook. split; [|split].
  - eapply get_group_id_reads, Hlook.
  - intros Hid. unfold create_project_groups. unfold bind at 1. now rewrite Hlook, Hid.
  - intros Hid r w'.
    exact (create_project_groups_after_lookup P cfg name w w1 w' gid r Hlook Hid).
Qed.

(** The group exists: one GET, no POST.  It does not: one GET, one POST, and
    the id of the answer. *)
Lemma create_project_groups_on_examples :
  (exists w',
      create_project_groups Script.platform Sim.cfg0 "nprod_tm_it_ledger_readers"
        (Script.world_of [Done (Script.ok_200 (resources_body [VDict [("id", VStr "g9")]]))])
      = (Ok (VStr "g9"), w')
      /\ length (calls w') = 1%nat)
  /\ (exists w',
         create_project_groups Script.platform Sim.cfg0 "nprod_tm_it_ledger_readers"
           (Script.world_of [Done (Script.ok_200 (resources_body []));
                             Sim.answer 201 (VDict [("id", VStr "g10")])])
         = (Ok (VStr "g10"), w')
         /\ length (calls w') = 2%nat).
Proof.
  split.
  - run_as Hlook (get_group_id Script.platform Sim.cfg0 "nprod_tm_it_ledger_readers"
                    (Script.world_of
                       [Done (Script.ok_200 (resources_body [VDict [("id", VStr "g9")]]))])).
    destruct (create_project_groups_is_idempotent_by_lookup _ _ _ _ _ _ _ Hlook)
      as (_ & H & _).
    eexists. split; [exact (H eq_refl) | reflexivity].
  - run_as Hlook (get_group_id Script.platform Sim.cfg0 "nprod_tm_it_ledger_readers"
                    (Script.world_of [Done (Script.ok_200 (resources_body []));
                                      Sim.answer 201 (VDict [("id", VStr "g10")])])).
    destruct (create_project_groups_is_idempotent_by_lookup _ _ _ _ _ _ _ Hlook)
      as (_ & _ & H).
    run_as Hrun (create_project_groups Script.platform Sim.cfg0 "nprod_tm_it_ledger_readers"
                   (Script.world_of [Done (Script.ok_200 (resources_body []));
                                     Sim.answer 201 (VDict [("id", VStr "g10")])])).
    destruct (H eq_refl _ _ Hrun) as (_ & Hv).
    destruct (Hv _ eq_refl) as (_ & _).
    eexists. split; [exact Hrun | reflexivity].
Defined.

(** X25. A user the workspace does not know is not added, and that is not an
    error.  When [get_user_id] finds no id for the e-mail,
    [add_user_to_group_by_id] returns [False] having sent only the GETs of the
    look-up: the group is not patched.  Whenever it returns [True], the
    platform answered the PATCH of that group with status 200 or 204. *)
Theorem unknown_owner_is_not_added :
  forall (E : Type) (P : Platform E) (cfg : Config) (group_id : value)
         (group_full_name user_email : string) (w : World E),
    (forall (uid : value) (w1 : World E),
        get_user_id P cfg user_email w = (Ok uid, w1) ->
        truthy uid = false ->
        add_user_to_group_by_id P cfg group_id group_full_name user_email w
        = (Ok (VBool false), w1)
        /\ traffic (fun r => is_get r /\ goes_to cfg "/api/2.0/preview/scim/v2/Users" r) w w1)
    /\ (forall w' : World E,
           add_user_to_group_by_id P cfg group_id group_full_name user_email w
           = (Ok (VBool true), w') ->
           exists (uid : value) (w1 : World E) (r : response),
             get_user_id P cfg user_email w = (Ok uid, w1)
             /\ truthy uid = true
             /\ answered P (ws_request cfg "PATCH"
                              ("/api/2.0/preview/scim/v2/Groups/" ++ py_str P group_id)
                              VNone (add_owner_patch uid)) r
             /\ (status_code r = 200 \/ status_code r = 204)%Z).
Proof.
  intros E P cfg group_id group_full_name user_email w. split.
  - intros uid w1 Hlook Hid. split.
    + unfold add_user_to_group_by_id. unfold bind at 1. now rewrite Hlook, Hid.
    + eapply get_user_id_ws_reads, Hlook.
  - intros w'. unfold add_user_to_group_by_id. unfold bind at 1.
    destruct (get_user_id P cfg user_email w) as [[uid|e] w1] eqn:Hlook; [|discriminate].
    destruct (truthy uid) eqn:Hid; cbn [negb]; [|discriminate].
    unfold bind at 1.
    destruct (_auth_headers P w1) as [[h|e] w0]; [|discriminate].
    unfold bind at 1.
    destruct (_safe_request P _ FAST_RETRIES w0) as [[o|e] w2] eqn:Hreq; [|discriminate].
    unfold bind at 1. unfold lift at 1.
    destruct (py_get o "status_code") as [sc|e] eqn:Hsc; [|discriminate].
    destruct (eq_int sc 200) eqn:H200; [|destruct (eq_int sc 204) eqn:H204]; cbn [orb].
    + intros _.
      destruct (safe_request_status P _ _ _ _ _ _ _ Hreq Hsc H200 ltac:(lia))
        as (r & Hr & Hst & _).
      exists uid, w1, r. split; [reflexivity|]. split; [exact Hid|].
      split; [eapply answered_any_headers, Hr | now left].
    + intros _.
      destruct (safe_request_status P _ _ _ _ _ _ _ Hreq Hsc H204 ltac:(lia))
        as (r & Hr & Hst & _).
      exists uid, w1, r. split; [reflexivity|]. split; [exact Hid|].
      split; [eapply answered_any_headers, Hr | now right].
    + unfold bind, lift, raise.
      destruct (py_get o "error"); [|discriminate].
      destruct (py_get o "body"); discriminate.
Qed.

Lemma unknown_owner_on_an_example :
  exists w1,
    add_user_to_group_by_id Script.platform Sim.cfg0 (VStr "g9") "nprod_tm_it_ledger_readers"
      "zed@x.io" (Script.world_of [Done (Script.ok_200 (resources_body []))])
    = (Ok (VBool false), w1)
    /\ length (calls w1) = 1%nat.
Proof.
  run_as Hlook (get_user_id Script.platform Sim.cfg0 "zed@x.io"
                  (Script.world_of [Done (Script.ok_200 (resources_body []))])).
  destruct (unknown_owner_is_not_added _ Script.platform Sim.cfg0 (VStr "g9")
              "nprod_tm_it_ledger_readers" "zed@x.io"
              (Script.world_of [Done (Script.ok_200 (resources_body []))])) as (H & _).
  destruct (H _ _ Hlook eq_refl) as (Hrun & _).
  eexists. split; [exact Hrun | reflexivity].
Defined.

(** X26. Creating a schema that exists is a success.  [create_project_schema]
    refuses an empty catalog name, schema name or storage root before it
    sends anything.  With all three given, whenever it returns, the platform
    answered the POST of the schema with status 200, 201 or 409; on a 409 the
    result is the marker with status "exists", not an error. *)
Theorem schema_creation_accepts_a_conflict :
  forall (E : Type) (P : Platform E) (cfg : Config)
         (catalog_name schema_name storage_root_url : string) (w : World E),
    (nonempty catalog_name && nonempty schema_name && nonempty storage_root_url = false ->
     create_project_schema P cfg catalog_name schema_name storage_root_url w
     = (Raise (ValueError "Catalog name, schema name, and storage root URL are required for schema creation."), w))
    /\ (forall (v : value) (w' : World E),
           create_project_schema P cfg catalog_name schema_name storage_root_url w
           = (Ok v, w') ->
           exists r,
             answered P (ws_request cfg "POST" "/api/2.1/unity-catalog/schemas" VNone
                           (schema_payload catalog_name schema_name storage_root_url)) r
             /\ (status_code r = 200 \/ status_code r = 201 \/ status_code r = 409)%Z
             /\ (status_code r = 409%Z ->
                 v = VDict [("name", VStr schema_name); ("catalog_name", VStr catalog_name);
                            ("status", VStr "exists")])).
Proof.
  intros E P cfg catalog_name schema_name storage_root_url w.
  unfold create_project_schema. split.
  - intros ->. reflexivity.
  - intros v w'.
    destruct (nonempty catalog_name && nonempty schema_name && nonempty storage_root_url);
      cbn [negb]; [|discriminate].
    unfold bind at 1.
    destruct (_auth_headers P w) as [[h|e] w0]; [|discriminate].
    unfold bind at 1.
    destruct (_safe_request P _ FAST_RETRIES w0) as [[o|e] w2] eqn:Hreq; [|discriminate].
    unfold bind at 1. unfold lift at 1.
    destruct (py_get o "status_code") as [sc|e] eqn:Hsc; [|discriminate].
    unfold bind at 1. unfold lift at 1.
    destruct (py_get_default o "body" (VDict [])) as [b|e]; [|discriminate].
    destruct (eq_int sc 200) eqn:H200; [|destruct (eq_int sc 201) eqn:H201]; cbn [orb].
    + intros _.
      destruct (safe_request_status P _ _ _ _ _ _ _ Hreq Hsc H200 ltac:(lia))
        as (r & Hr & Hst & _).
      exists r. split; [eapply answered_any_headers, Hr|]. split; [now left|]. lia.
    + intros _.
      destruct (safe_request_status P _ _ _ _ _ _ _ Hreq Hsc H201 ltac:(lia))
        as (r & Hr & Hst & _).
      exists r. split; [eapply answered_any_headers, Hr|]. split; [now right; left|]. lia.
    + destruct (eq_int sc 409) eqn:H409.
      * intros [= <- _].
        destruct (safe_request_status P _ _ _ _ _ _ _ Hreq Hsc H409 ltac:(lia))
          as (r & Hr & Hst & _).
        exists r. split; [eapply answered_any_headers, Hr|]. split; [now right; right|].
        reflexivity.
      * unfold bind, lift, raise. destruct (py_get o "error"); discriminate.
Qed.

Lemma schema_creation_on_a_conflict :
  create_project_schema Script.platform Sim.cfg0 "main" "" "s3://bucket/ledger"
    (Script.world_of [Sim.conflict])
  = (Raise (ValueError "Catalog name, schema name, and storage root URL are required for schema creation."),
     Script.world_of [Sim.conflict])
  /\ exists w' r,
       create_project_schema Script.platform Sim.cfg0 "main" "ledger" "s3://bucket/ledger"
         (Script.world_of [Sim.conflict])
       = (Ok (VDict [("name", VStr "ledger"); ("catalog_name", VStr "main");
                     ("status", VStr "exists")]), w')
       /\ answered Script.platform
            (ws_request Sim.cfg0 "POST" "/api/2.1/unity-catalog/schemas" VNone
               (schema_payload "main" "ledger" "s3://bucket/ledger")) r
       /\ (status_code r = 200 \/ status_code r = 201 \/ status_code r = 409)%Z.
Proof.
  split.
  - destruct (schema_creation_accepts_a_conflict _ Script.platform Sim.cfg0 "main" ""
                "s3://bucket/ledger" (Script.world_of [Sim.conflict])) as (H & _).
    exact (H eq_refl).
  - run_as Hrun (create_project_schema Script.platform Sim.cfg0 "main" "ledger"
                   "s3://bucket/ledger" (Script.world_of [Sim.conflict])).
    destruct (schema_creation_accepts_a_conflict _ Script.platform Sim.cfg0 "main" "ledger"
                "s3://bucket/ledger" (Script.world_of [Sim.conflict])) as (_ & H).
    destruct (H _ _ Hrun) as (r & Hr & Hst & _).
    eexists _, r. split; [exact Hrun|]. split; [exact Hr | exact Hst].
Defined.

(* ================================================================== *)
(** ** Look-ups by name match exactly *)
(* ================================================================== *)

(** X27. The look-ups by name match the whole name, and take the first match.
    Whenever [get_cluster_id] or [get_sql_warehouse_id] returns, the value is
    the id of the first listed item whose name equals the requested name
    character for character, or [None] when no listed item has that name.
    [get_policy_id] returns the id of the first such policy and never an
    empty id: when the policy is missing it raises instead. *)
Theorem name_lookups_match_exactly :
  forall (E : Type) (P : Platform E) (cfg : Config) (name : string)
         (w w' : World E) (v : value),
    (get_policy_id P cfg name w = (Ok v, w') ->
     truthy v = true
     /\ exists lst items,
          list_resources P cfg "/api/2.0/policies/clusters/list" "cluster policies list"
            "policies" w = (Ok lst, w')
          /\ py_iter lst = Ok items
          /\ first_named "name" "policy_id" name items v)
    /\ (get_cluster_id P cfg name w = (Ok v, w') ->
        exists lst items,
          list_resources P cfg "/api/2.0/clusters/list" "cluster list" "clusters" w
          = (Ok lst, w')
          /\ py_iter lst = Ok items
          /\ (first_named "cluster_name" "cluster_id" name items v
              \/ (v = VNone /\ none_named "cluster_name" name items)))
    /\ (get_sql_warehouse_id P cfg name w = (Ok v, w') ->
        exists lst items,
          list_resources P cfg "/api/2.0/sql/warehouses" "warehouse list" "warehouses" w
          = (Ok lst, w')
          /\ py_iter lst = Ok items
          /\ (first_named "name" "id" name items v
              \/ (v = VNone /\ none_named "name" name items))).
Proof.
  intros E P cfg name w w' v. split; [|split].
  - unfold get_policy_id. unfold bind at 1.
    destruct (list_resources P cfg _ _ _ w) as [[lst|e] w1]; [|discriminate].
    unfold bind at 1. unfold lift at 1.
    destruct (py_iter lst) as [items|e] eqn:Hiter; [|discriminate].
    unfold bind at 1. unfold lift at 1.
    destruct (find_named "name" "policy_id" name items) as [found|e] eqn:Hfind;
      [|discriminate].
    destruct (truthy found) eqn:Ht; [|discriminate].
    intros [= <- <-]. split; [exact Ht|].
    exists lst, items. split; [reflexivity|]. split; [exact Hiter|].
    destruct (find_named_first _ _ _ _ _ Hfind) as [H|(-> & _)]; [exact H|discriminate].
  - unfold get_cluster_id. unfold bind at 1.
    destruct (list_resources P cfg _ _ _ w) as [[lst|e] w1]; [|discriminate].
    unfold bind at 1. unfold lift at 1.
    destruct (py_iter lst) as [items|e] eqn:Hiter; [|discriminate].
    unfold lift. intros [= Hfind <-].
    exists lst, items. split; [reflexivity|]. split; [exact Hiter|].
    now apply find_named_first.
  - unfold get_sql_warehouse_id. unfold bind at 1.
    destruct (list_resources P cfg _ _ _ w) as [[lst|e] w1]; [|discriminate].
    unfold bind at 1. unfold lift at 1.
    destruct (py_iter lst) as [items|e] eqn:Hiter; [|discriminate].
    unfold lift. intros [= Hfind <-].
    exists lst, items. split; [reflexivity|]. split; [exact Hiter|].
    now apply find_named_first.
Qed.

(** The reference workspace lists the cluster "app" under the id "c1". *)
Lemma name_lookups_on_the_reference_workspace :
  exists w' lst items,
    get_cluster_id (Sim.platform Sim.cfg0) Sim.cfg0 "app" (Sim.world_of Sim.d0)
    = (Ok (VStr "c1"), w')
    /\ list_resources (Sim.platform Sim.cfg0) Sim.cfg0 "/api/2.0/clusters/list" "cluster list"
         "clusters" (Sim.world_of Sim.d0) = (Ok lst, w')
    /\ py_iter lst = Ok items
    /\ (first_named "cluster_name" "cluster_id" "app" items (VStr "c1")
        \/ (VStr "c1" = VNone /\ none_named "cluster_name" "app" items)).
Proof.
  run_as Hrun (get_cluster_id (Sim.platform Sim.cfg0) Sim.cfg0 "app" (Sim.world_of Sim.d0)).
  pose proof (proj1 (proj2 (name_lookups_match_exactly _ _ _ _ _ _ _)) Hrun)
    as (lst & items & Hlist & Hiter & Hfirst).
  eexists _, lst, items. split; [exact Hrun|]. repeat split; assumption.
Defined.

(* ================================================================== *)
(** ** Cluster creation is a single attempt *)
(* ================================================================== *)


